(** * The multi-instance routing gateway of ida-pro-mcp

    A shallow embedding of [src/ida_pro_mcp/server.py]: the instance
    registry ([find_instance], [register_instance], [unregister_instance]),
    the discovery scanner ([discover_ida_instances]), the schema augmenter
    ([add_binary_param_to_schema]), the list_instances tool, the routing
    gateway ([dispatch_proxy]), the registration listener
    ([RegistryHttpHandler]) and the update of a client's configuration
    ([copy_python_env], [install_mcp_servers]); and of the worker's side
    in [src/ida_pro_mcp/ida_mcp.py]: what a worker posts to the listener
    and [unload_package].  The properties established for them follow.

    Python values are modelled as JSON trees; a dict is an association
    list in insertion order (Python dicts iterate in insertion order, and
    [find_instance] returns the first match of an iteration).  Code that
    can raise returns a [result]; code that mutates the registry or the
    request object passes the new value on explicitly. *)

From Stdlib Require Import String Ascii List ZArith Bool Lia.
Import ListNotations.
Set Warnings "-register-all".
Local Open Scope string_scope.
Local Open Scope list_scope.

(** ** Python values *)

(** What [json.loads] produces.  Numbers are the integers of JSON; the
    gateway does no arithmetic on request data. *)
Inductive json : Type :=
| JNull                                   (* None *)
| JBool (b : bool)
| JNum (n : Z)
| JStr (s : string)
| JArr (items : list json)
| JObj (fields : list (string * json)).

(** The exceptions the modelled code can meet.  [OSError] stands for
    every failure of the HTTP exchange (refused, timed out, reset) and
    carries the text the operating system gave. *)
Inductive exn : Type :=
| KeyError
| TypeError
| AttributeError
| IndexError
| JSONDecodeError
| OSError (detail : string).

Inductive result (A : Type) : Type :=
| Ok (a : A)
| Raise (e : exn).
Arguments Ok {A} a.
Arguments Raise {A} e.

Definition bind {A B : Type} (c : result A) (k : A -> result B) : result B :=
  match c with
  | Ok a => k a
  | Raise e => Raise e
  end.

Notation "x <- c ;; k" := (bind c (fun x => k))
  (at level 61, c at next level, right associativity).

Fixpoint mapM {A B : Type} (f : A -> result B) (l : list A) : result (list B) :=
  match l with
  | [] => Ok []
  | x :: t => y <- f x ;; ys <- mapM f t ;; Ok (y :: ys)
  end.

(** *** Dicts with string keys *)

Definition dict := list (string * json).

Fixpoint dict_get (m : dict) (k : string) : option json :=
  match m with
  | [] => None
  | (k', v) :: t => if String.eqb k' k then Some v else dict_get t k
  end.

Definition dict_has (m : dict) (k : string) : bool :=
  match dict_get m k with Some _ => true | None => false end.

(** [m[k] = v]: an existing key keeps its place, a new one goes last. *)
Fixpoint dict_set (m : dict) (k : string) (v : json) : dict :=
  match m with
  | [] => [(k, v)]
  | (k', v') :: t =>
      if String.eqb k' k then (k', v) :: t else (k', v') :: dict_set t k v
  end.

(** [del m[k]]: nothing is left under [k]. *)
Fixpoint dict_del (m : dict) (k : string) : dict :=
  match m with
  | [] => []
  | (k', v') :: t =>
      if String.eqb k' k then dict_del t k else (k', v') :: dict_del t k
  end.

(** [m.pop(k, None)]: the value (None when absent) and what is left. *)
Definition dict_pop (m : dict) (k : string) : json * dict :=
  match dict_get m k with
  | Some v => (v, dict_del m k)
  | None => (JNull, m)
  end.

(** [m.get(k, default)] on a dict. *)
Definition dict_get_or (m : dict) (k : string) (default : json) : json :=
  match dict_get m k with Some v => v | None => default end.

(** *** Operators *)

(** [bool(v)], as [if v:] and [v and ...] use it. *)
Definition truthy (v : json) : bool :=
  match v with
  | JNull => false
  | JBool b => b
  | JNum n => negb (n =? 0)%Z
  | JStr s => negb (String.eqb s EmptyString)
  | JArr l => match l with [] => false | _ => true end
  | JObj m => match m with [] => false | _ => true end
  end.

(** Lists and dicts cannot be dict keys or set elements. *)
Definition hashable (v : json) : bool :=
  match v with
  | JArr _ | JObj _ => false
  | _ => true
  end.

(** [a == b].  A bool compares as the integer 0 or 1; dicts compare
    without regard to order. *)
Fixpoint py_eq (a b : json) {struct a} : bool :=
  match a, b with
  | JNull, JNull => true
  | JBool x, JBool y => Bool.eqb x y
  | JBool x, JNum n => (n =? (if x then 1 else 0))%Z
  | JNum n, JBool x => (n =? (if x then 1 else 0))%Z
  | JNum x, JNum y => (x =? y)%Z
  | JStr x, JStr y => String.eqb x y
  | JArr xs, JArr ys =>
      (fix all2 (l : list json) (r : list json) {struct l} : bool :=
         match l, r with
         | [], [] => true
         | x :: l', y :: r' => py_eq x y && all2 l' r'
         | _, _ => false
         end) xs ys
  | JObj xs, JObj ys =>
      Nat.eqb (length xs) (length ys) &&
      (fix sub (l : list (string * json)) {struct l} : bool :=
         match l with
         | [] => true
         | (k, v) :: l' =>
             match dict_get ys k with
             | Some w => py_eq v w
             | None => false
             end && sub l'
         end) xs
  | _, _ => false
  end.

(** [needle in hay] for two strings: [needle] occurs in [hay]. *)
Fixpoint str_contains (needle hay : string) : bool :=
  String.prefix needle hay ||
  match hay with
  | EmptyString => false
  | String _ t => str_contains needle t
  end.

(** [x in c]. *)
Definition py_in (x c : json) : result bool :=
  match c with
  | JStr hay =>
      match x with
      | JStr needle => Ok (str_contains needle hay)
      | _ => Raise TypeError
      end
  | JArr l => Ok (existsb (py_eq x) l)
  | JObj m =>
      match x with
      | JStr k => Ok (dict_has m k)
      | JArr _ | JObj _ => Raise TypeError
      | _ => Ok false
      end
  | _ => Raise TypeError
  end.

(** [c[k]] for a string literal [k]. *)
Definition py_getitem (c : json) (k : string) : result json :=
  match c with
  | JObj m =>
      match dict_get m k with
      | Some v => Ok v
      | None => Raise KeyError
      end
  | _ => Raise TypeError
  end.

(** [c.get(k, default)]: only a dict has the method. *)
Definition py_get (c : json) (k : string) (default : json) : result json :=
  match c with
  | JObj m => Ok (dict_get_or m k default)
  | _ => Raise AttributeError
  end.

(** [len(c)]. *)
Definition py_len (c : json) : result nat :=
  match c with
  | JStr s => Ok (String.length s)
  | JArr l => Ok (length l)
  | JObj m => Ok (length m)
  | _ => Raise TypeError
  end.

(** [c[0]]. *)
Definition py_first (c : json) : result json :=
  match c with
  | JArr (x :: _) => Ok x
  | JArr [] => Raise IndexError
  | JStr (String a _) => Ok (JStr (String a EmptyString))
  | JStr EmptyString => Raise IndexError
  | JObj _ => Raise KeyError           (* the keys are strings *)
  | _ => Raise TypeError
  end.

(** ** The instance registry *)

(** The dict [register_instance] stores for one IDA instance;
    [registered_at] is the reading of the clock, in ticks. *)
Record instance : Type := {
  host : json;
  port : json;
  path : json;
  module : json;
  md5 : json;
  sha256 : json;
  registered_at : Z
}.

(** [IDA_INSTANCES], in insertion order.  The keys are what
    [register_instance] stores: truthy hashable values. *)
Definition registry := list (json * instance).

(** [IDA_INSTANCES[k]] when [k in IDA_INSTANCES]. *)
Fixpoint reg_get (reg : registry) (k : json) : option instance :=
  match reg with
  | [] => None
  | (k', i) :: t => if py_eq k' k then Some i else reg_get t k
  end.

Definition reg_has (reg : registry) (k : json) : bool :=
  match reg_get reg k with Some _ => true | None => false end.

(** [IDA_INSTANCES[k] = i]. *)
Fixpoint reg_set (reg : registry) (k : json) (i : instance) : registry :=
  match reg with
  | [] => [(k, i)]
  | (k', i') :: t =>
      if py_eq k' k then (k', i) :: t else (k', i') :: reg_set t k i
  end.

(** [del IDA_INSTANCES[k]]: nothing is left under [k]. *)
Fixpoint reg_del (reg : registry) (k : json) : registry :=
  match reg with
  | [] => []
  | (k', i') :: t =>
      if py_eq k' k then reg_del t k else (k', i') :: reg_del t k
  end.

(** The first instance, in iteration order, whose module equals [binary]. *)
Fixpoint find_by_module (reg : registry) (binary : json) : option instance :=
  match reg with
  | [] => None
  | (_, i) :: t =>
      if py_eq (module i) binary then Some i else find_by_module t binary
  end.

(** The first instance, in iteration order, with [binary in path]. *)
Fixpoint find_by_path (reg : registry) (binary : json) : result (option instance) :=
  match reg with
  | [] => Ok None
  | (_, i) :: t =>
      hit <- py_in binary (path i) ;;
      if hit then Ok (Some i) else find_by_path t binary
  end.

Definition find_instance (reg : registry) (binary : json) : result (option instance) :=
  if negb (hashable binary) then Raise TypeError
  else
    match reg_get reg binary with
    | Some i => Ok (Some i)
    | None =>
        match find_by_module reg binary with
        | Some i => Ok (Some i)
        | None => find_by_path reg binary
        end
    end.

Definition get_instance_count (reg : registry) : nat := length reg.

Definition get_single_instance (reg : registry) : option instance :=
  match reg with
  | [(_, i)] => Some i
  | _ => None
  end.

(** [register_instance(data)]; [now] is what [time.time()] returns
    during the call.  The reply dict and the registry afterwards. *)
Definition register_instance (now : Z) (data : json) (reg : registry)
  : result (json * registry) :=
  sha <- py_get data "sha256" (JStr EmptyString) ;;
  md <- py_get data "md5" (JStr EmptyString) ;;
  let binary_id := if truthy sha then sha else md in
  if negb (truthy binary_id) then
    Ok (JObj [("success", JBool false);
              ("error", JStr "No sha256 or md5 provided")], reg)
  else
    h <- py_get data "host" (JStr "127.0.0.1") ;;
    p <- py_get data "port" (JNum 13337) ;;
    pa <- py_get data "path" (JStr EmptyString) ;;
    mo <- py_get data "module" (JStr EmptyString) ;;
    if negb (hashable binary_id) then Raise TypeError
    else
      Ok (JObj [("success", JBool true); ("binary_id", binary_id)],
          reg_set reg binary_id
            {| host := h; port := p; path := pa; module := mo;
               md5 := md; sha256 := sha; registered_at := now |}).

(** [k and k in IDA_INSTANCES]. *)
Definition names_instance (reg : registry) (k : json) : result bool :=
  if negb (truthy k) then Ok false
  else if negb (hashable k) then Raise TypeError
  else Ok (reg_has reg k).

Definition unregister_instance (data : json) (reg : registry)
  : result (json * registry) :=
  binary_id <- py_get data "binary_id" (JStr EmptyString) ;;
  sha <- py_get data "sha256" (JStr EmptyString) ;;
  md <- py_get data "md5" (JStr EmptyString) ;;
  by_id <- names_instance reg binary_id ;;
  key_to_remove <-
    (if by_id then Ok (Some binary_id)
     else
       by_sha <- names_instance reg sha ;;
       if by_sha then Ok (Some sha)
       else
         by_md <- names_instance reg md ;;
         if by_md then Ok (Some md) else Ok None) ;;
  match key_to_remove with
  | Some k =>
      Ok (JObj [("success", JBool true); ("binary_id", k)], reg_del reg k)
  | None =>
      Ok (JObj [("success", JBool false);
                ("error", JStr "Instance not found")], reg)
  end.

(** ** The environment *)

(** What the gateway reads from outside itself: its two globals, the
    platform name, the clock, the JSON parser, the HTTP exchange with a
    worker, and the text Python renders for exceptions and values. *)
Record env : Type := {
  IDA_HOST : string;
  IDA_PORT : Z;
  sys_platform : string;
  (** [time.time()] read while the instance found on a port is registered *)
  time_time : Z -> Z;
  json_loads : string -> result json;
  (** POST /mcp with a timeout, a body, a host and a port; the reply's
      decoded body, or the failure of the connection *)
  http_post_mcp : Z -> json -> json -> json -> result string;
  str_of_exn : exn -> string;          (* str(e) *)
  format_exc : exn -> string;          (* traceback.format_exc() *)
  repr_of : json -> string             (* repr(v) *)
}.

(** [f"{v}"]: a string is printed as it is. *)
Definition format_value (E : env) (v : json) : string :=
  match v with
  | JStr s => s
  | _ => repr_of E v
  end.

Definition newline : string := String (ascii_of_nat 10) EmptyString.

(** [request_data] stands for the text [json.dumps] gives for it. *)
Definition forward_to_instance (E : env) (request_data : json) (h p : json)
  : result json :=
  data <- http_post_mcp E 30 request_data h p ;;
  json_loads E data.

(** ** The schema augmenter *)

Definition binary_property : json :=
  JObj [("type", JStr "string");
        ("description",
         JStr "Target binary (name like 'binary.exe', sha256 hash, or path). Use list_instances to see available binaries.")].

Definition list_instances_tool : json :=
  JObj [("name", JStr "list_instances");
        ("description",
         JStr "List all connected IDA Pro instances with their binary information");
        ("inputSchema",
         JObj [("type", JStr "object");
               ("properties", JObj []);
               ("required", JArr [])])].

(** One turn of the loop over the tools: the tool afterwards. *)
Definition add_binary_param (tool : json) : result json :=
  has_schema <- py_in (JStr "inputSchema") tool ;;
  if negb has_schema then Ok tool
  else
    schema <- py_getitem tool "inputSchema" ;;
    has_props <- py_in (JStr "properties") schema ;;
    if negb has_props then Ok tool
    else
      props <- py_getitem schema "properties" ;;
      match tool, schema, props with
      | JObj tm, JObj sm, JObj pm =>
          Ok (JObj (dict_set tm "inputSchema"
                (JObj (dict_set sm "properties"
                   (JObj (dict_set pm "binary" binary_property))))))
      | _, _, _ => Raise TypeError       (* no item assignment *)
      end.

(** One element of [{tool["name"] for tool in ...}]. *)
Definition tool_name (tool : json) : result json :=
  name <- py_getitem tool "name" ;;
  if hashable name then Ok name else Raise TypeError.

Definition add_binary_param_to_schema (response : json) : result json :=
  has_result <- py_in (JStr "result") response ;;
  if negb has_result then Ok response
  else
    res <- py_getitem response "result" ;;
    has_tools <- py_in (JStr "tools") res ;;
    if negb has_tools then Ok response
    else
      tools <- py_getitem res "tools" ;;
      match tools with
      | JArr l =>
          l' <- mapM add_binary_param l ;;
          existing_names <- mapM tool_name l' ;;
          let l'' :=
            if existsb (fun n => py_eq (JStr "list_instances") n) existing_names
            then l' else l' ++ [list_instances_tool] in
          match response, res with
          | JObj rm, JObj sm =>
              Ok (JObj (dict_set rm "result" (JObj (dict_set sm "tools" (JArr l'')))))
          | _, _ => Raise TypeError
          end
      (* a str or a dict is iterated as strings, and has no append *)
      | JStr EmptyString | JObj [] => Raise AttributeError
      | _ => Raise TypeError
      end.

(** ** The discovery scanner *)

Definition idb_meta_request : json :=
  JObj [("jsonrpc", JStr "2.0");
        ("method", JStr "tools/call");
        ("params", JObj [("name", JStr "idb_meta"); ("arguments", JObj [])]);
        ("id", JNum 1)].

(** The body of the [try] for one port: whether an instance was
    registered, and the registry afterwards. *)
Definition probe_port (E : env) (h : string) (p : Z) (reg : registry)
  : result (bool * registry) :=
  body <- http_post_mcp E 2 idb_meta_request (JStr h) (JNum p) ;;
  data <- json_loads E body ;;
  has_result <- py_in (JStr "result") data ;;
  if negb has_result then Ok (false, reg)
  else
    res <- py_getitem data "result" ;;
    has_content <- py_in (JStr "content") res ;;
    if negb has_content then Ok (false, reg)
    else
      content <- py_getitem res "content" ;;
      usable <-
        (if negb (truthy content) then Ok false
         else
           n <- py_len content ;;
           if Nat.eqb n 0 then Ok false
           else first <- py_first content ;; py_in (JStr "text") first) ;;
      if negb usable then Ok (false, reg)
      else
        first <- py_first content ;;
        text <- py_getitem first "text" ;;
        metadata <-
          match text with
          | JStr s => json_loads E s
          | _ => Raise TypeError
          end ;;
        pa <- py_get metadata "path" (JStr EmptyString) ;;
        mo <- py_get metadata "module" (JStr EmptyString) ;;
        md <- py_get metadata "md5" (JStr EmptyString) ;;
        sha <- py_get metadata "sha256" (JStr EmptyString) ;;
        let register_data :=
          JObj [("host", JStr h); ("port", JNum p); ("path", pa);
                ("module", mo); ("md5", md); ("sha256", sha)] in
        r <- register_instance (time_time E p) register_data reg ;;
        success <- py_get (fst r) "success" JNull ;;
        Ok (truthy success, snd r).

(** The loop over [range(max_tries)], from port [p] on, with the
    [except Exception: pass] around its body. *)
Fixpoint discover_from (E : env) (h : string) (p : Z) (tries : nat)
    (discovered : nat) (reg : registry) : nat * registry :=
  match tries with
  | O => (discovered, reg)
  | S tries' =>
      match probe_port E h p reg with
      | Ok (true, reg') => discover_from E h (p + 1) tries' (S discovered) reg'
      | Ok (false, reg') => discover_from E h (p + 1) tries' discovered reg'
      | Raise _ => discover_from E h (p + 1) tries' discovered reg
      end
  end.

Definition discover_ida_instances (E : env) (h : string) (start_port max_tries : Z)
    (reg : registry) : result (nat * registry) :=
  Ok (discover_from E h start_port (Z.to_nat max_tries) 0 reg).

(** ** The list_instances tool *)

(** One element of the list the tool returns. *)
Definition instance_info (binary_id : json) (info : instance) : json :=
  JObj [("binary_id", binary_id);
        ("module", module info);
        ("path", path info);
        ("md5", md5 info);
        ("sha256", sha256 info);
        ("port", port info);
        ("registered_at", JNum (registered_at info))].

(** Lines 272-289: scan, then list what is registered.  The list and
    the registry afterwards. *)
Definition list_instances (E : env) (reg : registry)
  : result (list json * registry) :=
  r <- discover_ida_instances E (IDA_HOST E) 13338 10 reg ;;
  Ok (map (fun e => instance_info (fst e) (snd e)) (snd r), snd r).

(** ** The routing gateway *)

(** The argument of [dispatch_proxy]: text still to be parsed (str,
    bytes, bytearray), or a dict, which the gateway then works on in
    place. *)
Inductive request_value : Type :=
| ReqText (raw : string)
| ReqDict (obj : dict).

(** One call of [forward_to_instance]. *)
Record forward_call : Type := {
  fwd_data : json;
  fwd_host : json;
  fwd_port : json
}.

(** How a call ends.  [Delegated] is [return dispatch_original(request)]:
    the dispatch of the framework takes over, and what it returns is
    not part of this model.  What it does to the registry is: on a
    call of list_instances it runs the tool, which scans for workers. *)
Inductive outcome : Type :=
| Delegated
| Returned (reply : json)   (* JNull is None: no reply value *)
| Raised (e : exn).

(** What one call of [dispatch_proxy] leaves behind: what it returns,
    the registry, the caller's request object, the calls of
    [forward_to_instance] and the arguments [find_instance] was given. *)
Record dispatched : Type := {
  result_of : outcome;
  instances_after : registry;
  request_after : request_value;
  forwarded : list forward_call;
  looked_up : list json
}.

(** The caller's request once the parsed request has become [m]: a dict
    passed in is the object that was changed, text is not. *)
Definition caller_view (request : request_value) (m : dict) : request_value :=
  match request with
  | ReqText raw => ReqText raw
  | ReqDict _ => ReqDict m
  end.

Definition error_reply (message : string) (data : option string) (request_id : json)
  : json :=
  JObj [("jsonrpc", JStr "2.0");
        ("error",
         JObj ([("code", JNum (-32000)); ("message", JStr message)]
               ++ match data with
                  | Some d => [("data", JStr d)]
                  | None => []
                  end));
        ("id", request_id)].

Definition no_instances_reply (request_id : json) : json :=
  JObj [("jsonrpc", JStr "2.0");
        ("result",
         JObj [("tools",
                JArr [JObj [("name", JStr "list_instances");
                            ("description",
                             JStr "List all connected IDA Pro instances with their binary information. No IDA instances are currently connected.");
                            ("inputSchema",
                             JObj [("type", JStr "object");
                                   ("properties", JObj []);
                                   ("required", JArr [])])]])]);
        ("id", request_id)].

Definition not_found_message (E : env) (binary : json) : string :=
  "No IDA instance found for binary: " ++ format_value E binary
  ++ ". Use list_instances to see available binaries.".

Definition multiple_instances_message : string :=
  "Multiple IDA instances are connected. Please specify the 'binary' parameter to select which one to use. Use list_instances to see available binaries.".

Definition connect_failed_message (E : env) (e : exn) : string :=
  let shortcut :=
    if String.eqb (sys_platform E) "darwin" then "Ctrl+Option+M" else "Ctrl+Alt+M" in
  "Failed to connect to IDA Pro! Did you run Edit -> Plugins -> MCP ("
  ++ shortcut ++ ") to start the server?" ++ newline ++ format_exc E e.

(** [params.get("name") == "list_instances"] for a dict [params]. *)
Definition is_list_instances_call (m : dict) : bool :=
  match dict_get_or m "params" (JObj []) with
  | JObj pm => py_eq (dict_get_or pm "name" JNull) (JStr "list_instances")
  | _ => false
  end.

(** Lines 184-192: the selector popped from the request, and the
    request object afterwards.  A missing "params" gives a fresh dict
    that is not part of the request. *)
Definition extract_binary (method : string) (m : dict) : json * dict :=
  match dict_get m "params" with
  | None => (JNull, m)
  | Some (JObj pm) =>
      if String.eqb method "tools/call" && dict_has pm "arguments" then
        match dict_get_or pm "arguments" (JObj []) with
        | JObj am =>
            (fst (dict_pop am "binary"),
             dict_set m "params"
               (JObj (dict_set pm "arguments" (JObj (snd (dict_pop am "binary"))))))
        | _ => (JNull, m)
        end
      else
        (fst (dict_pop pm "binary"),
         dict_set m "params" (JObj (snd (dict_pop pm "binary"))))
  | Some _ => (JNull, m)
  end.

(** Lines 141-179: the capability listing. *)
Definition dispatch_tools_list (E : env) (request : request_value) (m : dict)
    (reg : registry) : dispatched :=
  let scanned :=
    if Nat.eqb (get_instance_count reg) 0
    then r <- discover_ida_instances E (IDA_HOST E) 13338 10 reg ;; Ok (snd r)
    else Ok reg in
  match scanned with
  | Raise e =>
      {| result_of := Raised e; instances_after := reg;
         request_after := request; forwarded := []; looked_up := [] |}
  | Ok reg1 =>
      match reg1 with
      | [] =>
          {| result_of := Returned (no_instances_reply (dict_get_or m "id" JNull));
             instances_after := reg1; request_after := request;
             forwarded := []; looked_up := [] |}
      | (_, first_instance) :: _ =>
          let attempt :=
            response <- forward_to_instance E (JObj m)
                          (host first_instance) (port first_instance) ;;
            add_binary_param_to_schema response in
          {| result_of :=
               match attempt with
               | Ok response => Returned response
               | Raise e =>
                   Returned (error_reply ("Failed to get tools: " ++ str_of_exn E e)
                               None (dict_get_or m "id" JNull))
               end;
             instances_after := reg1; request_after := request;
             forwarded := [{| fwd_data := JObj m;
                              fwd_host := host first_instance;
                              fwd_port := port first_instance |}];
             looked_up := [] |}
      end
  end.

(** Lines 236-264: the forward, and the handler around it. *)
Definition forward_routed (E : env) (method : string) (m : dict)
    (target_host target_port : json) : outcome :=
  let attempt :=
    response <- forward_to_instance E (JObj m) target_host target_port ;;
    if String.eqb method "tools/list" then add_binary_param_to_schema response
    else Ok response in
  match attempt with
  | Ok response => Returned response
  | Raise e =>
      match dict_get_or m "id" JNull with
      | JNull => Returned JNull
      | request_id =>
          Returned (error_reply (connect_failed_message E e)
                      (Some (str_of_exn E e)) request_id)
      end
  end.

(** Lines 181-264: every other method. *)
Definition dispatch_routed (E : env) (request : request_value) (method : string)
    (m : dict) (reg : registry) : dispatched :=
  let binary := fst (extract_binary method m) in
  let m' := snd (extract_binary method m) in
  let request_id := dict_get_or m' "id" JNull in
  let stop (o : outcome) (finds : list json) :=
    {| result_of := o; instances_after := reg;
       request_after := caller_view request m';
       forwarded := []; looked_up := finds |} in
  let forward (target_host target_port : json) (finds : list json) :=
    {| result_of := forward_routed E method m' target_host target_port;
       instances_after := reg;
       request_after := caller_view request m';
       forwarded := [{| fwd_data := JObj m'; fwd_host := target_host;
                        fwd_port := target_port |}];
       looked_up := finds |} in
  if truthy binary then
    match find_instance reg binary with
    | Raise e => stop (Raised e) [binary]
    | Ok None =>
        match request_id with
        | JNull => stop (Returned JNull) [binary]
        | _ => stop (Returned (error_reply (not_found_message E binary) None request_id))
                 [binary]
        end
    | Ok (Some i) => forward (host i) (port i) [binary]
    end
  else if Nat.eqb (get_instance_count reg) 1 then
    match get_single_instance reg with
    | Some i => forward (host i) (port i) []
    | None => forward (JStr (IDA_HOST E)) (JNum (IDA_PORT E)) []
    end
  else if Nat.ltb 1 (get_instance_count reg) then
    match request_id with
    | JNull => stop (Returned JNull) []
    | _ => stop (Returned (error_reply multiple_instances_message None request_id)) []
    end
  else forward (JStr (IDA_HOST E)) (JNum (IDA_PORT E)) [].

(** Lines 135-138: [dispatch_original] on a call of list_instances.
    The framework runs the tool of lines 271-289, and the registry is
    left as the tool leaves it. *)
Definition delegate_list_instances (E : env) (request : request_value)
    (reg : registry) : dispatched :=
  {| result_of := Delegated;
     instances_after :=
       match list_instances E reg with
       | Ok r => snd r
       | Raise _ => reg
       end;
     request_after := request; forwarded := []; looked_up := [] |}.
Arguments delegate_list_instances : simpl never.

(** Lines 121-124: [request_obj]. *)
Definition parse_request (E : env) (request : request_value) : result json :=
  match request with
  | ReqDict m => Ok (JObj m)
  | ReqText raw => json_loads E raw
  end.

Definition dispatch_proxy (E : env) (request : request_value) (reg : registry)
  : dispatched :=
  let stop (o : outcome) :=
    {| result_of := o; instances_after := reg; request_after := request;
       forwarded := []; looked_up := [] |} in
  match parse_request E request with
  | Raise e => stop (Raised e)
  | Ok request_obj =>
      match py_getitem request_obj "method", request_obj with
      | Raise e, _ => stop (Raised e)
      | Ok method, JObj m =>
          if py_eq method (JStr "initialize") then stop Delegated
          else
            match method with
            | JStr name =>
                if String.prefix "notifications/" name then stop Delegated
                else if String.eqb name "tools/call" && is_list_instances_call m
                then delegate_list_instances E request reg
                else if String.eqb name "tools/list"
                then dispatch_tools_list E request m reg
                else dispatch_routed E request name m reg
            | _ => stop (Raised AttributeError)     (* no startswith *)
            end
      | Ok _, _ => stop (Raised TypeError)
      end
  end.

(** ** More of Python *)

(** [c[k] = v] for a string [k]: only a dict takes it. *)
Definition py_setitem (c : json) (k : string) (v : json) : result json :=
  match c with
  | JObj m => Ok (JObj (dict_set m k v))
  | _ => Raise TypeError
  end.

(** [del c[k]] for a string [k]. *)
Definition py_delitem (c : json) (k : string) : result json :=
  match c with
  | JObj m => if dict_has m k then Ok (JObj (dict_del m k)) else Raise KeyError
  | _ => Raise TypeError
  end.

(** ** The registration listener *)

(** What [_send_json] sends: a status and a JSON body. *)
Record http_reply : Type := {
  reply_status : Z;
  reply_body : json
}.

(** One element of what GET /instances returns. *)
Definition public_info (binary_id : json) (info : instance) : json :=
  JObj [("binary_id", binary_id);
        ("module", module info);
        ("path", path info);
        ("port", port info)].

Definition not_found_reply : http_reply :=
  {| reply_status := 404; reply_body := JObj [("error", JStr "Not found")] |}.

Definition invalid_json_reply : http_reply :=
  {| reply_status := 400;
     reply_body := JObj [("success", JBool false); ("error", JStr "Invalid JSON")] |}.

(** [RegistryHttpHandler.do_GET], on the path of the request. *)
Definition do_GET (request_path : string) (reg : registry) : http_reply :=
  if String.eqb request_path "/instances" then
    {| reply_status := 200;
       reply_body :=
         JObj [("instances",
                JArr (map (fun e => public_info (fst e) (snd e)) reg))] |}
  else not_found_reply.

(** [RegistryHttpHandler.do_POST], on the path and the decoded body of
    the request; [now] is the clock while a record is stored.  Only a
    [JSONDecodeError] is caught. *)
Definition do_POST (E : env) (now : Z) (request_path body : string) (reg : registry)
  : result (http_reply * registry) :=
  if String.eqb request_path "/register" then
    match json_loads E body with
    | Ok data =>
        r <- register_instance now data reg ;;
        Ok ({| reply_status := 200; reply_body := fst r |}, snd r)
    | Raise JSONDecodeError => Ok (invalid_json_reply, reg)
    | Raise e => Raise e
    end
  else if String.eqb request_path "/unregister" then
    match json_loads E body with
    | Ok data =>
        r <- unregister_instance data reg ;;
        Ok ({| reply_status := 200; reply_body := fst r |}, snd r)
    | Raise JSONDecodeError => Ok (invalid_json_reply, reg)
    | Raise e => Raise e
    end
  else Ok (not_found_reply, reg).

(** ** The worker's side (ida_mcp.py) *)

(** Lines 35-42: what [register_with_main_server] posts to /register.
    The host and the port are the worker's own. *)
Definition register_data (h : string) (p : Z) (metadata : json) : result json :=
  pa <- py_get metadata "path" (JStr EmptyString) ;;
  mo <- py_get metadata "module" (JStr EmptyString) ;;
  md <- py_get metadata "md5" (JStr EmptyString) ;;
  sha <- py_get metadata "sha256" (JStr EmptyString) ;;
  Ok (JObj [("host", JStr h); ("port", JNum p); ("path", pa);
            ("module", mo); ("md5", md); ("sha256", sha)]).

(** Lines 57-60: what [unregister_from_main_server] posts to
    /unregister. *)
Definition unregister_data (metadata : json) : result json :=
  sha <- py_get metadata "sha256" (JStr EmptyString) ;;
  md <- py_get metadata "md5" (JStr EmptyString) ;;
  Ok (JObj [("sha256", sha); ("md5", md)]).

(** [sys.modules], as far as [unload_package] looks at it: the names,
    each with its module. *)
Definition modules (A : Type) := list (string * A).

Fixpoint modules_del {A : Type} (ms : modules A) (name : string) : modules A :=
  match ms with
  | [] => []
  | (n, v) :: t =>
      if String.eqb n name then modules_del t name else (n, v) :: modules_del t name
  end.

(** [mod_name == package_name or mod_name.startswith(package_name + ".")]. *)
Definition in_package (package_name mod_name : string) : bool :=
  String.eqb mod_name package_name
  || String.prefix (package_name ++ ".") mod_name.

(** [unload_package]: the names to remove are collected first, then
    each is deleted. *)
Definition unload_package {A : Type} (package_name : string) (ms : modules A)
  : modules A :=
  let to_remove := filter (in_package package_name) (map fst ms) in
  fold_left modules_del to_remove ms.

(** ** Installing the client configuration *)

Definition python_vars : list string :=
  ["PYTHONHOME"; "PYTHONPATH"; "PYTHONSAFEPATH"; "PYTHONPLATLIBDIR";
   "PYTHONPYCACHEPREFIX"; "PYTHONNOUSERSITE"; "PYTHONUSERBASE"].

(** [copy_python_env(env)]; [environ] is [os.environ.get].  What is
    returned, and [env] afterwards. *)
Definition copy_python_env (environ : string -> option string) (env : dict)
  : bool * dict :=
  fold_left
    (fun (state : bool * dict) (var : string) =>
       match environ var with
       | Some value =>
           if negb (String.eqb value EmptyString)
           then (true, dict_set (snd state) var (JStr value))
           else state
       | None => state
       end)
    python_vars (false, env).

Definition old_name : string := "github.com/mrexodia/ida-pro-mcp".

(** The clients that do not keep their servers under "mcpServers": the
    top-level key, when there is one, and the key of the table. *)
Definition special_json_structures (name : string) : option (option string * string) :=
  if String.eqb name "VS Code" then Some (Some "mcp", "servers")
  else if String.eqb name "Visual Studio 2022" then Some (None, "servers")
  else None.

(** [if k not in c: c[k] = {}]. *)
Definition ensure_table (c : json) (k : string) : result json :=
  present <- py_in (JStr k) c ;;
  if present then Ok c else py_setitem c k (JObj []).

(** Lines 847-872: the table of servers of a client's configuration is
    made when it is missing.  The configuration afterwards and the
    table [mcp_servers] refers to. *)
Definition locate_servers (name : string) (is_toml : bool) (config : json)
  : result (json * json) :=
  if is_toml then
    c <- ensure_table config "mcp_servers" ;;
    t <- py_getitem c "mcp_servers" ;;
    Ok (c, t)
  else
    match special_json_structures name with
    | Some (None, nested_key) =>
        c <- ensure_table config nested_key ;;
        t <- py_getitem c nested_key ;;
        Ok (c, t)
    | Some (Some top_key, nested_key) =>
        c <- ensure_table config top_key ;;
        top <- py_getitem c top_key ;;
        top' <- ensure_table top nested_key ;;
        c' <- py_setitem c top_key top' ;;
        t <- py_getitem top' nested_key ;;
        Ok (c', t)
    | None =>
        c <- ensure_table config "mcpServers" ;;
        t <- py_getitem c "mcpServers" ;;
        Ok (c, t)
    end.

(** The table is part of the configuration: what is done to it is done
    to the configuration. *)
Definition store_servers (name : string) (is_toml : bool) (config table : json)
  : result json :=
  if is_toml then py_setitem config "mcp_servers" table
  else
    match special_json_structures name with
    | Some (None, nested_key) => py_setitem config nested_key table
    | Some (Some top_key, nested_key) =>
        top <- py_getitem config top_key ;;
        top' <- py_setitem top nested_key table ;;
        py_setitem config top_key top'
    | None => py_setitem config "mcpServers" table
    end.

(** Lines 874-889 on the table: the entry under the old name is moved,
    then the server is taken out or put in.  [None] is the [continue]
    of a client the server is not installed for. *)
Definition update_servers (mcp_name : string) (uninstall : bool) (entry : json)
    (mcp_servers : json) : result (option json) :=
  has_old <- py_in (JStr old_name) mcp_servers ;;
  migrated <-
    (if has_old then
       old <- py_getitem mcp_servers old_name ;;
       moved <- py_setitem mcp_servers mcp_name old ;;
       py_delitem moved old_name
     else Ok mcp_servers) ;;
  if uninstall then
    installed <- py_in (JStr mcp_name) migrated ;;
    if negb installed then Ok None
    else t <- py_delitem migrated mcp_name ;; Ok (Some t)
  else
    t <- py_setitem migrated mcp_name entry ;; Ok (Some t).

(** Lines 847-889 of [install_mcp_servers], for one client: from the
    configuration that was read to the one that is written, or [None]
    when nothing is written.  [mcp_name] is [mcp.name] and [entry] what
    [generate_mcp_config] returns. *)
Definition install_config (mcp_name : string) (name : string) (is_toml uninstall : bool)
    (entry config : json) : result (option json) :=
  located <- locate_servers name is_toml config ;;
  updated <- update_servers mcp_name uninstall entry (snd located) ;;
  match updated with
  | None => Ok None
  | Some table => c <- store_servers name is_toml (fst located) table ;; Ok (Some c)
  end.

(** ** Vocabulary of the properties *)

(** [needle] is a substring of [hay]. *)
Definition occurs_in (needle hay : string) : Prop :=
  exists a b, hay = (a ++ needle ++ b)%string.

(** The replies of the registry operations. *)
Definition registered_reply (binary_id : json) : json :=
  JObj [("success", JBool true); ("binary_id", binary_id)].

Definition rejected_reply (reason : string) : json :=
  JObj [("success", JBool false); ("error", JStr reason)].

(** The identity [register_instance] files a record under: the stronger
    hash when there is one. *)
Definition identity_of (sha md : string) : string :=
  if String.eqb sha EmptyString then md else sha.

(** A payload field that holds a string, or is left out. *)
Definition string_field (d : dict) (k : string) (s : string) : Prop :=
  dict_get_or d k (JStr EmptyString) = JStr s.

(** The first of the candidates that is non-empty and a key of the
    registry. *)
Definition first_registered (reg : registry) (candidates : list string)
  : option string :=
  List.find (fun k => negb (String.eqb k EmptyString) && reg_has reg (JStr k))
    candidates.

(** Whether the probe of a port ends in a registration.  The payload
    alone decides whether [register_instance] accepts it, so the probe
    is run here on the empty registry. *)
Definition port_answers (E : env) (h : string) (p : Z) : bool :=
  match probe_port E h p [] with
  | Ok (true, _) => true
  | _ => false
  end.

(** The ports [range(max_tries)] visits from [p] on. *)
Fixpoint ports_from (p : Z) (tries : nat) : list Z :=
  match tries with
  | O => []
  | S tries' => p :: ports_from (p + 1) tries'
  end.

(** The operation descriptors of a capability-listing reply:
    [response["result"]["tools"]], when it is a list. *)
Definition tools_of (response : json) : option (list json) :=
  match response with
  | JObj rm =>
      match dict_get rm "result" with
      | Some (JObj sm) =>
          match dict_get sm "tools" with
          | Some (JArr l) => Some l
          | _ => None
          end
      | _ => None
      end
  | _ => None
  end.

(** The property set a descriptor declares:
    [tool["inputSchema"]["properties"]], when it is a dict. *)
Definition property_set (tool : json) : option dict :=
  match tool with
  | JObj tm =>
      match dict_get tm "inputSchema" with
      | Some (JObj sm) =>
          match dict_get sm "properties" with
          | Some (JObj pm) => Some pm
          | _ => None
          end
      | _ => None
      end
  | _ => None
  end.

(** An operation descriptor as a worker advertises it: a dict with a
    string for a name, whose input schema, when it has one, is a dict,
    and whose property set, when the schema declares one, is a dict. *)
Definition descriptor (tool : json) : Prop :=
  exists tm n,
    tool = JObj tm
    /\ dict_get tm "name" = Some (JStr n)
    /\ forall schema,
         dict_get tm "inputSchema" = Some schema ->
         exists sm,
           schema = JObj sm
           /\ forall props,
                dict_get sm "properties" = Some props ->
                exists pm, props = JObj pm.

(** A descriptor named as the enumeration operation is. *)
Definition is_enumeration (tool : json) : bool :=
  match py_getitem tool "name" with
  | Ok name => py_eq (JStr "list_instances") name
  | Raise _ => false
  end.

Definition enumeration_entries (l : list json) : nat :=
  length (filter is_enumeration l).

(** What [add_binary_param_to_schema] does to the list of tools. *)
Definition augment_tools (l : list json) : result (list json) :=
  l' <- mapM add_binary_param l ;;
  existing_names <- mapM tool_name l' ;;
  Ok (if existsb (fun n => py_eq (JStr "list_instances") n) existing_names
      then l' else l' ++ [list_instances_tool]).

(** The request is parsed as the dict [m], its method is [name], and
    it is neither kept local nor the capability listing: it goes the
    routed way of lines 181-264. *)
Definition routed (E : env) (request : request_value) (m : dict) (name : string)
  : Prop :=
  parse_request E request = Ok (JObj m)
  /\ dict_get m "method" = Some (JStr name)
  /\ name <> "initialize"
  /\ String.prefix "notifications/" name = false
  /\ (name = "tools/call" -> is_list_instances_call m = false)
  /\ name <> "tools/list".

(** The dict the selector of a request lives in: the arguments of a
    call invocation, the parameters of any other method. *)
Definition selector_slot (name : string) (m : dict) : option dict :=
  match dict_get m "params" with
  | Some (JObj pm) =>
      if String.eqb name "tools/call" && dict_has pm "arguments" then
        match dict_get pm "arguments" with
        | Some (JObj am) => Some am
        | _ => None
        end
      else Some pm
  | _ => None
  end.

(** What a value holds at the end of a path of keys. *)
Fixpoint lookup_path (c : json) (p : list string) : option json :=
  match p with
  | [] => Some c
  | k :: t =>
      match c with
      | JObj m =>
          match dict_get m k with
          | Some v => lookup_path v t
          | None => None
          end
      | _ => None
      end
  end.

(** [q] leaves the path [p] at one of its keys. *)
Fixpoint diverges (p q : list string) : Prop :=
  match p, q with
  | a :: p', b :: q' => a <> b \/ (a = b /\ diverges p' q')
  | _, _ => False
  end.

(** The keys that lead to the selector of a request. *)
Definition selector_path (name : string) (m : dict) : list string :=
  match dict_get m "params" with
  | Some (JObj pm) =>
      if String.eqb name "tools/call" && dict_has pm "arguments"
      then ["params"; "arguments"; "binary"]
      else ["params"; "binary"]
  | _ => ["params"; "binary"]
  end.

(** What the gateway returns where it refuses to choose a worker. *)
Definition ambiguous_reply (request_id : json) : json :=
  match request_id with
  | JNull => JNull
  | _ =>
      JObj [("jsonrpc", JStr "2.0");
            ("error",
             JObj [("code", JNum (-32000));
                   ("message", JStr multiple_instances_message)]);
            ("id", request_id)]
  end.

(** *** Vocabulary of the further properties *)

(** No two keys of the registry are equal. *)
Fixpoint distinct_keys (reg : registry) : Prop :=
  match reg with
  | [] => True
  | (k, _) :: t => reg_has t k = false /\ distinct_keys t
  end.

(** The registry as [register_instance] builds it: every key is a value
    a record can be filed under, and no key occurs twice. *)
Definition well_keyed (reg : registry) : Prop :=
  Forall (fun e => truthy (fst e) = true /\ hashable (fst e) = true) reg
  /\ distinct_keys reg.

(** The record [register_instance] makes of a payload. *)
Definition record_of (now : Z) (d : dict) : instance :=
  {| host := dict_get_or d "host" (JStr "127.0.0.1");
     port := dict_get_or d "port" (JNum 13337);
     path := dict_get_or d "path" (JStr EmptyString);
     module := dict_get_or d "module" (JStr EmptyString);
     md5 := dict_get_or d "md5" (JStr EmptyString);
     sha256 := dict_get_or d "sha256" (JStr EmptyString);
     registered_at := now |}.

(** The identity a payload is filed under: its sha256, or its md5 when
    the sha256 is empty. *)
Definition payload_identity (d : dict) : json :=
  if truthy (dict_get_or d "sha256" (JStr EmptyString))
  then dict_get_or d "sha256" (JStr EmptyString)
  else dict_get_or d "md5" (JStr EmptyString).

(** The record a probe of port [p] on host [h] files. *)
Definition probed_record (E : env) (h : string) (p : Z) (i : instance) : Prop :=
  host i = JStr h /\ port i = JNum p /\ registered_at i = time_time E p.

(** The value [copy_python_env] copies for a variable: what the
    environment holds for it, when that is not empty. *)
Definition forwarded_var (environ : string -> option string) (var : string)
  : option string :=
  match environ var with
  | Some value => if String.eqb value EmptyString then None else Some value
  | None => None
  end.

(** The place of the table of servers in a client's configuration: the
    keys that lead to it. *)
Definition servers_path (name : string) (is_toml : bool) : list string :=
  if is_toml then ["mcp_servers"]
  else
    match special_json_structures name with
    | Some (None, nested_key) => [nested_key]
    | Some (Some top_key, nested_key) => [top_key; nested_key]
    | None => ["mcpServers"]
    end.

(** What a client's configuration holds for a server. *)
Definition server_entry (name : string) (is_toml : bool) (config : json)
    (server : string) : option json :=
  lookup_path config (servers_path name is_toml ++ [server]).

(** [c] is a dict, and so is what it holds along [p], as far as it
    goes. *)
Fixpoint tables_along (c : json) (p : list string) {struct p} : Prop :=
  exists m,
    c = JObj m
    /\ match p with
       | [] => True
       | k :: t =>
           match dict_get m k with
           | Some v => tables_along v t
           | None => True
           end
       end.

(** The value at the end of [p], a table that is missing on the way
    taken as empty. *)
Fixpoint table_at (c : json) (p : list string) : json :=
  match p with
  | [] => c
  | k :: t =>
      match c with
      | JObj m => table_at (dict_get_or m k (JObj [])) t
      | _ => JNull
      end
  end.

(** [c] with [v] at the end of [p], the tables missing on the way
    made. *)
Fixpoint put_path (c : json) (p : list string) (v : json) : json :=
  match p with
  | [] => v
  | k :: t =>
      match c with
      | JObj m => JObj (dict_set m k (put_path (dict_get_or m k (JObj [])) t v))
      | _ => c
      end
  end.

(** Lines 876-878 on a table that is a dict: the entry under the old
    name goes under the new one. *)
Definition migrate (mcp_name : string) (tm : dict) : dict :=
  match dict_get tm old_name with
  | Some v => dict_del (dict_set tm mcp_name v) old_name
  | None => tm
  end.

(** *** Sample data *)

(** The record of a worker on the loopback address, and the registry
    entry [register_instance] makes of it. *)
Definition worker_record (sha md name file : string) (p : Z) : instance :=
  {| host := JStr "127.0.0.1"; port := JNum p; path := JStr file;
     module := JStr name; md5 := JStr md; sha256 := JStr sha;
     registered_at := 1700000000 |}.

Definition worker (sha md name file : string) (p : Z) : json * instance :=
  (JStr (identity_of sha md), worker_record sha md name file p).

(** A loopback network on which nothing listens. *)
Definition silent_env : env :=
  {| IDA_HOST := "127.0.0.1"; IDA_PORT := 13337; sys_platform := "linux";
     time_time := fun _ => 1700000000%Z;
     json_loads := fun _ => Raise JSONDecodeError;
     http_post_mcp := fun _ _ _ _ => Raise (OSError "Connection refused");
     str_of_exn :=
       fun e => match e with OSError detail => detail | _ => "error" end;
     format_exc := fun _ => "Traceback (most recent call last)";
     repr_of := fun _ => "<value>" |}.

(** What the worker on port 13339 answers to the probe: one text item,
    itself the JSON text of the metadata. *)
Definition probe_answer : json :=
  JObj [("jsonrpc", JStr "2.0");
        ("result",
         JObj [("content",
                JArr [JObj [("type", JStr "text"); ("text", JStr "<metadata>")]])]);
        ("id", JNum 1)].

Definition probe_metadata : json :=
  JObj [("path", JStr "/bin/ls"); ("module", JStr "ls");
        ("md5", JStr "22"); ("sha256", JStr "beef")].

(** A loopback network with one worker, on port 13339, that answers
    the probe and nothing else. *)
Definition one_worker_env : env :=
  {| IDA_HOST := "127.0.0.1"; IDA_PORT := 13337; sys_platform := "linux";
     time_time := fun _ => 1700000000%Z;
     json_loads :=
       fun text =>
         if String.eqb text "<answer>" then Ok probe_answer
         else if String.eqb text "<metadata>" then Ok probe_metadata
         else Raise JSONDecodeError;
     http_post_mcp :=
       fun timeout body h p =>
         if py_eq p (JNum 13339) && py_eq body idb_meta_request
         then Ok "<answer>"
         else Raise (OSError "Connection refused");
     str_of_exn :=
       fun e => match e with OSError detail => detail | _ => "error" end;
     format_exc := fun _ => "Traceback (most recent call last)";
     repr_of := fun _ => "<value>" |}.




Definition two_workers : registry :=
  [worker "c0ffee" "11" "cat" "/bin/cat" 13338;
   worker "beef" "22" "ls" "/bin/ls" 13339].

(** A call of the decompile operation, with or without a selector and
    an identifier. *)
Definition decompile_call (arguments : dict) (tail : dict) : dict :=
  [("jsonrpc", JStr "2.0"); ("method", JStr "tools/call");
   ("params", JObj [("name", JStr "decompile"); ("arguments", JObj arguments)])]
  ++ tail.


(** The metadata of a worker, and a parser that reads the two bodies
    the worker posts as what the worker built. *)
Definition ls_metadata : dict :=
  [("path", JStr "/bin/ls"); ("module", JStr "ls");
   ("md5", JStr "22"); ("sha256", JStr "beef")].

Definition listener_env : env :=
  {| IDA_HOST := "127.0.0.1"; IDA_PORT := 13337; sys_platform := "linux";
     time_time := fun _ => 1700000000%Z;
     json_loads :=
       fun text =>
         if String.eqb text "<register>"
         then register_data "127.0.0.1" 13339 (JObj ls_metadata)
         else if String.eqb text "<unregister>"
         then unregister_data (JObj ls_metadata)
         else Raise JSONDecodeError;
     http_post_mcp := fun _ _ _ _ => Raise (OSError "Connection refused");
     str_of_exn :=
       fun e => match e with OSError detail => detail | _ => "error" end;
     format_exc := fun _ => "Traceback (most recent call last)";
     repr_of := fun _ => "<value>" |}.

(** The settings of VS Code with one other server, and the table
    [generate_mcp_config] makes for the stdio transport. *)
Definition vscode_config : json :=
  JObj [("editor.fontSize", JNum 14);
        ("mcp",
         JObj [("servers",
                JObj [("other", JObj [("command", JStr "other-mcp")])])])].

Definition stdio_entry : json :=
  JObj [("command", JStr "python3");
        ("args", JArr [JStr "server.py"; JStr "--ida-rpc";
                       JStr "http://127.0.0.1:13337"])].

(** The same settings with the server installed, under its name and
    under the old one. *)
Definition vscode_installed : json :=
  JObj [("editor.fontSize", JNum 14);
        ("mcp",
         JObj [("servers",
                JObj [("other", JObj [("command", JStr "other-mcp")]);
                      ("ida-pro-mcp", stdio_entry)])])].

Definition vscode_old_config : json :=
  JObj [("editor.fontSize", JNum 14);
        ("mcp",
         JObj [("servers",
                JObj [("github.com/mrexodia/ida-pro-mcp", stdio_entry);
                      ("other", JObj [("command", JStr "other-mcp")])])])].

(** ** Basic facts *)

(** Use a fact about every entry of a list at its head. *)
Ltac head_misses H k i :=
  let F := fresh "Hhead" in
  pose proof (H (k, i) (or_introl eq_refl)) as F; simpl in F; rewrite F.

Lemma prefix_app (n h : string) :
  String.prefix n h = true <-> exists b, h = (n ++ b)%string.
Proof.
  revert h; induction n as [|c n IH]; intros h; simpl.
  - split; [intros _; now exists h | intros _; destruct h; reflexivity].
  - destruct h as [|c' h].
    + split; [discriminate | intros [b Hb]; discriminate].
    + simpl. destruct (Ascii.ascii_dec c c') as [->|Hne].
      * rewrite IH. split; intros [b Hb]; exists b; congruence.
      * split; [discriminate | intros [b Hb]; congruence].
Qed.

Lemma str_contains_unfold (n h : string) :
  str_contains n h =
  String.prefix n h ||
  match h with
  | EmptyString => false
  | String _ t => str_contains n t
  end.
Proof. destruct h; reflexivity. Qed.

Lemma str_contains_occurs (n h : string) :
  str_contains n h = true <-> occurs_in n h.
Proof.
  unfold occurs_in. induction h as [|c h IH]; rewrite str_contains_unfold.
  - rewrite orb_false_r, prefix_app. split.
    + intros [b Hb]. exists EmptyString, b. exact Hb.
    + intros [a [b Hb]]. destruct a; simpl in Hb.
      * now exists b.
      * discriminate.
  - rewrite orb_true_iff, prefix_app, IH. split.
    + intros [[b Hb] | [a [b Hb]]].
      * exists EmptyString, b. exact Hb.
      * exists (String c a), b. simpl. now rewrite Hb.
    + intros [a [b Hb]]. destruct a as [|c' a]; simpl in Hb.
      * left. now exists b.
      * right. exists a, b. congruence.
Qed.

Lemma str_contains_empty (h : string) : str_contains EmptyString h = true.
Proof. destruct h; reflexivity. Qed.

Lemma py_eq_str_r (v : json) (s : string) :
  py_eq v (JStr s) = true <-> v = JStr s.
Proof.
  destruct v; simpl; try (split; [discriminate | discriminate]).
  rewrite String.eqb_eq. split; congruence.
Qed.

Lemma reg_get_set_same (reg : registry) (k : string) (i : instance) :
  reg_get (reg_set reg (JStr k) i) (JStr k) = Some i.
Proof.
  induction reg as [|[k' i'] t IH]; simpl.
  - now rewrite String.eqb_refl.
  - destruct (py_eq k' (JStr k)) eqn:Hk; simpl; rewrite Hk; auto.
Qed.

Lemma reg_get_del_same (reg : registry) (k : json) :
  reg_get (reg_del reg k) k = None.
Proof.
  induction reg as [|[k' i'] t IH]; simpl; auto.
  destruct (py_eq k' k) eqn:Hk; simpl; [|rewrite Hk]; auto.
Qed.

Lemma reg_get_app_first (pre post : registry) (k k' : json) (i : instance) :
  (forall e, In e pre -> py_eq (fst e) k = false) ->
  py_eq k' k = true ->
  reg_get (pre ++ (k', i) :: post) k = Some i.
Proof.
  induction pre as [|[k0 i0] pre IH]; simpl; intros Hpre Hk.
  - now rewrite Hk.
  - head_misses Hpre k0 i0. apply IH; auto.
Qed.

Lemma reg_get_none (reg : registry) (k : json) :
  reg_get reg k = None <-> forall e, In e reg -> py_eq (fst e) k = false.
Proof.
  induction reg as [|[k0 i0] t IH]; simpl.
  - split; [intros _ e [] | reflexivity].
  - destruct (py_eq k0 k) eqn:Hk.
    + split; [discriminate | intros H; specialize (H (k0, i0) (or_introl eq_refl))].
      simpl in H. congruence.
    + rewrite IH. split.
      * intros H e [<-|He]; [exact Hk | now apply H].
      * intros H e He. apply H. now right.
Qed.

Lemma find_by_module_app_first (pre post : registry) (b k : json) (i : instance) :
  (forall e, In e pre -> py_eq (module (snd e)) b = false) ->
  py_eq (module i) b = true ->
  find_by_module (pre ++ (k, i) :: post) b = Some i.
Proof.
  induction pre as [|[k0 i0] pre IH]; simpl; intros Hpre Hi.
  - now rewrite Hi.
  - head_misses Hpre k0 i0. apply IH; auto.
Qed.

Lemma find_by_module_none (reg : registry) (b : json) :
  find_by_module reg b = None <->
  forall e, In e reg -> py_eq (module (snd e)) b = false.
Proof.
  induction reg as [|[k0 i0] t IH]; simpl.
  - split; [intros _ e [] | reflexivity].
  - destruct (py_eq (module i0) b) eqn:Hk.
    + split; [discriminate | intros H; specialize (H (k0, i0) (or_introl eq_refl))].
      simpl in H. congruence.
    + rewrite IH. split.
      * intros H e [<-|He]; [exact Hk | now apply H].
      * intros H e He. apply H. now right.
Qed.

Lemma find_by_path_app_first (pre post : registry) (b k : json) (i : instance) :
  (forall e, In e pre -> py_in b (path (snd e)) = Ok false) ->
  py_in b (path i) = Ok true ->
  find_by_path (pre ++ (k, i) :: post) b = Ok (Some i).
Proof.
  induction pre as [|[k0 i0] pre IH]; simpl; intros Hpre Hi.
  - now rewrite Hi.
  - head_misses Hpre k0 i0. simpl. apply IH; auto.
Qed.

Lemma find_by_path_none (reg : registry) (b : json) :
  (forall e, In e reg -> py_in b (path (snd e)) = Ok false) ->
  find_by_path reg b = Ok None.
Proof.
  induction reg as [|[k0 i0] t IH]; simpl; intros H; auto.
  head_misses H k0 i0. simpl. apply IH. intros e He. apply H. now right.
Qed.

Lemma py_in_str_path (s p : string) (b : bool) :
  str_contains s p = b -> py_in (JStr s) (JStr p) = Ok b.
Proof. intros <-. reflexivity. Qed.

Lemma reg_get_del_other (reg : registry) (k k' : string) :
  k <> k' ->
  reg_get (reg_del reg (JStr k)) (JStr k') = reg_get reg (JStr k').
Proof.
  intros Hne. induction reg as [|[k0 i0] t IH]; simpl; auto.
  destruct (py_eq k0 (JStr k)) eqn:Hk.
  - apply py_eq_str_r in Hk. subst k0. simpl.
    apply String.eqb_neq in Hne. now rewrite Hne.
  - simpl. now rewrite IH.
Qed.

Lemma key_differs (k : json) (s : string) :
  k <> JStr s -> py_eq k (JStr s) = false.
Proof.
  intros Hne. destruct (py_eq k (JStr s)) eqn:Hk; auto.
  apply py_eq_str_r in Hk. contradiction.
Qed.

Lemma not_contains (s q : string) :
  ~ occurs_in s q -> str_contains s q = false.
Proof.
  intros Hno. destruct (str_contains s q) eqn:Hc; auto.
  apply str_contains_occurs in Hc. contradiction.
Qed.

(** ** The registry *)

(** C5: a payload whose sha256 and md5 are both empty is refused with
    the validation error and the registry is left as it was; a payload
    with a non-empty hash is registered, and the reply carries the
    identity it was filed under (sha256 when there is one, md5
    otherwise). *)
Theorem register_instance_needs_a_hash
    (now : Z) (d : dict) (reg : registry) (sha md : string) :
  string_field d "sha256" sha ->
  string_field d "md5" md ->
  (sha = EmptyString /\ md = EmptyString ->
   register_instance now (JObj d) reg
   = Ok (rejected_reply "No sha256 or md5 provided", reg))
  /\
  (sha <> EmptyString \/ md <> EmptyString ->
   exists i,
     register_instance now (JObj d) reg
     = Ok (registered_reply (JStr (identity_of sha md)),
           reg_set reg (JStr (identity_of sha md)) i)
     /\ reg_get (reg_set reg (JStr (identity_of sha md)) i)
          (JStr (identity_of sha md)) = Some i
     /\ sha256 i = JStr sha /\ md5 i = JStr md).
Proof.
  unfold string_field, register_instance, identity_of. intros Hsha Hmd.
  simpl. rewrite Hsha, Hmd. split.
  - intros [-> ->]. reflexivity.
  - intros Hsome. simpl.
    destruct (String.eqb sha EmptyString) eqn:Hs; simpl.
    + apply String.eqb_eq in Hs. subst sha.
      destruct Hsome as [Hs | Hm]; [contradiction|].
      apply String.eqb_neq in Hm. rewrite Hm. simpl.
      eexists. split; [reflexivity|]. split; [apply reg_get_set_same|]. now split.
    + rewrite Hs. simpl.
      eexists. split; [reflexivity|]. split; [apply reg_get_set_same|]. now split.
Qed.

Lemma register_instance_needs_a_hash_witness :
  register_instance 1700000000
    (JObj [("host", JStr "127.0.0.1"); ("port", JNum 13338);
           ("path", JStr "/bin/ls"); ("module", JStr "ls")]) []
  = Ok (rejected_reply "No sha256 or md5 provided", [])
  /\
  exists i,
    register_instance 1700000000
      (JObj [("host", JStr "127.0.0.1"); ("port", JNum 13338);
             ("path", JStr "/bin/ls"); ("module", JStr "ls");
             ("md5", JStr "d41d8")]) []
    = Ok (registered_reply (JStr "d41d8"), reg_set [] (JStr "d41d8") i).
Proof.
  split.
  - apply (register_instance_needs_a_hash 1700000000
             [("host", JStr "127.0.0.1"); ("port", JNum 13338);
              ("path", JStr "/bin/ls"); ("module", JStr "ls")]
             [] EmptyString EmptyString); [reflexivity | reflexivity |].
    split; reflexivity.
  - destruct (register_instance_needs_a_hash 1700000000
                [("host", JStr "127.0.0.1"); ("port", JNum 13338);
                 ("path", JStr "/bin/ls"); ("module", JStr "ls");
                 ("md5", JStr "d41d8")]
                [] EmptyString "d41d8" eq_refl eq_refl) as [_ Hreg].
    destruct Hreg as [i [Hi _]]; [right; discriminate|].
    exists i. exact Hi.
Defined.

(** C6: [find_instance] resolves a selector in three tiers, in this
    order: the record filed under the selector as identity; else the
    first record whose module is the selector; else the first record
    whose path has the selector as a substring; else nothing.  The
    first tier asks nothing of the modules and paths of the other
    records, so it wins when a later tier would pick another record. *)
Theorem find_instance_three_tiers (reg : registry) (s : string) :
  (forall pre i post,
     reg = pre ++ (JStr s, i) :: post ->
     (forall e, In e pre -> fst e <> JStr s) ->
     find_instance reg (JStr s) = Ok (Some i))
  /\
  ((forall e, In e reg -> fst e <> JStr s) ->
   forall pre k i post,
     reg = pre ++ (k, i) :: post ->
     module i = JStr s ->
     (forall e, In e pre -> module (snd e) <> JStr s) ->
     find_instance reg (JStr s) = Ok (Some i))
  /\
  ((forall e, In e reg -> fst e <> JStr s /\ module (snd e) <> JStr s) ->
   forall pre k i post p,
     reg = pre ++ (k, i) :: post ->
     path i = JStr p -> occurs_in s p ->
     (forall e, In e pre -> exists q, path (snd e) = JStr q /\ ~ occurs_in s q) ->
     find_instance reg (JStr s) = Ok (Some i))
  /\
  ((forall e, In e reg ->
      fst e <> JStr s /\ module (snd e) <> JStr s /\
      exists q, path (snd e) = JStr q /\ ~ occurs_in s q) ->
   find_instance reg (JStr s) = Ok None).
Proof.
  unfold find_instance. simpl. repeat split.
  - intros pre i post -> Hpre.
    rewrite (reg_get_app_first pre post (JStr s) (JStr s) i); auto.
    + intros e He. apply key_differs. now apply Hpre.
    + apply String.eqb_refl.
  - intros Hkeys pre k i post Hreg Hmod Hpre.
    assert (Hget : reg_get reg (JStr s) = None).
    { apply reg_get_none. intros e He. apply key_differs. now apply Hkeys. }
    rewrite Hget. subst reg.
    rewrite (find_by_module_app_first pre post (JStr s) k i); auto.
    + intros e He. apply key_differs. now apply Hpre.
    + rewrite Hmod. apply String.eqb_refl.
  - intros Hmiss pre k i post p Hreg Hpath Hin Hpre.
    assert (Hget : reg_get reg (JStr s) = None).
    { apply reg_get_none. intros e He. apply key_differs. now apply Hmiss. }
    assert (Hmod : find_by_module reg (JStr s) = None).
    { apply find_by_module_none. intros e He. apply key_differs. now apply Hmiss. }
    rewrite Hget, Hmod. subst reg.
    apply find_by_path_app_first.
    + intros e He. destruct (Hpre e He) as [q [-> Hq]].
      apply py_in_str_path. now apply not_contains.
    + rewrite Hpath. apply py_in_str_path. now apply str_contains_occurs.
  - intros Hmiss.
    assert (Hget : reg_get reg (JStr s) = None).
    { apply reg_get_none. intros e He. apply key_differs. now apply Hmiss. }
    assert (Hmod : find_by_module reg (JStr s) = None).
    { apply find_by_module_none. intros e He. apply key_differs. now apply Hmiss. }
    rewrite Hget, Hmod. apply find_by_path_none.
    intros e He. destruct (Hmiss e He) as [_ [_ [q [-> Hq]]]].
    apply py_in_str_path. now apply not_contains.
Qed.

Lemma find_instance_three_tiers_witness :
  (* the identity wins over the module and the path of an earlier record *)
  find_instance
    [worker "c0ffee" "11" "beef" "/samples/beef.exe" 13338;
     worker "beef" "22" "ls" "/bin/ls" 13339] (JStr "beef")
  = Ok (Some (worker_record "beef" "22" "ls" "/bin/ls" 13339))
  /\
  find_instance
    [worker "c0ffee" "11" "cat" "/bin/ls.d/cat" 13338;
     worker "beef" "22" "ls" "/bin/ls" 13339] (JStr "ls")
  = Ok (Some (worker_record "beef" "22" "ls" "/bin/ls" 13339))
  /\
  find_instance
    [worker "c0ffee" "11" "cat" "/bin/cat" 13338;
     worker "beef" "22" "ls" "/usr/bin/ls" 13339] (JStr "usr")
  = Ok (Some (worker_record "beef" "22" "ls" "/usr/bin/ls" 13339))
  /\
  find_instance
    [worker "c0ffee" "11" "cat" "/bin/cat" 13338;
     worker "beef" "22" "ls" "/usr/bin/ls" 13339] (JStr "grep")
  = Ok None.
Proof.
  assert (Hno : forall s q, str_contains s q = false -> ~ occurs_in s q).
  { intros s q Hc Hin. apply str_contains_occurs in Hin. congruence. }
  split; [|split; [|split]].
  - apply (proj1 (find_instance_three_tiers _ "beef")
             [worker "c0ffee" "11" "beef" "/samples/beef.exe" 13338]
             (worker_record "beef" "22" "ls" "/bin/ls" 13339) []).
    + reflexivity.
    + intros e [<-|[]]. discriminate.
  - apply (proj1 (proj2 (find_instance_three_tiers _ "ls")))
      with (pre := [worker "c0ffee" "11" "cat" "/bin/ls.d/cat" 13338])
           (k := JStr "beef") (post := []).
    + intros e [<-|[<-|[]]]; discriminate.
    + reflexivity.
    + reflexivity.
    + intros e [<-|[]]. discriminate.
  - apply (proj1 (proj2 (proj2 (find_instance_three_tiers _ "usr"))))
      with (pre := [worker "c0ffee" "11" "cat" "/bin/cat" 13338])
           (k := JStr "beef") (post := []) (p := "/usr/bin/ls").
    + intros e [<-|[<-|[]]]; split; discriminate.
    + reflexivity.
    + reflexivity.
    + apply str_contains_occurs. reflexivity.
    + intros e [<-|[]]. exists "/bin/cat". split; [reflexivity|].
      apply Hno. reflexivity.
  - apply (proj2 (proj2 (proj2 (find_instance_three_tiers _ "grep")))).
    intros e [<-|[<-|[]]]; (split; [discriminate|]); (split; [discriminate|]).
    + exists "/bin/cat". split; [reflexivity|]. apply Hno. reflexivity.
    + exists "/usr/bin/ls". split; [reflexivity|]. apply Hno. reflexivity.
Defined.

(** C7, as the code has it: [unregister_instance] tries the payload's
    binary_id, then its sha256, then its md5, each as an identity of
    the registry.  The first that is non-empty and registered is
    removed and returned; when none is, the reply is the not-found
    error and the registry is left as it was.  Removing an identity
    leaves nothing under it and leaves every other identity alone. *)
Theorem unregister_instance_by_payload_keys
    (d : dict) (reg : registry) (b s m : string) :
  string_field d "binary_id" b ->
  string_field d "sha256" s ->
  string_field d "md5" m ->
  unregister_instance (JObj d) reg
  = Ok (match first_registered reg [b; s; m] with
        | Some k => (registered_reply (JStr k), reg_del reg (JStr k))
        | None => (rejected_reply "Instance not found", reg)
        end)
  /\ (forall k, reg_get (reg_del reg (JStr k)) (JStr k) = None)
  /\ (forall k k', k <> k' ->
        reg_get (reg_del reg (JStr k)) (JStr k') = reg_get reg (JStr k')).
Proof.
  unfold string_field. intros Hb Hs Hm. split; [|split].
  - unfold unregister_instance, names_instance, first_registered. simpl.
    rewrite Hb, Hs, Hm. simpl.
    destruct (String.eqb b EmptyString); simpl;
      [|destruct (reg_has reg (JStr b)); simpl; [reflexivity|]];
      (destruct (String.eqb s EmptyString); simpl;
       [|destruct (reg_has reg (JStr s)); simpl; [reflexivity|]]);
      (destruct (String.eqb m EmptyString); simpl;
       [|destruct (reg_has reg (JStr m)); simpl]); reflexivity.
  - intros k. apply reg_get_del_same.
  - intros k k'. apply reg_get_del_other.
Qed.

Lemma unregister_instance_by_payload_keys_witness :
  unregister_instance (JObj [("sha256", JStr "beef"); ("md5", JStr "22")])
    [worker "c0ffee" "11" "cat" "/bin/cat" 13338;
     worker "beef" "22" "ls" "/bin/ls" 13339]
  = Ok (registered_reply (JStr "beef"),
        [worker "c0ffee" "11" "cat" "/bin/cat" 13338]).
Proof.
  exact (proj1 (unregister_instance_by_payload_keys
                  [("sha256", JStr "beef"); ("md5", JStr "22")]
                  [worker "c0ffee" "11" "cat" "/bin/cat" 13338;
                   worker "beef" "22" "ls" "/bin/ls" 13339]
                  EmptyString "beef" "22" eq_refl eq_refl eq_refl)).
Defined.

(** C7, as the claim has it, fails: a record registered with both
    hashes is filed under its sha256, and a key that is its md5 is not
    found, whichever field of the payload carries it. *)
Lemma unregister_instance_misses_record_md5 :
  register_instance 1700000000
    (JObj [("host", JStr "127.0.0.1"); ("port", JNum 13339);
           ("path", JStr "/bin/ls"); ("module", JStr "ls");
           ("md5", JStr "22"); ("sha256", JStr "beef")]) []
  = Ok (registered_reply (JStr "beef"), [worker "beef" "22" "ls" "/bin/ls" 13339])
  /\ md5 (snd (worker "beef" "22" "ls" "/bin/ls" 13339)) = JStr "22"
  /\ unregister_instance
       (JObj [("binary_id", JStr "22"); ("sha256", JStr "22"); ("md5", JStr "22")])
       [worker "beef" "22" "ls" "/bin/ls" 13339]
     = Ok (rejected_reply "Instance not found",
           [worker "beef" "22" "ls" "/bin/ls" 13339]).
Proof. split; [reflexivity | split; reflexivity]. Qed.

(** ** The discovery scanner *)

Lemma reg_set_length (reg : registry) (k : json) (i : instance) :
  length (reg_set reg k i) <= S (length reg).
Proof.
  induction reg as [|[k0 i0] t IH]; simpl; auto.
  destruct (py_eq k0 k); simpl; lia.
Qed.

Lemma register_instance_effect
    (now : Z) (data : json) (reg reg' : registry) (r success : json) :
  register_instance now data reg = Ok (r, reg') ->
  py_get r "success" JNull = Ok success ->
  if truthy success then length reg' <= S (length reg) else reg' = reg.
Proof.
  unfold register_instance.
  destruct (py_get data "sha256" _) as [sha|]; simpl; [|discriminate].
  destruct (py_get data "md5" _) as [md|]; simpl; [|discriminate].
  destruct (negb (truthy _)); [intros [= <- <-] [= <-]; reflexivity|].
  destruct (py_get data "host" _); simpl; [|discriminate].
  destruct (py_get data "port" _); simpl; [|discriminate].
  destruct (py_get data "path" _); simpl; [|discriminate].
  destruct (py_get data "module" _); simpl; [|discriminate].
  destruct (negb (hashable _)); [discriminate|].
  intros [= <- <-] [= <-]. simpl. apply reg_set_length.
Qed.

(** The reply of [register_instance] is the same on every registry. *)
Lemma register_instance_reply (now : Z) (data : json) (reg : registry) :
  match register_instance now data reg, register_instance now data [] with
  | Ok (r, _), Ok (r0, _) => r = r0
  | Raise e, Raise e0 => e = e0
  | _, _ => False
  end.
Proof.
  unfold register_instance.
  destruct (py_get data "sha256" _) as [sha|]; simpl; [|reflexivity].
  destruct (py_get data "md5" _) as [md|]; simpl; [|reflexivity].
  destruct (negb (truthy _)); [reflexivity|].
  destruct (py_get data "host" _); simpl; [|reflexivity].
  destruct (py_get data "port" _); simpl; [|reflexivity].
  destruct (py_get data "path" _); simpl; [|reflexivity].
  destruct (py_get data "module" _); simpl; [|reflexivity].
  destruct (negb (hashable _)); reflexivity.
Qed.

(** Whether a probe registers does not depend on the registry; a
    probe that registers adds one record at most, and any other probe
    leaves the registry as it was. *)
Lemma probe_port_answers (E : env) (h : string) (p : Z) (reg : registry) :
  match probe_port E h p reg with
  | Ok (b, reg') =>
      b = port_answers E h p
      /\ if b then length reg' <= S (length reg) else reg' = reg
  | Raise _ => port_answers E h p = false
  end.
Proof.
  unfold port_answers, probe_port.
  destruct (http_post_mcp E 2 _ _ _) as [body|]; simpl; [|reflexivity].
  destruct (json_loads E body) as [data|]; simpl; [|reflexivity].
  destruct (py_in (JStr "result") data) as [[|]|]; simpl;
    [|split; reflexivity|reflexivity].
  destruct (py_getitem data "result") as [res|]; simpl; [|reflexivity].
  destruct (py_in (JStr "content") res) as [[|]|]; simpl;
    [|split; reflexivity|reflexivity].
  destruct (py_getitem res "content") as [content|]; simpl; [|reflexivity].
  destruct (if negb (truthy content) then _ else _) as [[|]|]; simpl;
    [|split; reflexivity|reflexivity].
  destruct (py_first content) as [first|]; simpl; [|reflexivity].
  destruct (py_getitem first "text") as [text|]; simpl; [|reflexivity].
  destruct (match text with JStr s => json_loads E s | _ => Raise TypeError end)
    as [metadata|]; simpl; [|reflexivity].
  destruct (py_get metadata "path" _) as [pa|]; simpl; [|reflexivity].
  destruct (py_get metadata "module" _) as [mo|]; simpl; [|reflexivity].
  destruct (py_get metadata "md5" _) as [md|]; simpl; [|reflexivity].
  destruct (py_get metadata "sha256" _) as [sha|]; simpl; [|reflexivity].
  set (data' := JObj _).
  pose proof (register_instance_reply (time_time E p) data' reg) as Hreply.
  pose proof (register_instance_effect (time_time E p) data' reg) as Heffect.
  destruct (register_instance (time_time E p) data' reg) as [[r reg']|];
    destruct (register_instance (time_time E p) data' []) as [[r0 reg0]|];
    simpl in *; try contradiction; [|reflexivity].
  subst r0.
  destruct (py_get r "success" JNull) as [success|] eqn:Hsuccess; simpl;
    [|reflexivity].
  specialize (Heffect reg' r success eq_refl Hsuccess).
  destruct (truthy success); split; try reflexivity; exact Heffect.
Qed.

Lemma discover_from_counts (E : env) (h : string) (tries : nat) :
  forall (p : Z) (discovered : nat) (reg : registry),
    fst (discover_from E h p tries discovered reg)
    = discovered + length (filter (port_answers E h) (ports_from p tries))
    /\ length (snd (discover_from E h p tries discovered reg)) + discovered
       <= length reg + fst (discover_from E h p tries discovered reg).
Proof.
  induction tries as [|tries IH]; intros p discovered reg; simpl.
  - split; lia.
  - pose proof (probe_port_answers E h p reg) as Hprobe.
    destruct (probe_port E h p reg) as [[[|] reg']|].
    + destruct Hprobe as [<- Hlen]. simpl.
      destruct (IH (p + 1)%Z (S discovered) reg') as [-> Hle]. split; lia.
    + destruct Hprobe as [<- ->]. simpl.
      destruct (IH (p + 1)%Z discovered reg) as [-> Hle]. split; lia.
    + rewrite Hprobe.
      destruct (IH (p + 1)%Z discovered reg) as [-> Hle]. split; lia.
Qed.

(** A scan no port of which answers leaves the registry as it was. *)
Lemma discover_from_silent (E : env) (h : string) (tries : nat) :
  forall (p : Z) (discovered : nat) (reg : registry),
    (forall q, In q (ports_from p tries) -> port_answers E h q = false) ->
    discover_from E h p tries discovered reg = (discovered, reg).
Proof.
  induction tries as [|tries IH]; intros p discovered reg Hquiet; simpl.
  - reflexivity.
  - pose proof (probe_port_answers E h p reg) as Hprobe.
    assert (Hp : port_answers E h p = false) by (apply Hquiet; now left).
    assert (Hrest : forall q, In q (ports_from (p + 1) tries) ->
                              port_answers E h q = false)
      by (intros q Hq; apply Hquiet; now right).
    destruct (probe_port E h p reg) as [[[|] reg']|].
    + destruct Hprobe as [Hb _]. congruence.
    + destruct Hprobe as [_ ->]. now apply IH.
    + now apply IH.
Qed.

(** C9, as the code has it: [discover_ida_instances] always returns,
    whatever the ports answer; what it returns is the number of ports
    of the range whose probe ended in a registration, and the registry
    has grown by no more than that; when no port answers, the registry
    is as it was.  A worker that was registered before the scan is
    counted like any other. *)
Theorem discover_ida_instances_counts_answers
    (E : env) (h : string) (start_port max_tries : Z) (reg : registry) :
  exists reg',
    discover_ida_instances E h start_port max_tries reg
    = Ok (length (filter (port_answers E h)
                    (ports_from start_port (Z.to_nat max_tries))), reg')
    /\ length reg'
       <= length reg
          + length (filter (port_answers E h)
                      (ports_from start_port (Z.to_nat max_tries)))
    /\ ((forall q, In q (ports_from start_port (Z.to_nat max_tries)) ->
                   port_answers E h q = false) ->
        reg' = reg).
Proof.
  unfold discover_ida_instances.
  destruct (discover_from_counts E h (Z.to_nat max_tries) start_port 0 reg)
    as [Hcount Hle].
  pose proof (discover_from_silent E h (Z.to_nat max_tries) start_port 0 reg)
    as Hsilent.
  destruct (discover_from E h start_port (Z.to_nat max_tries) 0 reg)
    as [n reg'] eqn:Hrun.
  simpl in *. subst n. exists reg'. split; [reflexivity|]. split; [lia|].
  intros Hquiet. specialize (Hsilent Hquiet). congruence.
Qed.

Lemma discover_ida_instances_counts_answers_witness :
  discover_ida_instances silent_env "127.0.0.1" 13338 10 two_workers
  = Ok (0, two_workers).
Proof.
  destruct (discover_ida_instances_counts_answers
              silent_env "127.0.0.1" 13338 10 two_workers)
    as [reg' [Hrun [_ Hsame]]].
  rewrite Hrun. rewrite Hsame; [reflexivity|].
  intros q Hq. simpl in Hq.
  repeat (destruct Hq as [<-|Hq]; [reflexivity|]). contradiction.
Defined.

(** C9, as the claim has it, fails: a worker that is registered
    already is found again by the scan and counted, though the scan
    has discovered no worker that was not registered before. *)
Lemma discover_ida_instances_counts_known_worker :
  discover_ida_instances one_worker_env "127.0.0.1" 13338 10
    [worker "beef" "22" "ls" "/bin/ls" 13339]
  = Ok (1, [worker "beef" "22" "ls" "/bin/ls" 13339]).
Proof. reflexivity. Qed.

(** ** The schema augmenter *)

Lemma dict_get_set_same (m : dict) (k : string) (v : json) :
  dict_get (dict_set m k v) k = Some v.
Proof.
  induction m as [|[k0 v0] t IH]; simpl.
  - now rewrite String.eqb_refl.
  - destruct (String.eqb k0 k) eqn:Hk; simpl; rewrite Hk; auto.
Qed.

Lemma dict_get_set_other (m : dict) (k k' : string) (v : json) :
  k <> k' -> dict_get (dict_set m k v) k' = dict_get m k'.
Proof.
  intros Hne. induction m as [|[k0 v0] t IH]; simpl.
  - apply String.eqb_neq in Hne. now rewrite Hne.
  - destruct (String.eqb k0 k) eqn:Hk; simpl.
    + apply String.eqb_eq in Hk. subst k0.
      apply String.eqb_neq in Hne. now rewrite Hne.
    + now rewrite IH.
Qed.

Lemma dict_set_same (m : dict) (k : string) (v : json) :
  dict_get m k = Some v -> dict_set m k v = m.
Proof.
  induction m as [|[k0 v0] t IH]; simpl; [discriminate|].
  destruct (String.eqb k0 k); [intros [= ->]; reflexivity|].
  intros H. now rewrite IH.
Qed.

Lemma dict_set_twice (m : dict) (k : string) (v : json) :
  dict_set (dict_set m k v) k v = dict_set m k v.
Proof. apply dict_set_same, dict_get_set_same. Qed.

Lemma mapM_length {A B : Type} (f : A -> result B) (l : list A) (l' : list B) :
  mapM f l = Ok l' -> length l' = length l.
Proof.
  revert l'. induction l as [|x t IH]; simpl; intros l'.
  - now intros [= <-].
  - destruct (f x); simpl; [|discriminate].
    destruct (mapM f t); simpl; [|discriminate].
    intros [= <-]. simpl. now rewrite (IH _ eq_refl).
Qed.





(** What one turn of the loop does to a descriptor. *)
Lemma add_binary_param_cases (t t' : json) :
  add_binary_param t = Ok t' ->
  (property_set t = None /\ t' = t)
  \/ exists tm sm pm,
       t = JObj tm
       /\ dict_get tm "inputSchema" = Some (JObj sm)
       /\ dict_get sm "properties" = Some (JObj pm)
       /\ t' = JObj (dict_set tm "inputSchema"
                 (JObj (dict_set sm "properties"
                    (JObj (dict_set pm "binary" binary_property))))).
Proof.
  unfold add_binary_param, property_set.
  destruct t as [| | | hay | items | tm]; simpl; try discriminate.
  - destruct (str_contains "inputSchema" hay); simpl; [discriminate|].
    intros [= <-]. now left.
  - destruct (existsb _ items); simpl; [discriminate|].
    intros [= <-]. now left.
  - unfold dict_has.
    destruct (dict_get tm "inputSchema") as [schema|] eqn:Hs; simpl.
    + destruct schema as [| | | hay | items | sm]; simpl; try discriminate.
      * destruct (str_contains "properties" hay); simpl; [discriminate|].
        intros [= <-]. now left.
      * destruct (existsb _ items); simpl; [discriminate|].
        intros [= <-]. now left.
      * unfold dict_has.
        destruct (dict_get sm "properties") as [props|] eqn:Hp; simpl.
        -- destruct props as [| | | | | pm]; try discriminate.
           intros [= <-]. right. exists tm, sm, pm. auto.
        -- intros [= <-]. now left.
    + intros [= <-]. now left.
Qed.

Lemma add_binary_param_name (t t' : json) :
  add_binary_param t = Ok t' -> py_getitem t' "name" = py_getitem t "name".
Proof.
  intros H. destruct (add_binary_param_cases t t' H)
    as [[_ ->] | [tm [sm [pm [-> [_ [_ ->]]]]]]]; auto.
  simpl. rewrite dict_get_set_other; [reflexivity | discriminate].
Qed.



Lemma tool_name_after (t t' : json) :
  add_binary_param t = Ok t' -> tool_name t' = tool_name t.
Proof.
  intros H. unfold tool_name. now rewrite (add_binary_param_name t t' H).
Qed.

Lemma is_enumeration_after (t t' : json) :
  add_binary_param t = Ok t' -> is_enumeration t' = is_enumeration t.
Proof.
  intros H. unfold is_enumeration. now rewrite (add_binary_param_name t t' H).
Qed.

Lemma enumeration_entries_after (l l' : list json) :
  mapM add_binary_param l = Ok l' ->
  enumeration_entries l' = enumeration_entries l.
Proof.
  unfold enumeration_entries. revert l'.
  induction l as [|x t IH]; simpl; intros l'.
  - now intros [= <-].
  - destruct (add_binary_param x) as [y|] eqn:Hy; simpl; [|discriminate].
    destruct (mapM add_binary_param t) as [ys|]; simpl; [|discriminate].
    intros [= <-]. simpl. rewrite (is_enumeration_after x y Hy).
    destruct (is_enumeration x); simpl; now rewrite (IH ys eq_refl).
Qed.

(** The test for an existing enumeration entry, on the names. *)
Lemma existing_names_enumeration (l : list json) (names : list json) :
  mapM tool_name l = Ok names ->
  existsb (fun n => py_eq (JStr "list_instances") n) names
  = negb (Nat.eqb (enumeration_entries l) 0).
Proof.
  unfold enumeration_entries. revert names.
  induction l as [|x t IH]; intros names.
  - now intros [= <-].
  - cbn [mapM filter]. unfold tool_name at 1, is_enumeration at 1.
    destruct (py_getitem x "name") as [name|]; cbn [bind]; [|discriminate].
    destruct (hashable name); cbn [bind]; [|discriminate].
    destruct (mapM tool_name t) as [ns|]; cbn [bind]; [|discriminate].
    intros [= <-]. cbn [existsb]. rewrite (IH ns eq_refl).
    destruct (py_eq (JStr "list_instances") name); reflexivity.
Qed.

Lemma tools_of_set (rm sm : dict) (l : list json) :
  tools_of (JObj (dict_set rm "result" (JObj (dict_set sm "tools" (JArr l)))))
  = Some l.
Proof. simpl. now rewrite !dict_get_set_same. Qed.

(** On a reply with a list of tools the augmenter is [augment_tools],
    written back in place. *)
Lemma add_binary_param_to_schema_tools (response : json) (l : list json) :
  tools_of response = Some l ->
  exists rm sm,
    response = JObj rm
    /\ dict_get rm "result" = Some (JObj sm)
    /\ dict_get sm "tools" = Some (JArr l)
    /\ add_binary_param_to_schema response
       = (l1 <- augment_tools l ;;
          Ok (JObj (dict_set rm "result" (JObj (dict_set sm "tools" (JArr l1)))))).
Proof.
  unfold tools_of. destruct response as [| | | | |rm]; try discriminate.
  destruct (dict_get rm "result") as [[| | | | |sm]|] eqn:Hr; try discriminate.
  destruct (dict_get sm "tools") as [[| | | |l0|]|] eqn:Ht; try discriminate.
  intros [= ->]. exists rm, sm.
  split; [reflexivity|]. split; [exact Hr|]. split; [exact Ht|].
  unfold add_binary_param_to_schema, augment_tools.
  repeat first [rewrite Hr | rewrite Ht | progress unfold dict_has
               | progress cbn [py_in py_getitem bind negb]].
  destruct (mapM add_binary_param l) as [l'|]; simpl; [|reflexivity].
  destruct (mapM tool_name l') as [names|]; reflexivity.
Qed.

Lemma augment_tools_first (l l1 : list json) :
  augment_tools l = Ok l1 ->
  exists l' names,
    mapM add_binary_param l = Ok l'
    /\ mapM tool_name l' = Ok names
    /\ l1 = l' ++ (if Nat.eqb (enumeration_entries l) 0
                   then [list_instances_tool] else []).
Proof.
  unfold augment_tools.
  destruct (mapM add_binary_param l) as [l'|] eqn:Hl; cbn [bind]; [|discriminate].
  destruct (mapM tool_name l') as [names|] eqn:Hn; cbn [bind]; [|discriminate].
  rewrite (existing_names_enumeration l' names Hn).
  rewrite (enumeration_entries_after l l' Hl).
  intros [= <-]. exists l', names.
  split; [reflexivity|]. split; [exact Hn|].
  destruct (Nat.eqb (enumeration_entries l) 0); simpl.
  - reflexivity.
  - now rewrite app_nil_r.
Qed.


Lemma enumeration_entries_app (l1 l2 : list json) :
  enumeration_entries (l1 ++ l2) = enumeration_entries l1 + enumeration_entries l2.
Proof. unfold enumeration_entries. now rewrite filter_app, length_app. Qed.


Lemma mapM_tool_name_after (l l' : list json) :
  mapM add_binary_param l = Ok l' -> mapM tool_name l' = mapM tool_name l.
Proof.
  revert l'. induction l as [|x t IH]; simpl; intros l'.
  - now intros [= <-].
  - destruct (add_binary_param x) as [y|] eqn:Hy; simpl; [|discriminate].
    destruct (mapM add_binary_param t) as [ys|]; simpl; [|discriminate].
    intros [= <-]. simpl. rewrite (tool_name_after x y Hy).
    now rewrite (IH ys eq_refl).
Qed.



(** A descriptor passes through the loop. *)
Lemma add_binary_param_descriptor (t : json) :
  descriptor t ->
  (exists t', add_binary_param t = Ok t')
  /\ exists n, tool_name t = Ok (JStr n).
Proof.
  intros [tm [n [-> [Hname Hschema]]]]. split.
  - unfold add_binary_param. simpl. unfold dict_has.
    destruct (dict_get tm "inputSchema") as [schema|] eqn:Hs; simpl;
      [|now eexists].
    destruct (Hschema schema eq_refl) as [sm [-> Hprops]]. simpl.
    unfold dict_has.
    destruct (dict_get sm "properties") as [props|] eqn:Hp; simpl;
      [|now eexists].
    destruct (Hprops props eq_refl) as [pm ->]. now eexists.
  - exists n. unfold tool_name. simpl. now rewrite Hname.
Qed.

Lemma mapM_descriptors (l : list json) :
  Forall descriptor l ->
  (exists l', mapM add_binary_param l = Ok l')
  /\ exists names, mapM tool_name l = Ok names.
Proof.
  induction 1 as [|t l Ht _ [[l' Hl'] [names Hnames]]]; simpl.
  - split; eexists; reflexivity.
  - destruct (add_binary_param_descriptor t Ht) as [[t' Ht'] [n Hn]].
    rewrite Ht', Hl', Hn, Hnames. split; eexists; reflexivity.
Qed.

Lemma augment_tools_descriptors (l : list json) :
  Forall descriptor l -> exists l1, augment_tools l = Ok l1.
Proof.
  intros Hl. destruct (mapM_descriptors l Hl) as [[l' Hl'] [names Hnames]].
  unfold augment_tools. rewrite Hl'. cbn [bind].
  rewrite (mapM_tool_name_after l l' Hl'), Hnames. now eexists.
Qed.




(** ** The routing gateway *)

Lemma dict_get_del_same (m : dict) (k : string) :
  dict_get (dict_del m k) k = None.
Proof.
  induction m as [|[k0 v0] t IH]; simpl; auto.
  destruct (String.eqb k0 k) eqn:Hk; simpl; [|rewrite Hk]; auto.
Qed.

Lemma dict_get_del_other (m : dict) (k k' : string) :
  k <> k' -> dict_get (dict_del m k) k' = dict_get m k'.
Proof.
  intros Hne. induction m as [|[k0 v0] t IH]; simpl; auto.
  destruct (String.eqb k0 k) eqn:Hk; simpl.
  - apply String.eqb_eq in Hk. subst k0.
    apply String.eqb_neq in Hne. now rewrite Hne.
  - now rewrite IH.
Qed.

Lemma dict_pop_absent (m : dict) (k : string) :
  dict_get (snd (dict_pop m k)) k = None.
Proof.
  unfold dict_pop. destruct (dict_get m k) eqn:Hk; simpl; auto.
  apply dict_get_del_same.
Qed.

Lemma dict_pop_other (m : dict) (k k' : string) :
  k <> k' -> dict_get (snd (dict_pop m k)) k' = dict_get m k'.
Proof.
  intros Hne. unfold dict_pop. destruct (dict_get m k); simpl; auto.
  now apply dict_get_del_other.
Qed.

(** A request on the routed way is handled by [dispatch_routed]. *)
Lemma dispatch_proxy_routed
    (E : env) (request : request_value) (m : dict) (name : string) (reg : registry) :
  routed E request m name ->
  dispatch_proxy E request reg = dispatch_routed E request name m reg.
Proof.
  intros [Hparse [Hmethod [Hinit [Hnote [Hlocal Hlist]]]]].
  unfold dispatch_proxy. rewrite Hparse. simpl. rewrite Hmethod. simpl.
  apply String.eqb_neq in Hinit. rewrite Hinit, Hnote.
  apply String.eqb_neq in Hlist. rewrite Hlist.
  destruct (String.eqb name "tools/call") eqn:Hcall; simpl; [|reflexivity].
  apply String.eqb_eq in Hcall. now rewrite (Hlocal Hcall).
Qed.

(** The capability listing is handled by [dispatch_tools_list]. *)
Lemma dispatch_proxy_tools_list
    (E : env) (request : request_value) (m : dict) (reg : registry) :
  parse_request E request = Ok (JObj m) ->
  dict_get m "method" = Some (JStr "tools/list") ->
  dispatch_proxy E request reg = dispatch_tools_list E request m reg.
Proof.
  intros Hparse Hmethod.
  unfold dispatch_proxy. rewrite Hparse. simpl. rewrite Hmethod. reflexivity.
Qed.

(** Taking the selector out touches the parameters only. *)
Lemma extract_binary_frame (name : string) (m : dict) (k : string) :
  k <> "params" ->
  dict_get (snd (extract_binary name m)) k = dict_get m k.
Proof.
  intros Hk. unfold extract_binary.
  destruct (dict_get m "params") as [[| | | | |pm]|]; try reflexivity.
  destruct (String.eqb name "tools/call" && dict_has pm "arguments").
  - destruct (dict_get_or pm "arguments" (JObj [])); try reflexivity.
    simpl. apply dict_get_set_other. congruence.
  - simpl. apply dict_get_set_other. congruence.
Qed.

Lemma extract_binary_id (name : string) (m : dict) :
  dict_get_or (snd (extract_binary name m)) "id" JNull = dict_get_or m "id" JNull.
Proof.
  unfold dict_get_or. rewrite extract_binary_frame; [reflexivity | discriminate].
Qed.

(** After the selector is taken out, its slot holds none, and holds
    what it held under every other name. *)
Lemma extract_binary_slot (name : string) (m : dict) :
  match selector_slot name m with
  | Some slot =>
      exists slot',
        selector_slot name (snd (extract_binary name m)) = Some slot'
        /\ fst (extract_binary name m) = dict_get_or slot "binary" JNull
        /\ dict_get slot' "binary" = None
        /\ forall k, k <> "binary" -> dict_get slot' k = dict_get slot k
  | None =>
      extract_binary name m = (JNull, m)
  end.
Proof.
  unfold selector_slot, extract_binary.
  destruct (dict_get m "params") as [[| | | | |pm]|] eqn:Hp; try reflexivity.
  destruct (String.eqb name "tools/call" && dict_has pm "arguments") eqn:Hcall.
  - apply andb_true_iff in Hcall. destruct Hcall as [Hname Hargs].
    unfold dict_has in Hargs. unfold dict_get_or.
    destruct (dict_get pm "arguments") as [[| | | | |am]|] eqn:Ha;
      try reflexivity; [|discriminate].
    exists (snd (dict_pop am "binary")). simpl.
    rewrite dict_get_set_same, Hname. unfold dict_has.
    rewrite dict_get_set_same. simpl. split; [reflexivity|]. split.
    + unfold dict_pop. now destruct (dict_get am "binary").
    + split; [apply dict_pop_absent|]. intros k Hk. apply dict_pop_other. congruence.
  - exists (snd (dict_pop pm "binary")). simpl.
    rewrite dict_get_set_same.
    assert (Hsame : String.eqb name "tools/call"
                    && dict_has (snd (dict_pop pm "binary")) "arguments" = false).
    { unfold dict_has. rewrite dict_pop_other by discriminate. exact Hcall. }
    rewrite Hsame. split; [reflexivity|]. split.
    + unfold dict_pop, dict_get_or. now destruct (dict_get pm "binary").
    + split; [apply dict_pop_absent|]. intros k Hk. apply dict_pop_other. congruence.
Qed.

Lemma several_not_one (reg : registry) :
  1 < length reg ->
  Nat.eqb (get_instance_count reg) 1 = false
  /\ Nat.ltb 1 (get_instance_count reg) = true.
Proof.
  unfold get_instance_count. intros H. split.
  - apply Nat.eqb_neq. lia.
  - apply Nat.ltb_lt. exact H.
Qed.

(** The way of a request whose selector is None or empty, by the number
    of registered workers. *)
Lemma dispatch_routed_unselected
    (E : env) (request : request_value) (name : string) (m : dict) (reg : registry) :
  truthy (fst (extract_binary name m)) = false ->
  let m' := snd (extract_binary name m) in
  let d := dispatch_routed E request name m reg in
  looked_up d = []
  /\ instances_after d = reg
  /\ (forall k i,
        reg = [(k, i)] ->
        forwarded d = [{| fwd_data := JObj m'; fwd_host := host i; fwd_port := port i |}]
        /\ result_of d = forward_routed E name m' (host i) (port i))
  /\ (1 < length reg ->
      forwarded d = []
      /\ result_of d = Returned (ambiguous_reply (dict_get_or m "id" JNull)))
  /\ (reg = [] ->
      forwarded d = [{| fwd_data := JObj m'; fwd_host := JStr (IDA_HOST E);
                        fwd_port := JNum (IDA_PORT E) |}]
      /\ result_of d
         = forward_routed E name m' (JStr (IDA_HOST E)) (JNum (IDA_PORT E))).
Proof.
  intros Hnone. cbv zeta. unfold dispatch_routed. rewrite Hnone.
  rewrite extract_binary_id.
  split; [|split; [|split; [|split]]].
  - destruct (Nat.eqb (get_instance_count reg) 1).
    + now destruct (get_single_instance reg).
    + destruct (Nat.ltb 1 (get_instance_count reg)); [|reflexivity].
      now destruct (dict_get_or m "id" JNull).
  - destruct (Nat.eqb (get_instance_count reg) 1).
    + now destruct (get_single_instance reg).
    + destruct (Nat.ltb 1 (get_instance_count reg)); [|reflexivity].
      now destruct (dict_get_or m "id" JNull).
  - intros k i ->. simpl. split; reflexivity.
  - intros Hmany. destruct (several_not_one reg Hmany) as [-> ->].
    now destruct (dict_get_or m "id" JNull).
  - intros ->. simpl. split; reflexivity.
Qed.

(** C1, as the code has it: a request on the routed way without a
    selector, when more than one worker is registered, is forwarded to
    no worker and no worker is looked up; when the request carries an
    identifier the reply is the application error (code -32000) that
    asks for the binary parameter, and when it carries none (a
    notification) nothing is returned. *)
Theorem dispatch_proxy_demands_selector
    (E : env) (request : request_value) (m : dict) (name : string) (reg : registry) :
  routed E request m name ->
  fst (extract_binary name m) = JNull ->
  1 < length reg ->
  forwarded (dispatch_proxy E request reg) = []
  /\ looked_up (dispatch_proxy E request reg) = []
  /\ instances_after (dispatch_proxy E request reg) = reg
  /\ result_of (dispatch_proxy E request reg)
     = Returned (ambiguous_reply (dict_get_or m "id" JNull))
  /\ (dict_get_or m "id" JNull <> JNull ->
      result_of (dispatch_proxy E request reg)
      = Returned
          (JObj [("jsonrpc", JStr "2.0");
                 ("error",
                  JObj [("code", JNum (-32000));
                        ("message", JStr multiple_instances_message)]);
                 ("id", dict_get_or m "id" JNull)]))
  /\ (dict_get_or m "id" JNull = JNull ->
      result_of (dispatch_proxy E request reg) = Returned JNull).
Proof.
  intros Hrouted Hnone Hmany.
  rewrite (dispatch_proxy_routed E request m name reg Hrouted).
  assert (Hfalsy : truthy (fst (extract_binary name m)) = false)
    by now rewrite Hnone.
  destruct (dispatch_routed_unselected E request name m reg Hfalsy)
    as [Hfind [Hreg [_ [Hambiguous _]]]].
  destruct (Hambiguous Hmany) as [Hfwd Hres].
  repeat (split; [assumption|]). split.
  - intros Hid. rewrite Hres.
    destruct (dict_get_or m "id" JNull); try reflexivity. contradiction.
  - intros Hid. rewrite Hres, Hid. reflexivity.
Qed.

Lemma dispatch_proxy_demands_selector_witness :
  result_of
    (dispatch_proxy silent_env
       (ReqDict (decompile_call [("addr", JStr "0x401000")] [("id", JNum 7)]))
       two_workers)
  = Returned
      (JObj [("jsonrpc", JStr "2.0");
             ("error",
              JObj [("code", JNum (-32000));
                    ("message", JStr multiple_instances_message)]);
             ("id", JNum 7)]).
Proof.
  assert (Hrouted :
            routed silent_env
              (ReqDict (decompile_call [("addr", JStr "0x401000")] [("id", JNum 7)]))
              (decompile_call [("addr", JStr "0x401000")] [("id", JNum 7)])
              "tools/call").
  { repeat (split; [first [reflexivity | discriminate]|]). discriminate. }
  destruct (dispatch_proxy_demands_selector silent_env _ _ _ two_workers
              Hrouted eq_refl) as [_ [_ [_ [_ [Herror _]]]]].
  - simpl. lia.
  - apply Herror. discriminate.
Defined.

(** C1, as the claim has it, fails: the same request without an
    identifier gets no error, it gets nothing. *)
Lemma dispatch_proxy_ambiguous_notification_unanswered :
  result_of
    (dispatch_proxy silent_env
       (ReqDict (decompile_call [("addr", JStr "0x401000")] []))
       two_workers)
  = Returned JNull.
Proof. reflexivity. Qed.

(** C3: a capability listing that arrives while no worker is
    registered, when the scan of the worker ports registers none, is
    answered by the gateway itself: the reply lists one operation,
    list_instances, whose description says that no IDA instances are
    connected; nothing is forwarded and the registry stays empty. *)
Theorem dispatch_proxy_lists_enumeration_only
    (E : env) (request : request_value) (m : dict) :
  parse_request E request = Ok (JObj m) ->
  dict_get m "method" = Some (JStr "tools/list") ->
  (exists n, discover_ida_instances E (IDA_HOST E) 13338 10 [] = Ok (n, [])) ->
  result_of (dispatch_proxy E request [])
  = Returned (no_instances_reply (dict_get_or m "id" JNull))
  /\ forwarded (dispatch_proxy E request []) = []
  /\ instances_after (dispatch_proxy E request []) = []
  /\ exists tool text,
       tools_of (no_instances_reply (dict_get_or m "id" JNull)) = Some [tool]
       /\ py_getitem tool "name" = Ok (JStr "list_instances")
       /\ py_getitem tool "description" = Ok (JStr text)
       /\ occurs_in "No IDA instances are currently connected" text.
Proof.
  intros Hparse Hmethod [n Hscan].
  rewrite (dispatch_proxy_tools_list E request m [] Hparse Hmethod).
  unfold dispatch_tools_list. simpl get_instance_count. cbn [Nat.eqb length].
  rewrite Hscan. simpl.
  repeat (split; [reflexivity|]).
  eexists. eexists. repeat (split; [reflexivity|]).
  apply str_contains_occurs. reflexivity.
Qed.

Lemma dispatch_proxy_lists_enumeration_only_witness :
  result_of
    (dispatch_proxy silent_env
       (ReqDict [("jsonrpc", JStr "2.0"); ("method", JStr "tools/list");
                 ("id", JNum 3)]) [])
  = Returned (no_instances_reply (JNum 3)).
Proof.
  apply (dispatch_proxy_lists_enumeration_only silent_env
           (ReqDict [("jsonrpc", JStr "2.0"); ("method", JStr "tools/list");
                     ("id", JNum 3)])
           [("jsonrpc", JStr "2.0"); ("method", JStr "tools/list"); ("id", JNum 3)]).
  - reflexivity.
  - reflexivity.
  - exists 0. reflexivity.
Defined.

(** On the routed way a request without an identifier is never answered
    with an error: what is returned is nothing, or what the worker
    replied to the one call that was forwarded. *)
Lemma dispatch_proxy_routed_notification_silent
    (E : env) (request : request_value) (m : dict) (name : string) (reg : registry)
    (reply : json) :
  routed E request m name ->
  dict_get_or m "id" JNull = JNull ->
  result_of (dispatch_proxy E request reg) = Returned reply ->
  reply = JNull
  \/ exists call,
       forwarded (dispatch_proxy E request reg) = [call]
       /\ forward_to_instance E (fwd_data call) (fwd_host call) (fwd_port call)
          = Ok reply.
Proof.
  intros Hrouted Hid.
  rewrite (dispatch_proxy_routed E request m name reg Hrouted).
  destruct Hrouted as [_ [_ [_ [_ [_ Hlist]]]]]. apply String.eqb_neq in Hlist.
  assert (Hforward : forall h p,
             forward_routed E name (snd (extract_binary name m)) h p = Returned reply ->
             reply = JNull
             \/ forward_to_instance E (JObj (snd (extract_binary name m))) h p = Ok reply).
  { intros h p. unfold forward_routed. rewrite Hlist, extract_binary_id, Hid.
    destruct (forward_to_instance E _ h p) as [response|]; simpl.
    - intros [= <-]. now right.
    - intros [= <-]. now left. }
  unfold dispatch_routed. rewrite extract_binary_id, Hid.
  destruct (truthy (fst (extract_binary name m))).
  - destruct (find_instance reg _) as [[i|]|]; simpl.
    + intros H. destruct (Hforward _ _ H) as [->|Hok]; [now left|].
      right. eexists. split; [reflexivity | exact Hok].
    + intros [= <-]. now left.
    + discriminate.
  - destruct (Nat.eqb (get_instance_count reg) 1).
    + destruct (get_single_instance reg) as [i|]; simpl; intros H;
        (destruct (Hforward _ _ H) as [->|Hok]; [now left|]);
        right; eexists; (split; [reflexivity | exact Hok]).
    + destruct (Nat.ltb 1 (get_instance_count reg)); simpl.
      * intros [= <-]. now left.
      * intros H. destruct (Hforward _ _ H) as [->|Hok]; [now left|].
        right. eexists. split; [reflexivity | exact Hok].
Qed.

(** C2 at the capability listing: the worker does not answer, the
    request has no identifier, and the gateway returns an error object
    with a null id where the routed way returns nothing. *)
Lemma dispatch_proxy_tools_list_notification_answered :
  result_of
    (dispatch_proxy silent_env
       (ReqDict [("jsonrpc", JStr "2.0"); ("method", JStr "tools/list")])
       [worker "beef" "22" "ls" "/bin/ls" 13339])
  = Returned
      (JObj [("jsonrpc", JStr "2.0");
             ("error",
              JObj [("code", JNum (-32000));
                    ("message", JStr "Failed to get tools: Connection refused")]);
             ("id", JNull)]).
Proof. reflexivity. Qed.

(** Whatever way a routed request goes, what is forwarded is the
    request object with the selector taken out, and that object is
    what the caller of a dict is left with. *)
Lemma dispatch_routed_outbound
    (E : env) (request : request_value) (name : string) (m : dict) (reg : registry) :
  (forall call,
     In call (forwarded (dispatch_routed E request name m reg)) ->
     fwd_data call = JObj (snd (extract_binary name m)))
  /\ request_after (dispatch_routed E request name m reg)
     = caller_view request (snd (extract_binary name m)).
Proof.
  unfold dispatch_routed.
  destruct (truthy (fst (extract_binary name m))).
  - destruct (find_instance reg _) as [[i|]|]; simpl.
    + split; [intros call [<-|[]]|]; reflexivity.
    + destruct (dict_get_or _ "id" JNull); simpl; split; try reflexivity;
        intros call [].
    + split; [intros call []| reflexivity].
  - destruct (Nat.eqb (get_instance_count reg) 1).
    + destruct (get_single_instance reg); simpl;
        (split; [intros call [<-|[]]|]; reflexivity).
    + destruct (Nat.ltb 1 (get_instance_count reg)); simpl.
      * destruct (dict_get_or _ "id" JNull); simpl; split; try reflexivity;
          intros call [].
      * split; [intros call [<-|[]]|]; reflexivity.
Qed.

(** Taking the selector out changes nothing off the way to it, and
    leaves nothing at the end of it. *)
Lemma extract_binary_paths (name : string) (m : dict) (q : list string) :
  diverges (selector_path name m) q ->
  lookup_path (JObj (snd (extract_binary name m))) q = lookup_path (JObj m) q.
Proof.
  unfold selector_path, extract_binary.
  destruct (dict_get m "params") as [[| | | | |pm]|] eqn:Hp; try reflexivity.
  destruct (String.eqb name "tools/call" && dict_has pm "arguments") eqn:Hcall.
  - destruct (andb_prop _ _ Hcall) as [_ Hargs].
    unfold dict_has in Hargs. unfold dict_get_or.
    destruct (dict_get pm "arguments") as [[| | | | |am]|] eqn:Ha;
      try reflexivity; [|discriminate].
    cbn [snd]. destruct q as [|b q]; [intros []|].
    cbn [diverges lookup_path]. intros [Hb | [<- Hq]].
    + now rewrite dict_get_set_other.
    + rewrite dict_get_set_same, Hp.
      destruct q as [|b2 q]; [destruct Hq|].
      cbn [diverges lookup_path] in Hq |- *. destruct Hq as [Hb2 | [<- Hq]].
      * now rewrite dict_get_set_other.
      * rewrite dict_get_set_same, Ha.
        destruct q as [|b3 q]; [destruct Hq|].
        cbn [diverges lookup_path] in Hq |- *.
        destruct Hq as [Hb3 | [_ Hq]]; [|destruct q; destruct Hq].
        now rewrite dict_pop_other.
  - cbn [snd]. destruct q as [|b q]; [intros []|].
    cbn [diverges lookup_path]. intros [Hb | [<- Hq]].
    + now rewrite dict_get_set_other.
    + rewrite dict_get_set_same, Hp.
      destruct q as [|b2 q]; [destruct Hq|].
      cbn [diverges lookup_path] in Hq |- *.
      destruct Hq as [Hb2 | [_ Hq]]; [|destruct q; destruct Hq].
      now rewrite dict_pop_other.
Qed.

Lemma extract_binary_unseen (name : string) (m : dict) :
  lookup_path (JObj (snd (extract_binary name m))) (selector_path name m) = None.
Proof.
  unfold selector_path, extract_binary.
  destruct (dict_get m "params") as [[| | | | |pm]|] eqn:Hp;
    try (cbn [snd lookup_path]; rewrite Hp; reflexivity).
  destruct (String.eqb name "tools/call" && dict_has pm "arguments") eqn:Hcall.
  - destruct (andb_prop _ _ Hcall) as [_ Hargs].
    unfold dict_has in Hargs. unfold dict_get_or.
    destruct (dict_get pm "arguments") as [[| | | | |am]|] eqn:Ha;
      try (cbn [snd lookup_path]; rewrite Hp, Ha; reflexivity);
      [|discriminate].
    cbn [snd lookup_path]. rewrite !dict_get_set_same.
    now rewrite dict_pop_absent.
  - cbn [snd lookup_path]. rewrite dict_get_set_same.
    now rewrite dict_pop_absent.
Qed.

(** C8, as the code has it: what a routed request is forwarded as has
    no selector where the selector lives, and is the request in
    everything else: it holds nothing at the end of the keys that lead
    to the selector, and at every path of keys that leaves them, the
    other keys of the parameters and of the arguments among them, it
    holds what the request holds.  The selector is taken out of the
    parsed request itself.  A request that came as text is left as it
    was; a request that came as a dict is that object, and the caller
    finds it without the selector. *)
Theorem dispatch_proxy_strips_selector
    (E : env) (request : request_value) (m : dict) (name : string) (reg : registry) :
  routed E request m name ->
  exists m',
    (forall call,
       In call (forwarded (dispatch_proxy E request reg)) ->
       fwd_data call = JObj m')
    /\ request_after (dispatch_proxy E request reg)
       = match request with
         | ReqText raw => ReqText raw
         | ReqDict _ => ReqDict m'
         end
    /\ (forall k, k <> "params" -> dict_get m' k = dict_get m k)
    /\ match selector_slot name m with
       | Some slot =>
           exists slot',
             selector_slot name m' = Some slot'
             /\ dict_get slot' "binary" = None
             /\ forall k, k <> "binary" -> dict_get slot' k = dict_get slot k
       | None => m' = m
       end
    /\ lookup_path (JObj m') (selector_path name m) = None
    /\ (forall q,
          diverges (selector_path name m) q ->
          lookup_path (JObj m') q = lookup_path (JObj m) q).
Proof.
  intros Hrouted.
  rewrite (dispatch_proxy_routed E request m name reg Hrouted).
  exists (snd (extract_binary name m)).
  destruct (dispatch_routed_outbound E request name m reg) as [Hfwd Hafter].
  split; [exact Hfwd|]. split; [exact Hafter|].
  split; [intros k Hk; now apply extract_binary_frame|].
  split;
    [|split; [apply extract_binary_unseen
             | intros q Hq; now apply extract_binary_paths]].
  pose proof (extract_binary_slot name m) as Hslot.
  destruct (selector_slot name m) as [slot|].
  - destruct Hslot as [slot' [Hs [_ [Hnone Hrest]]]]. exists slot'. auto.
  - now rewrite Hslot.
Qed.

Lemma dispatch_proxy_strips_selector_witness :
  exists m',
    (forall call,
       In call
         (forwarded
            (dispatch_proxy silent_env
               (ReqDict (decompile_call
                           [("addr", JStr "0x401000"); ("binary", JStr "ls")]
                           [("id", JNum 7)]))
               two_workers)) ->
       fwd_data call = JObj m')
    /\ selector_slot "tools/call" m' = Some [("addr", JStr "0x401000")]
    /\ lookup_path (JObj m') ["params"; "name"] = Some (JStr "decompile").
Proof.
  assert (Hrouted :
            routed silent_env
              (ReqDict (decompile_call
                          [("addr", JStr "0x401000"); ("binary", JStr "ls")]
                          [("id", JNum 7)]))
              (decompile_call
                 [("addr", JStr "0x401000"); ("binary", JStr "ls")]
                 [("id", JNum 7)])
              "tools/call").
  { repeat (split; [first [reflexivity | discriminate]|]). discriminate. }
  destruct (dispatch_proxy_strips_selector silent_env _ _ _ two_workers Hrouted)
    as [m' [Hfwd [_ [_ [_ [_ Hrest]]]]]].
  exists m'. split; [exact Hfwd|]. split.
  - specialize (Hfwd _ (or_introl eq_refl)). simpl in Hfwd.
    injection Hfwd as <-. reflexivity.
  - rewrite (Hrest ["params"; "name"]); [reflexivity|].
    right. split; [reflexivity|]. left. discriminate.
Defined.

(** C8, as the claim has it, fails: a request passed in as a dict is
    not left untouched, the selector is gone from it afterwards. *)
Lemma dispatch_proxy_changes_request_dict :
  request_after
    (dispatch_proxy silent_env
       (ReqDict (decompile_call
                   [("addr", JStr "0x401000"); ("binary", JStr "ls")]
                   [("id", JNum 7)]))
       two_workers)
  = ReqDict (decompile_call [("addr", JStr "0x401000")] [("id", JNum 7)])
  /\ request_after
       (dispatch_proxy silent_env
          (ReqDict (decompile_call
                      [("addr", JStr "0x401000"); ("binary", JStr "ls")]
                      [("id", JNum 7)]))
          two_workers)
     <> ReqDict (decompile_call
                   [("addr", JStr "0x401000"); ("binary", JStr "ls")]
                   [("id", JNum 7)]).
Proof.
  split; [reflexivity|]. intros H. vm_compute in H. discriminate H.
Qed.

Lemma dict_pop_again (m : dict) (k : string) :
  dict_pop (snd (dict_pop m k)) k = (JNull, snd (dict_pop m k)).
Proof.
  unfold dict_pop at 1. now rewrite dict_pop_absent.
Qed.

(** A request whose selector has been taken out has none. *)
Lemma extract_binary_again (name : string) (m : dict) :
  extract_binary name (snd (extract_binary name m))
  = (JNull, snd (extract_binary name m)).
Proof.
  unfold extract_binary at 2 3.
  destruct (dict_get m "params") as [[| | | | |pm]|] eqn:Hp;
    try (simpl; unfold extract_binary; now rewrite Hp).
  destruct (String.eqb name "tools/call" && dict_has pm "arguments") eqn:Hcall.
  - destruct (andb_prop _ _ Hcall) as [Hname Hargs].
    unfold dict_has in Hargs. unfold dict_get_or.
    destruct (dict_get pm "arguments") as [[| | | | |am]|] eqn:Ha;
      try discriminate;
      try (simpl; unfold extract_binary, dict_get_or; now rewrite Hp, Hcall, Ha).
    simpl. unfold extract_binary, dict_get_or, dict_has.
    rewrite dict_get_set_same, Hname, !dict_get_set_same. simpl.
    rewrite dict_pop_again. simpl. now rewrite !dict_set_twice.
  - simpl. unfold extract_binary, dict_has.
    rewrite dict_get_set_same.
    rewrite dict_pop_other by discriminate.
    unfold dict_has in Hcall. rewrite Hcall.
    rewrite dict_pop_again. simpl. now rewrite dict_set_twice.
Qed.

(** Taking the selector out does not change what the call is a call of. *)
Lemma is_list_instances_call_after (name : string) (m : dict) :
  is_list_instances_call (snd (extract_binary name m)) = is_list_instances_call m.
Proof.
  unfold extract_binary, is_list_instances_call, dict_get_or.
  destruct (dict_get m "params") as [[| | | | |pm]|] eqn:Hp;
    try (simpl; now rewrite Hp).
  destruct (String.eqb name "tools/call" && dict_has pm "arguments").
  - destruct (dict_get pm "arguments") as [[| | | | |am]|];
      try (simpl; now rewrite Hp).
    + simpl. rewrite dict_get_set_same.
      rewrite dict_get_set_other by discriminate. reflexivity.
    + simpl. rewrite dict_get_set_same.
      rewrite dict_get_set_other by discriminate. reflexivity.
  - simpl. rewrite dict_get_set_same.
    rewrite dict_pop_other by discriminate. reflexivity.
Qed.

Lemma routed_after (E : env) (request : request_value) (m : dict) (name : string) :
  routed E request m name ->
  routed E (ReqDict (snd (extract_binary name m))) (snd (extract_binary name m)) name.
Proof.
  intros [_ [Hmethod [Hinit [Hnote [Hlocal Hlist]]]]].
  split; [reflexivity|]. split.
  - rewrite extract_binary_frame; [exact Hmethod | discriminate].
  - repeat (split; [assumption|]). split; [|assumption].
    intros Hcall. rewrite is_list_instances_call_after. now apply Hlocal.
Qed.

(** A request whose selector is None or empty is handled as the request
    without the selector is. *)
Lemma dispatch_routed_as_unselected
    (E : env) (request request' : request_value) (name : string) (m : dict)
    (reg : registry) :
  truthy (fst (extract_binary name m)) = false ->
  result_of (dispatch_routed E request name m reg)
  = result_of (dispatch_routed E request' name (snd (extract_binary name m)) reg)
  /\ forwarded (dispatch_routed E request name m reg)
     = forwarded (dispatch_routed E request' name (snd (extract_binary name m)) reg)
  /\ looked_up (dispatch_routed E request name m reg)
     = looked_up (dispatch_routed E request' name (snd (extract_binary name m)) reg).
Proof.
  intros Hnone. unfold dispatch_routed.
  rewrite extract_binary_again, Hnone. simpl.
  destruct (Nat.eqb (get_instance_count reg) 1).
  - destruct (get_single_instance reg); simpl; repeat split.
  - destruct (Nat.ltb 1 (get_instance_count reg)).
    + destruct (dict_get_or _ "id" JNull); simpl; repeat split.
    + simpl. repeat split.
Qed.

(** C10: a routed request whose selector is the empty string goes the
    way of a request without one, and is answered and forwarded as the
    same request with the selector left out is.  [find_instance] is not
    called; with one worker registered the request is forwarded to it,
    with several it is refused as ambiguous and forwarded to none, with
    none it is forwarded to the default address.  Had the empty string
    been looked up, the path tier would have matched: the empty string
    occurs in every path, and a registry whose paths are strings has a
    match for it as soon as it has a record. *)
Theorem dispatch_proxy_empty_selector_unselected
    (E : env) (request : request_value) (m : dict) (name : string) (reg : registry) :
  routed E request m name ->
  fst (extract_binary name m) = JStr EmptyString ->
  looked_up (dispatch_proxy E request reg) = []
  /\ (fst (extract_binary name (snd (extract_binary name m))) = JNull
      /\ result_of (dispatch_proxy E request reg)
         = result_of
             (dispatch_proxy E (ReqDict (snd (extract_binary name m))) reg)
      /\ forwarded (dispatch_proxy E request reg)
         = forwarded
             (dispatch_proxy E (ReqDict (snd (extract_binary name m))) reg))
  /\ (forall k i,
        reg = [(k, i)] ->
        forwarded (dispatch_proxy E request reg)
        = [{| fwd_data := JObj (snd (extract_binary name m));
              fwd_host := host i; fwd_port := port i |}])
  /\ (1 < length reg ->
      forwarded (dispatch_proxy E request reg) = []
      /\ result_of (dispatch_proxy E request reg)
         = Returned (ambiguous_reply (dict_get_or m "id" JNull)))
  /\ (reg = [] ->
      forwarded (dispatch_proxy E request reg)
      = [{| fwd_data := JObj (snd (extract_binary name m));
            fwd_host := JStr (IDA_HOST E); fwd_port := JNum (IDA_PORT E) |}])
  /\ (forall i p,
        path i = JStr p -> py_in (JStr EmptyString) (path i) = Ok true)
  /\ ((forall e, In e reg -> exists p, path (snd e) = JStr p) ->
      reg <> [] ->
      exists i, find_instance reg (JStr EmptyString) = Ok (Some i)).
Proof.
  intros Hrouted Hempty.
  rewrite (dispatch_proxy_routed E request m name reg Hrouted).
  rewrite (dispatch_proxy_routed E _ _ name reg (routed_after E request m name Hrouted)).
  assert (Hfalsy : truthy (fst (extract_binary name m)) = false)
    by now rewrite Hempty.
  destruct (dispatch_routed_unselected E request name m reg Hfalsy)
    as [Hfind [_ [Hone [Hmany Hzero]]]].
  destruct (dispatch_routed_as_unselected E request
              (ReqDict (snd (extract_binary name m))) name m reg Hfalsy)
    as [Hres [Hfwd _]].
  split; [exact Hfind|].
  split; [split; [now rewrite extract_binary_again | now split]|].
  split; [intros k i Hreg; now apply (Hone k i)|].
  split; [exact Hmany|]. split; [intros Hreg; now apply Hzero|].
  split.
  - intros i p ->. simpl. now rewrite str_contains_empty.
  - intros Hpaths Hsome. unfold find_instance. simpl.
    destruct (reg_get reg (JStr EmptyString)) as [i|]; [now exists i|].
    destruct (find_by_module reg (JStr EmptyString)) as [i|]; [now exists i|].
    destruct reg as [|[k i] t]; [contradiction|].
    destruct (Hpaths (k, i) (or_introl eq_refl)) as [p Hp]. simpl in Hp.
    exists i. simpl. rewrite Hp. simpl. now rewrite str_contains_empty.
Qed.

Lemma dispatch_proxy_empty_selector_unselected_witness :
  looked_up
    (dispatch_proxy silent_env
       (ReqDict (decompile_call
                   [("addr", JStr "0x401000"); ("binary", JStr EmptyString)]
                   [("id", JNum 7)]))
       two_workers) = []
  /\ exists i, find_instance two_workers (JStr EmptyString) = Ok (Some i).
Proof.
  assert (Hrouted :
            routed silent_env
              (ReqDict (decompile_call
                          [("addr", JStr "0x401000"); ("binary", JStr EmptyString)]
                          [("id", JNum 7)]))
              (decompile_call
                 [("addr", JStr "0x401000"); ("binary", JStr EmptyString)]
                 [("id", JNum 7)])
              "tools/call").
  { repeat (split; [first [reflexivity | discriminate]|]). discriminate. }
  destruct (dispatch_proxy_empty_selector_unselected silent_env _ _ _ two_workers
              Hrouted eq_refl) as [Hfind [_ [_ [_ [_ [_ Hmatch]]]]]].
  split; [exact Hfind|]. apply Hmatch.
  - intros e [<-|[<-|[]]]; eexists; reflexivity.
  - discriminate.
Defined.

(** The capability listing is forwarded as it was received, and the
    request is left as it was. *)
Lemma dispatch_proxy_tools_list_outbound
    (E : env) (request : request_value) (m : dict) (reg : registry) :
  parse_request E request = Ok (JObj m) ->
  dict_get m "method" = Some (JStr "tools/list") ->
  (forall call,
     In call (forwarded (dispatch_proxy E request reg)) ->
     fwd_data call = JObj m)
  /\ request_after (dispatch_proxy E request reg) = request.
Proof.
  intros Hparse Hmethod.
  rewrite (dispatch_proxy_tools_list E request m reg Hparse Hmethod).
  unfold dispatch_tools_list.
  destruct (if Nat.eqb (get_instance_count reg) 0 then _ else _) as [[|[k i] t]|];
    simpl; split; try reflexivity.
  - intros call [].
  - intros call [<-|[]]. reflexivity.
  - intros call [].
Qed.

(** A reply that lists no tools (an error reply, say) is returned as it
    is. *)
Lemma add_binary_param_to_schema_without_tools (rm : dict) :
  dict_get rm "result" = None
  \/ (exists sm, dict_get rm "result" = Some (JObj sm) /\ dict_get sm "tools" = None) ->
  add_binary_param_to_schema (JObj rm) = Ok (JObj rm).
Proof.
  unfold add_binary_param_to_schema. simpl. unfold dict_has.
  intros [Hr | [sm [Hr Ht]]]; rewrite Hr; simpl; [reflexivity|].
  unfold dict_has. now rewrite Ht.
Qed.

(** * Further properties *)

(** ** Keys *)

Lemma py_eq_atom_refl (a : json) : hashable a = true -> py_eq a a = true.
Proof.
  destruct a; simpl; try discriminate; intros _.
  - reflexivity.
  - now destruct b.
  - apply Z.eqb_refl.
  - apply String.eqb_refl.
Qed.

Lemma py_eq_atom_sym (a b : json) :
  hashable a = true -> hashable b = true -> py_eq a b = py_eq b a.
Proof.
  destruct a, b; simpl; try discriminate; intros _ _; try reflexivity.
  - now destruct b, b0.
  - apply Z.eqb_sym.
  - apply String.eqb_sym.
Qed.

(** Two keys equal to a third are equal. *)
Lemma py_eq_atom_trans (a b c : json) :
  hashable a = true -> hashable b = true -> hashable c = true ->
  py_eq a c = true -> py_eq b c = true -> py_eq a b = true.
Proof.
  destruct a, b, c; simpl; try discriminate; intros _ _ _;
    rewrite ?Z.eqb_eq, ?String.eqb_eq; try congruence;
    try (destruct b; destruct b0; try destruct b1; simpl; congruence).
Qed.

Lemma reg_has_cons (k0 : json) (i0 : instance) (t : registry) (k : json) :
  reg_has ((k0, i0) :: t) k = py_eq k0 k || reg_has t k.
Proof. unfold reg_has. simpl. now destruct (py_eq k0 k). Qed.

Lemma reg_has_app (r1 r2 : registry) (k : json) :
  reg_has (r1 ++ r2) k = reg_has r1 k || reg_has r2 k.
Proof.
  induction r1 as [|[k0 i0] t IH]; [reflexivity|].
  change (((k0, i0) :: t) ++ r2) with ((k0, i0) :: (t ++ r2)).
  rewrite !reg_has_cons, IH. now rewrite orb_assoc.
Qed.

(** Storing under a key that is there keeps the keys; storing under a
    new key adds it last. *)
Lemma reg_set_present (reg : registry) (k : json) (i : instance) :
  reg_has reg k = true -> map fst (reg_set reg k i) = map fst reg.
Proof.
  induction reg as [|[k0 i0] t IH]; [discriminate|].
  rewrite reg_has_cons. simpl. destruct (py_eq k0 k); simpl; [reflexivity|].
  intros H. now rewrite IH.
Qed.

Lemma reg_set_absent (reg : registry) (k : json) (i : instance) :
  reg_has reg k = false -> reg_set reg k i = reg ++ [(k, i)].
Proof.
  induction reg as [|[k0 i0] t IH]; [reflexivity|].
  rewrite reg_has_cons. simpl. destruct (py_eq k0 k); simpl; [discriminate|].
  intros H. now rewrite IH.
Qed.

Lemma reg_set_keys (reg : registry) (k : json) (i : instance) :
  map fst (reg_set reg k i)
  = map fst reg ++ (if reg_has reg k then [] else [k]).
Proof.
  destruct (reg_has reg k) eqn:Hk.
  - rewrite app_nil_r. now apply reg_set_present.
  - rewrite (reg_set_absent reg k i Hk), map_app. reflexivity.
Qed.

(** Whether a key is there depends on the keys only. *)
Lemma reg_has_keys (r1 r2 : registry) (k : json) :
  map fst r1 = map fst r2 -> reg_has r1 k = reg_has r2 k.
Proof.
  revert r2. induction r1 as [|[k1 i1] t1 IH]; intros [|[k2 i2] t2]; simpl;
    try discriminate; [reflexivity|].
  intros [= -> Ht]. rewrite !reg_has_cons. now rewrite (IH t2 Ht).
Qed.

Lemma distinct_keys_of_keys (r1 r2 : registry) :
  map fst r1 = map fst r2 -> distinct_keys r1 -> distinct_keys r2.
Proof.
  revert r2. induction r1 as [|[k1 i1] t1 IH]; intros [|[k2 i2] t2]; simpl;
    try discriminate; [auto|].
  intros [= -> Ht] [Hk Hd]. split; [|now apply IH].
  now rewrite <- (reg_has_keys t1 t2 k2 Ht).
Qed.

Lemma reg_has_false (reg : registry) (k : json) :
  reg_has reg k = false <-> forall e, In e reg -> py_eq (fst e) k = false.
Proof.
  unfold reg_has. rewrite <- reg_get_none.
  destruct (reg_get reg k); split; congruence.
Qed.

Lemma distinct_keys_app_one (reg : registry) (k : json) (i : instance) :
  Forall (fun e => hashable (fst e) = true) reg ->
  hashable k = true ->
  reg_has reg k = false ->
  distinct_keys reg ->
  distinct_keys (reg ++ [(k, i)]).
Proof.
  induction reg as [|[k0 i0] t IH]; simpl; intros Hh Hk Hno Hd.
  - split; [reflexivity | exact I].
  - inversion Hh as [|e l Hk0 Ht]; subst. simpl in Hk0.
    rewrite reg_has_cons in Hno. apply orb_false_iff in Hno.
    destruct Hno as [Hne Hno]. destruct Hd as [Hk0t Hd]. split.
    + rewrite reg_has_app, Hk0t. simpl. rewrite reg_has_cons. simpl.
      rewrite orb_false_r, (py_eq_atom_sym k k0 Hk Hk0). exact Hne.
    + now apply IH.
Qed.

Lemma well_keyed_set (reg : registry) (k : json) (i : instance) :
  truthy k = true -> hashable k = true ->
  well_keyed reg -> well_keyed (reg_set reg k i).
Proof.
  intros Hk Hh [Hall Hd]. destruct (reg_has reg k) eqn:Hhas.
  - pose proof (reg_set_present reg k i Hhas) as Hkeys. split.
    + apply Forall_forall. intros e He.
      assert (Hin : In (fst e) (map fst reg))
        by (rewrite <- Hkeys; now apply in_map).
      apply in_map_iff in Hin. destruct Hin as [e' [<- He']].
      now apply (proj1 (Forall_forall _ _) Hall).
    + apply (distinct_keys_of_keys reg); auto.
  - rewrite (reg_set_absent reg k i Hhas). split.
    + apply Forall_app. split; [exact Hall|]. constructor; [now split | constructor].
    + apply distinct_keys_app_one; auto.
      apply Forall_forall. intros e He.
      now apply (proj1 (Forall_forall _ _) Hall).
Qed.

Lemma reg_del_in (reg : registry) (k : json) (e : json * instance) :
  In e (reg_del reg k) -> In e reg.
Proof.
  induction reg as [|[k0 i0] t IH]; simpl; [auto|].
  destruct (py_eq k0 k); simpl; [intros He; right; now apply IH|].
  intros [<-|He]; [now left | right; now apply IH].
Qed.

Lemma reg_has_del (reg : registry) (k k' : json) :
  reg_has reg k' = false -> reg_has (reg_del reg k) k' = false.
Proof.
  rewrite !reg_has_false. intros H e He. apply H. now apply (reg_del_in reg k).
Qed.

Lemma well_keyed_del (reg : registry) (k : json) :
  well_keyed reg -> well_keyed (reg_del reg k).
Proof.
  intros [Hall Hd]. split.
  - apply Forall_forall. intros e He.
    apply (proj1 (Forall_forall _ _) Hall). now apply (reg_del_in reg k).
  - clear Hall. induction reg as [|[k0 i0] t IH]; simpl; [exact I|].
    destruct Hd as [Hk0 Hd]. destruct (py_eq k0 k); simpl; [now apply IH|].
    split; [now apply reg_has_del | now apply IH].
Qed.

(** [register_instance] in full: what it returns, by its payload. *)
Lemma register_instance_cases
    (now : Z) (data : json) (reg reg' : registry) (r : json) :
  register_instance now data reg = Ok (r, reg') ->
  (reg' = reg /\ py_get r "success" JNull = Ok (JBool false))
  \/ exists d k,
       data = JObj d
       /\ truthy k = true /\ hashable k = true
       /\ k = (if truthy (dict_get_or d "sha256" (JStr EmptyString))
               then dict_get_or d "sha256" (JStr EmptyString)
               else dict_get_or d "md5" (JStr EmptyString))
       /\ r = registered_reply k
       /\ reg' = reg_set reg k (record_of now d).
Proof.
  unfold register_instance. destruct data as [| | | | |d]; try discriminate.
  simpl.
  set (sha := dict_get_or d "sha256" (JStr EmptyString)).
  set (md := dict_get_or d "md5" (JStr EmptyString)).
  destruct (truthy (if truthy sha then sha else md)) eqn:Hk; simpl.
  - destruct (hashable (if truthy sha then sha else md)) eqn:Hh; simpl;
      [|discriminate].
    intros [= <- <-]. right. exists d, (if truthy sha then sha else md).
    repeat (split; [first [reflexivity | assumption]|]). reflexivity.
  - intros [= <- <-]. now left.
Qed.

Lemma unregister_instance_cases (data : json) (reg reg' : registry) (r : json) :
  unregister_instance data reg = Ok (r, reg') ->
  (reg' = reg /\ r = rejected_reply "Instance not found")
  \/ exists k,
       truthy k = true /\ hashable k = true /\ reg_has reg k = true
       /\ r = registered_reply k /\ reg' = reg_del reg k.
Proof.
  unfold unregister_instance, names_instance.
  destruct data as [| | | | |d]; try discriminate. simpl.
  set (b := dict_get_or d "binary_id" (JStr EmptyString)).
  set (sha := dict_get_or d "sha256" (JStr EmptyString)).
  set (md := dict_get_or d "md5" (JStr EmptyString)).
  assert (Hstep : forall k (rest : result (option json)),
             (k0 <- (by_k <- (if negb (truthy k) then Ok false
                               else if negb (hashable k) then Raise TypeError
                               else Ok (reg_has reg k)) ;;
                      if by_k then Ok (Some k) else rest) ;;
              match k0 with
              | Some k1 => Ok (registered_reply k1, reg_del reg k1)
              | None => Ok (rejected_reply "Instance not found", reg)
              end) = Ok (r, reg') ->
             (exists k1, truthy k1 = true /\ hashable k1 = true
                         /\ reg_has reg k1 = true
                         /\ r = registered_reply k1 /\ reg' = reg_del reg k1)
             \/ (k0 <- rest ;;
                 match k0 with
                 | Some k1 => Ok (registered_reply k1, reg_del reg k1)
                 | None => Ok (rejected_reply "Instance not found", reg)
                 end) = Ok (r, reg')).
  { intros k rest. destruct (truthy k) eqn:Ht; simpl; [|now right].
    destruct (hashable k) eqn:Hh; simpl; [|discriminate].
    destruct (reg_has reg k) eqn:Hr; simpl; [|now right].
    intros [= <- <-]. left. exists k. auto. }
  intros H.
  destruct (truthy b) eqn:Hb; simpl in H.
  - destruct (hashable b) eqn:Hhb; simpl in H; [|discriminate].
    destruct (reg_has reg b) eqn:Hrb; simpl in H.
    + injection H as <- <-. right. exists b. auto.
    + destruct (Hstep sha _ H) as [Hdone | H1]; [now right|].
      destruct (Hstep md (Ok None) H1) as [Hdone | H2]; [now right|].
      simpl in H2. injection H2 as <- <-. now left.
  - destruct (Hstep sha _ H) as [Hdone | H1]; [now right|].
    destruct (Hstep md (Ok None) H1) as [Hdone | H2]; [now right|].
    simpl in H2. injection H2 as <- <-. now left.
Qed.

Lemma register_instance_accepts (now : Z) (d : dict) (reg : registry) :
  truthy (payload_identity d) = true ->
  hashable (payload_identity d) = true ->
  register_instance now (JObj d) reg
  = Ok (registered_reply (payload_identity d),
        reg_set reg (payload_identity d) (record_of now d)).
Proof.
  unfold register_instance, payload_identity. simpl. intros -> ->. reflexivity.
Qed.

Lemma reg_get_set_atom (reg : registry) (k : json) (i : instance) :
  hashable k = true -> reg_get (reg_set reg k i) k = Some i.
Proof.
  intros Hk. induction reg as [|[k' i'] t IH]; simpl.
  - now rewrite py_eq_atom_refl.
  - destruct (py_eq k' k) eqn:Hk'; simpl; rewrite Hk'; auto.
Qed.

Lemma reg_has_set_atom (reg : registry) (k : json) (i : instance) :
  hashable k = true -> reg_has (reg_set reg k i) k = true.
Proof. intros Hk. unfold reg_has. now rewrite reg_get_set_atom. Qed.

(** Under distinct keys one entry at most is filed under a key. *)
Lemma distinct_keys_one (reg : registry) (k : json) :
  Forall (fun e => hashable (fst e) = true) reg ->
  hashable k = true ->
  distinct_keys reg ->
  reg_has reg k = true ->
  exists pre k' i post,
    reg = pre ++ (k', i) :: post
    /\ py_eq k' k = true
    /\ reg_has pre k = false /\ reg_has post k = false.
Proof.
  intros Hall Hk. induction reg as [|[k0 i0] t IH]; [discriminate|].
  inversion Hall as [|e l Hk0 Ht]; subst. simpl in Hk0.
  intros [Hno Hd]. rewrite reg_has_cons.
  destruct (py_eq k0 k) eqn:Heq; simpl.
  - intros _. exists [], k0, i0, t. split; [reflexivity|]. split; [exact Heq|].
    split; [reflexivity|]. apply reg_has_false. intros e He.
    destruct (py_eq (fst e) k) eqn:Hek; [|reflexivity].
    assert (Hhe : hashable (fst e) = true)
      by now apply (proj1 (Forall_forall _ _) Ht).
    pose proof (py_eq_atom_trans (fst e) k0 k Hhe Hk0 Hk Hek Heq) as Hsame.
    rewrite (proj1 (reg_has_false t k0) Hno e He) in Hsame. discriminate.
  - intros Hhas. destruct (IH Ht Hd Hhas) as [pre [k' [i [post [-> [Hk' [Hpre Hpost]]]]]]].
    exists ((k0, i0) :: pre), k', i, post. split; [reflexivity|].
    split; [exact Hk'|]. split; [|exact Hpost].
    rewrite reg_has_cons, Heq. exact Hpre.
Qed.

Lemma reg_del_absent (reg : registry) (k : json) :
  reg_has reg k = false -> reg_del reg k = reg.
Proof.
  induction reg as [|[k0 i0] t IH]; [reflexivity|].
  rewrite reg_has_cons. simpl. destruct (py_eq k0 k); simpl; [discriminate|].
  intros H. now rewrite IH.
Qed.

Lemma reg_del_app (r1 r2 : registry) (k : json) :
  reg_del (r1 ++ r2) k = reg_del r1 k ++ reg_del r2 k.
Proof.
  induction r1 as [|[k0 i0] t IH]; [reflexivity|]. simpl.
  destruct (py_eq k0 k); simpl; now rewrite IH.
Qed.

Lemma filter_key_absent (reg : registry) (k : json) :
  reg_has reg k = false -> filter (fun e => py_eq (fst e) k) reg = [].
Proof.
  induction reg as [|[k0 i0] t IH]; [reflexivity|].
  rewrite reg_has_cons. simpl. destruct (py_eq k0 k); simpl; [discriminate|].
  exact IH.
Qed.

Lemma well_keyed_hashable (reg : registry) :
  well_keyed reg -> Forall (fun e => hashable (fst e) = true) reg.
Proof.
  intros [Hall _]. apply Forall_forall. intros e He.
  now apply (proj1 (Forall_forall _ _) Hall).
Qed.

Lemma reg_get_in (reg : registry) (k : json) (i : instance) :
  reg_get reg k = Some i -> exists k', In (k', i) reg /\ py_eq k' k = true.
Proof.
  induction reg as [|[k0 i0] t IH]; simpl; [discriminate|].
  destruct (py_eq k0 k) eqn:Hk.
  - intros [= <-]. exists k0. auto.
  - intros H. destruct (IH H) as [k' [Hin Hk']]. exists k'. auto.
Qed.

Lemma find_by_module_in (reg : registry) (b : json) (i : instance) :
  find_by_module reg b = Some i ->
  exists k, In (k, i) reg /\ py_eq (module i) b = true.
Proof.
  induction reg as [|[k0 i0] t IH]; simpl; [discriminate|].
  destruct (py_eq (module i0) b) eqn:Hm.
  - intros [= <-]. exists k0. auto.
  - intros H. destruct (IH H) as [k [Hin Hk]]. exists k. auto.
Qed.

Lemma py_in_raises (x c : json) (e : exn) : py_in x c = Raise e -> e = TypeError.
Proof.
  destruct c; simpl; try (intros [= <-]; reflexivity); destruct x; simpl;
    first [discriminate | intros [= <-]; reflexivity].
Qed.

Lemma find_by_path_cases (reg : registry) (b : json) :
  match find_by_path reg b with
  | Ok (Some i) => exists k, In (k, i) reg /\ py_in b (path i) = Ok true
  | Ok None => forall e, In e reg -> py_in b (path (snd e)) = Ok false
  | Raise e => e = TypeError
  end.
Proof.
  induction reg as [|[k0 i0] t IH]; simpl; [intros e []|].
  destruct (py_in b (path i0)) as [[|]|e] eqn:Hin; simpl.
  - exists k0. auto.
  - destruct (find_by_path t b) as [[i|]|e].
    + destruct IH as [k [Hk Hp]]. exists k. auto.
    + intros e [<-|He]; [exact Hin | now apply IH].
    + exact IH.
  - now apply (py_in_raises b (path i0)).
Qed.

(** ** More of the registry *)

(** X1: the operations that change the registry keep it well keyed:
    after [register_instance], [unregister_instance] or a probe of a
    port, every key is still a truthy hashable value and no key occurs
    twice. *)
Theorem registry_stays_well_keyed
    (E : env) (now : Z) (data : json) (h : string) (p : Z)
    (reg reg' : registry) (r : json) (b : bool) :
  well_keyed reg ->
  register_instance now data reg = Ok (r, reg')
  \/ unregister_instance data reg = Ok (r, reg')
  \/ probe_port E h p reg = Ok (b, reg') ->
  well_keyed reg'.
Proof.
  intros Hwk [Hreg | [Hunreg | Hprobe]].
  - destruct (register_instance_cases now data reg reg' r Hreg)
      as [[-> _] | [d [k [_ [Ht [Hh [_ [_ ->]]]]]]]]; [exact Hwk|].
    now apply well_keyed_set.
  - destruct (unregister_instance_cases data reg reg' r Hunreg)
      as [[-> _] | [k [_ [_ [_ [_ ->]]]]]]; [exact Hwk|].
    now apply well_keyed_del.
  - unfold probe_port in Hprobe.
    repeat match type of Hprobe with
           | bind ?c _ = Ok _ =>
               let H := fresh "Hstep" in
               destruct c eqn:H; simpl in Hprobe; [|discriminate]
           | (if ?c then _ else _) = Ok _ =>
               destruct c; simpl in Hprobe;
               [try (injection Hprobe as <- <-; exact Hwk)|]
           end;
      try (injection Hprobe as <- <-; exact Hwk).
    match goal with
    | H : register_instance _ _ reg = Ok ?x |- _ =>
        destruct x as [r0 reg0];
        destruct (register_instance_cases _ _ _ _ _ H)
          as [[Hsame _] | [d [k [_ [Ht [Hh [_ [_ Hset]]]]]]]]
    end; simpl in Hprobe; injection Hprobe as <- <-.
    + now rewrite Hsame.
    + rewrite Hset. now apply well_keyed_set.
Qed.

Lemma registry_stays_well_keyed_witness :
  well_keyed
    [worker "c0ffee" "11" "cat" "/bin/cat" 13338;
     worker "beef" "22" "ls" "/bin/ls" 13339;
     (JStr "f00d",
      record_of 1700000001 [("sha256", JStr "f00d"); ("port", JNum 13340)])].
Proof.
  apply (registry_stays_well_keyed silent_env 1700000001
           (JObj [("sha256", JStr "f00d"); ("port", JNum 13340)])
           "127.0.0.1" 13338 two_workers _
           (registered_reply (JStr "f00d")) true).
  - split.
    + repeat constructor.
    + simpl. repeat split.
  - left. reflexivity.
Defined.

(** X2: registering twice under one identity leaves one record under
    it, the later one: the second registration keeps the keys of the
    registry and their order, and replaces the record. *)
Theorem register_instance_twice
    (now1 now2 : Z) (d1 d2 : dict) (reg : registry) (k : json) :
  well_keyed reg ->
  truthy k = true -> hashable k = true ->
  payload_identity d1 = k ->
  payload_identity d2 = k ->
  exists reg1 reg2,
    register_instance now1 (JObj d1) reg = Ok (registered_reply k, reg1)
    /\ register_instance now2 (JObj d2) reg1 = Ok (registered_reply k, reg2)
    /\ map fst reg2 = map fst reg1
    /\ reg_get reg2 k = Some (record_of now2 d2)
    /\ length (filter (fun e => py_eq (fst e) k) reg2) = 1.
Proof.
  intros Hwk Ht Hh Hd1 Hd2.
  exists (reg_set reg k (record_of now1 d1)).
  exists (reg_set (reg_set reg k (record_of now1 d1)) k (record_of now2 d2)).
  split; [rewrite <- Hd1 in *; now apply register_instance_accepts|].
  split; [rewrite <- Hd2 in *; now apply register_instance_accepts|].
  pose proof (well_keyed_set reg k (record_of now1 d1) Ht Hh Hwk) as Hwk1.
  pose proof (reg_has_set_atom reg k (record_of now1 d1) Hh) as Hhas1.
  split; [now apply reg_set_present|].
  split; [now apply reg_get_set_atom|].
  pose proof (well_keyed_set _ k (record_of now2 d2) Ht Hh Hwk1) as Hwk2.
  pose proof (reg_has_set_atom (reg_set reg k (record_of now1 d1)) k
                (record_of now2 d2) Hh) as Hhas2.
  destruct (distinct_keys_one _ k (well_keyed_hashable _ Hwk2) Hh (proj2 Hwk2) Hhas2)
    as [pre [k' [i [post [-> [Hk' [Hpre Hpost]]]]]]].
  rewrite filter_app. simpl. rewrite Hk'.
  rewrite (filter_key_absent pre k Hpre), (filter_key_absent post k Hpost).
  reflexivity.
Qed.

Lemma register_instance_twice_witness :
  exists reg1 reg2,
    register_instance 1700000001
      (JObj [("sha256", JStr "beef"); ("port", JNum 13340)]) two_workers
    = Ok (registered_reply (JStr "beef"), reg1)
    /\ register_instance 1700000002
         (JObj [("sha256", JStr "beef"); ("md5", JStr "33"); ("port", JNum 13341)])
         reg1
       = Ok (registered_reply (JStr "beef"), reg2)
    /\ length reg2 = 2.
Proof.
  destruct (register_instance_twice 1700000001 1700000002
              [("sha256", JStr "beef"); ("port", JNum 13340)]
              [("sha256", JStr "beef"); ("md5", JStr "33"); ("port", JNum 13341)]
              two_workers (JStr "beef"))
    as [reg1 [reg2 [H1 [H2 [Hkeys _]]]]]; try reflexivity.
  - split; [repeat constructor | simpl; repeat split].
  - exists reg1, reg2. split; [exact H1|]. split; [exact H2|].
    rewrite <- (length_map fst), Hkeys, length_map.
    vm_compute in H1. injection H1 as <-. reflexivity.
Defined.

(** X3: a record is found under its identity as soon as it is
    registered: [find_instance] on the identity returns the record made
    of the payload, with the defaults of [register_instance] for what
    the payload leaves out, whatever else is registered. *)
Theorem register_instance_then_find
    (now : Z) (d : dict) (reg reg' : registry) (r : json) :
  truthy (payload_identity d) = true ->
  register_instance now (JObj d) reg = Ok (r, reg') ->
  r = registered_reply (payload_identity d)
  /\ find_instance reg' (payload_identity d) = Ok (Some (record_of now d))
  /\ (dict_get d "host" = None -> host (record_of now d) = JStr "127.0.0.1")
  /\ (dict_get d "port" = None -> port (record_of now d) = JNum 13337)
  /\ (forall v, dict_get d "path" = Some v -> path (record_of now d) = v).
Proof.
  intros Ht Hreg.
  destruct (register_instance_cases now (JObj d) reg reg' r Hreg)
    as [[_ Hfail] | [d' [k [[= <-] [_ [Hh [Hk [-> ->]]]]]]]].
  - unfold register_instance, payload_identity in *. simpl in Hreg.
    rewrite Ht in Hreg. simpl in Hreg.
    destruct (hashable _); simpl in Hreg; [|discriminate].
    injection Hreg as <- _. discriminate.
  - fold (payload_identity d) in Hk. subst k.
    split; [reflexivity|]. split.
    + unfold find_instance. rewrite Hh. simpl.
      now rewrite reg_get_set_atom.
    + unfold record_of, dict_get_or. simpl.
      split; [now intros ->|]. split; [now intros ->|]. now intros v ->.
Qed.

Lemma register_instance_then_find_witness :
  find_instance
    (reg_set two_workers (JStr "f00d")
       (record_of 1700000001 [("sha256", JStr "f00d"); ("module", JStr "ls")]))
    (JStr "f00d")
  = Ok (Some (record_of 1700000001 [("sha256", JStr "f00d"); ("module", JStr "ls")])).
Proof.
  apply (register_instance_then_find 1700000001
           [("sha256", JStr "f00d"); ("module", JStr "ls")] two_workers _
           (registered_reply (JStr "f00d"))); reflexivity.
Defined.

(** X4: [find_instance] invents nothing and misses nothing, whatever
    the selector is: the record it returns is registered and matches
    the selector by identity, by module or by path; when it returns
    none, no registered record matches in any of the three ways; and
    when it raises, it is a TypeError. *)
Theorem find_instance_sound_complete (reg : registry) (binary : json) :
  match find_instance reg binary with
  | Ok (Some i) =>
      exists k,
        In (k, i) reg
        /\ (py_eq k binary = true
            \/ py_eq (module i) binary = true
            \/ py_in binary (path i) = Ok true)
  | Ok None =>
      forall k i,
        In (k, i) reg ->
        py_eq k binary = false
        /\ py_eq (module i) binary = false
        /\ py_in binary (path i) = Ok false
  | Raise e => e = TypeError
  end.
Proof.
  unfold find_instance. destruct (hashable binary); simpl; [|reflexivity].
  destruct (reg_get reg binary) as [i|] eqn:Hget.
  - destruct (reg_get_in reg binary i Hget) as [k [Hin Hk]]. exists k. auto.
  - destruct (find_by_module reg binary) as [i|] eqn:Hmod.
    + destruct (find_by_module_in reg binary i Hmod) as [k [Hin Hk]].
      exists k. auto.
    + pose proof (find_by_path_cases reg binary) as Hpath.
      destruct (find_by_path reg binary) as [[i|]|e].
      * destruct Hpath as [k [Hin Hp]]. exists k. auto.
      * intros k i Hin. split; [|split].
        -- apply (proj1 (reg_get_none reg binary) Hget (k, i) Hin).
        -- apply (proj1 (find_by_module_none reg binary) Hmod (k, i) Hin).
        -- apply (Hpath (k, i) Hin).
      * exact Hpath.
Qed.

(** X5: in a well keyed registry a successful [unregister_instance]
    removes exactly one record, the one filed under the key it
    returns, and keeps the others in their order. *)
Theorem unregister_instance_removes_one
    (data : json) (reg reg' : registry) (k : json) :
  well_keyed reg ->
  unregister_instance data reg = Ok (registered_reply k, reg') ->
  exists pre k' i post,
    reg = pre ++ (k', i) :: post
    /\ py_eq k' k = true
    /\ reg' = pre ++ post
    /\ reg_has reg' k = false.
Proof.
  intros Hwk Hrun.
  destruct (unregister_instance_cases data reg reg' _ Hrun)
    as [[_ Hno] | [k0 [_ [Hh [Hhas [[= <-] ->]]]]]]; [discriminate|].
  destruct (distinct_keys_one reg k (well_keyed_hashable reg Hwk) Hh (proj2 Hwk) Hhas)
    as [pre [k' [i [post [-> [Hk' [Hpre Hpost]]]]]]].
  exists pre, k', i, post. split; [reflexivity|]. split; [exact Hk'|].
  assert (Hdel : reg_del (pre ++ (k', i) :: post) k = pre ++ post).
  { rewrite reg_del_app. simpl. rewrite Hk'.
    now rewrite (reg_del_absent pre k Hpre), (reg_del_absent post k Hpost). }
  split; [exact Hdel|]. rewrite Hdel, reg_has_app, Hpre, Hpost. reflexivity.
Qed.

Lemma unregister_instance_removes_one_witness :
  exists pre k' i post,
    two_workers = pre ++ (k', i) :: post
    /\ py_eq k' (JStr "c0ffee") = true
    /\ [worker "beef" "22" "ls" "/bin/ls" 13339] = pre ++ post
    /\ reg_has [worker "beef" "22" "ls" "/bin/ls" 13339] (JStr "c0ffee") = false.
Proof.
  apply (unregister_instance_removes_one
           (JObj [("binary_id", JStr "c0ffee")]) two_workers).
  - split; [repeat constructor | simpl; repeat split].
  - reflexivity.
Defined.

(** ** More of the discovery scanner *)

(** What a probe does to the registry: nothing, or one record stored
    with the host and the port that were probed. *)
Lemma probe_port_cases (E : env) (h : string) (p : Z) (reg reg' : registry) (b : bool) :
  probe_port E h p reg = Ok (b, reg') ->
  if b then
    exists k i,
      truthy k = true /\ hashable k = true
      /\ probed_record E h p i
      /\ reg' = reg_set reg k i
  else reg' = reg.
Proof.
  intros Hprobe.
  pose proof (probe_port_answers E h p reg) as Hanswers.
  rewrite Hprobe in Hanswers. destruct Hanswers as [_ Hkeep].
  destruct b; [|exact Hkeep]. clear Hkeep.
  unfold probe_port in Hprobe.
  repeat match type of Hprobe with
         | bind ?c _ = Ok _ =>
             let H := fresh "Hstep" in
             destruct c eqn:H; simpl in Hprobe; [|discriminate]
         | (if ?c then _ else _) = Ok _ =>
             destruct c; simpl in Hprobe; [try discriminate|]
         end;
    try discriminate.
  match goal with
  | H : register_instance _ _ reg = Ok ?x |- _ =>
      destruct x as [r0 reg0];
      destruct (register_instance_cases _ _ _ _ _ H)
        as [[_ Hfail] | [d [k [Hd [Ht [Hh [_ [_ Hset]]]]]]]]
  end; simpl in Hprobe.
  - match goal with
    | Hs : py_get (fst _) "success" JNull = Ok _ |- _ =>
        simpl in Hs; rewrite Hfail in Hs; injection Hs as <-
    end.
    discriminate.
  - injection Hprobe as _ <-. injection Hd as <-.
    refine (ex_intro _ k (ex_intro _ _ (conj Ht (conj Hh (conj _ Hset))))).
    repeat split.
Qed.

Lemma reg_set_in (reg : registry) (k0 : json) (i0 : instance) (k : json) (i : instance) :
  In (k, i) (reg_set reg k0 i0) -> In (k, i) reg \/ i = i0.
Proof.
  induction reg as [|[k1 i1] t IH]; simpl.
  - intros [[= _ <-]|[]]. now right.
  - destruct (py_eq k1 k0); simpl.
    + intros [[= <- <-]|Hin]; [now right | left; now right].
    + intros [[= <- <-]|Hin]; [left; now left|].
      destruct (IH Hin) as [Hold | Hnew]; [left; now right | now right].
Qed.

(** A scan only adds: the keys that were there stay, in their order;
    every record is an old one or the record of a port that answered;
    and a well keyed registry stays so. *)
Lemma discover_from_grows (E : env) (h : string) (tries : nat) :
  forall (p : Z) (discovered : nat) (reg : registry),
    (exists added,
       map fst (snd (discover_from E h p tries discovered reg))
       = map fst reg ++ added)
    /\ (forall k i,
          In (k, i) (snd (discover_from E h p tries discovered reg)) ->
          In (k, i) reg
          \/ exists q,
               In q (ports_from p tries)
               /\ port_answers E h q = true
               /\ probed_record E h q i)
    /\ (well_keyed reg ->
        well_keyed (snd (discover_from E h p tries discovered reg))).
Proof.
  induction tries as [|tries IH]; intros p discovered reg; simpl.
  - split; [exists []; now rewrite app_nil_r|]. split; [now left | auto].
  - pose proof (probe_port_answers E h p reg) as Hanswers.
    pose proof (probe_port_cases E h p reg) as Hcases.
    destruct (probe_port E h p reg) as [[[|] reg1]|].
    + destruct Hanswers as [Hb _].
      destruct (Hcases reg1 true eq_refl) as [k0 [i0 [Ht [Hh [Hrec ->]]]]].
      destruct (IH (p + 1)%Z (S discovered) (reg_set reg k0 i0))
        as [[added Hkeys] [Hin Hwk]].
      split; [|split].
      * rewrite Hkeys, reg_set_keys, <- app_assoc. now eexists.
      * intros k i Hki. destruct (Hin k i Hki) as [Hold | [q [Hq [Ha Hr]]]].
        -- destruct (reg_set_in reg k0 i0 k i Hold) as [Hreg | ->];
             [now left|].
           right. exists p. split; [now left|]. split; [now rewrite <- Hb | exact Hrec].
        -- right. exists q. split; [now right | now split].
      * intros Hreg. apply Hwk. now apply well_keyed_set.
    + rewrite (Hcases reg1 false eq_refl).
      destruct (IH (p + 1)%Z discovered reg) as [Hkeys [Hin Hwk]].
      split; [exact Hkeys|]. split; [|exact Hwk].
      intros k i Hki. destruct (Hin k i Hki) as [Hold | [q [Hq Hr]]];
        [now left|]. right. exists q. split; [now right | exact Hr].
    + destruct (IH (p + 1)%Z discovered reg) as [Hkeys [Hin Hwk]].
      split; [exact Hkeys|]. split; [|exact Hwk].
      intros k i Hki. destruct (Hin k i Hki) as [Hold | [q [Hq Hr]]];
        [now left|]. right. exists q. split; [now right | exact Hr].
Qed.

(** X6: a scan never drops a worker: after [discover_ida_instances]
    the identities that were registered are still registered, in the
    order they had, followed by those the scan has added. *)
Theorem discover_ida_instances_keeps_registered
    (E : env) (h : string) (start_port max_tries : Z) (reg : registry) :
  exists n reg' added,
    discover_ida_instances E h start_port max_tries reg = Ok (n, reg')
    /\ map fst reg' = map fst reg ++ added
    /\ forall k, reg_has reg k = true -> reg_has reg' k = true.
Proof.
  unfold discover_ida_instances.
  destruct (discover_from_grows E h (Z.to_nat max_tries) start_port 0 reg)
    as [[added Hkeys] _].
  destruct (discover_from E h start_port (Z.to_nat max_tries) 0 reg)
    as [n reg']. simpl in Hkeys.
  exists n, reg', added. split; [reflexivity|]. split; [exact Hkeys|].
  intros k Hk.
  assert (Hsame : forall (r : registry) (ks : list json),
             map fst r = ks ->
             reg_has r k = existsb (fun k' => py_eq k' k) ks).
  { intros r ks <-. induction r as [|[k0 i0] t IHr]; [reflexivity|].
    rewrite reg_has_cons. simpl. now rewrite IHr. }
  rewrite (Hsame reg' _ Hkeys), existsb_app.
  rewrite <- (Hsame reg (map fst reg) eq_refl), Hk. reflexivity.
Qed.

Lemma discover_ida_instances_keeps_registered_witness :
  reg_has
    (snd (discover_from one_worker_env "127.0.0.1" 13338 10 0
            [worker "c0ffee" "11" "cat" "/bin/cat" 13338]))
    (JStr "c0ffee") = true.
Proof.
  destruct (discover_ida_instances_keeps_registered one_worker_env "127.0.0.1"
              13338 10 [worker "c0ffee" "11" "cat" "/bin/cat" 13338])
    as [n [reg' [added [Hrun [_ Hkept]]]]].
  unfold discover_ida_instances in Hrun.
  assert (Hpair : discover_from one_worker_env "127.0.0.1" 13338
                    (Z.to_nat 10) 0 [worker "c0ffee" "11" "cat" "/bin/cat" 13338]
                  = (n, reg')) by congruence.
  change (Z.to_nat 10) with 10 in Hpair.
  rewrite Hpair. apply Hkept. reflexivity.
Defined.

(** X7: the scan files every worker it finds under the address it has
    probed: after [discover_ida_instances] a record is one that was
    there before, or carries the scanned host and one of the scanned
    ports, a port whose probe answered. *)
Theorem discover_ida_instances_records_probed_address
    (E : env) (h : string) (start_port max_tries : Z) (reg : registry) :
  exists n reg',
    discover_ida_instances E h start_port max_tries reg = Ok (n, reg')
    /\ forall k i,
         In (k, i) reg' ->
         In (k, i) reg
         \/ exists q,
              In q (ports_from start_port (Z.to_nat max_tries))
              /\ port_answers E h q = true
              /\ host i = JStr h /\ port i = JNum q.
Proof.
  unfold discover_ida_instances.
  destruct (discover_from_grows E h (Z.to_nat max_tries) start_port 0 reg)
    as [_ [Hin _]].
  destruct (discover_from E h start_port (Z.to_nat max_tries) 0 reg)
    as [n reg']. simpl in Hin.
  exists n, reg'. split; [reflexivity|].
  intros k i Hki. destruct (Hin k i Hki) as [Hold | [q [Hq [Ha [Hh [Hp _]]]]]];
    [now left|].
  right. exists q. auto.
Qed.

Lemma discover_ida_instances_records_probed_address_witness :
  Forall (fun e => host (snd e) = JStr "127.0.0.1")
    (snd (discover_from one_worker_env "127.0.0.1" 13338 10 0 [])).
Proof.
  apply Forall_forall.
  destruct (discover_ida_instances_records_probed_address one_worker_env
              "127.0.0.1" 13338 10 [])
    as [n [reg' [Hrun Hrec]]].
  unfold discover_ida_instances in Hrun.
  assert (Hpair : discover_from one_worker_env "127.0.0.1" 13338
                    (Z.to_nat 10) 0 [] = (n, reg')) by congruence.
  change (Z.to_nat 10) with 10 in Hpair.
  rewrite Hpair. intros [k i] Hki.
  destruct (Hrec k i Hki) as [[] | [q [_ [_ [Hh _]]]]]. exact Hh.
Defined.

(** ** The list_instances tool *)

(** X8: [list_instances] always answers, and lists the registry as the
    scan leaves it, one entry a record in the order of the registry:
    first the identities that were registered before the call, then
    those the scan has added. *)
Theorem list_instances_lists_registry (E : env) (reg : registry) :
  exists l reg' added,
    list_instances E reg = Ok (l, reg')
    /\ length l = length reg'
    /\ map (fun info => py_getitem info "binary_id") l
       = map Ok (map fst reg ++ added)
    /\ forall n k i,
         nth_error reg' n = Some (k, i) ->
         nth_error l n = Some (instance_info k i).
Proof.
  unfold list_instances, discover_ida_instances.
  destruct (discover_from_grows E (IDA_HOST E) (Z.to_nat 10) 13338 0 reg)
    as [[added Hkeys] _].
  destruct (discover_from E (IDA_HOST E) 13338 (Z.to_nat 10) 0 reg)
    as [n reg']. cbn [bind fst snd] in Hkeys |- *.
  exists (map (fun e => instance_info (fst e) (snd e)) reg'), reg', added.
  split; [reflexivity|]. split; [apply length_map|]. split.
  - rewrite <- Hkeys, !map_map. apply map_ext. intros [k i]. reflexivity.
  - intros m k i Hnth. rewrite nth_error_map, Hnth. reflexivity.
Qed.

Lemma list_instances_lists_registry_witness :
  exists l,
    list_instances silent_env two_workers = Ok (l, two_workers)
    /\ nth_error l 1
       = Some (instance_info (JStr "beef")
                 (worker_record "beef" "22" "ls" "/bin/ls" 13339)).
Proof.
  destruct (list_instances_lists_registry silent_env two_workers)
    as [l [reg' [added [Hrun [_ [_ Hnth]]]]]].
  assert (Hreg : reg' = two_workers).
  { assert (Hcomputed : exists l0, list_instances silent_env two_workers
                                   = Ok (l0, two_workers))
      by (eexists; reflexivity).
    destruct Hcomputed as [l0 Hl0]. congruence. }
  subst reg'. exists l. split; [exact Hrun|].
  apply (Hnth 1 (JStr "beef") (worker_record "beef" "22" "ls" "/bin/ls" 13339)).
  reflexivity.
Defined.

(** ** The registration listener *)



(** X9: what [do_POST] answers.  The status is 404 exactly for a path
    other than /register and /unregister, and 400 exactly when the
    body of one of the two is not JSON; whatever is answered with a
    status other than 200 leaves the registry as it was.  A payload
    that [register_instance] refuses is answered with status 200 all
    the same, the refusal being in the body. *)
Theorem do_POST_replies
    (E : env) (now : Z) (request_path body : string) (reg reg' : registry)
    (reply : http_reply) :
  do_POST E now request_path body reg = Ok (reply, reg') ->
  (reply_status reply = 404%Z
   <-> request_path <> "/register" /\ request_path <> "/unregister")
  /\ (reply_status reply = 400%Z
      <-> (request_path = "/register" \/ request_path = "/unregister")
          /\ json_loads E body = Raise JSONDecodeError)
  /\ (reply_status reply <> 200%Z -> reg' = reg)
  /\ (request_path = "/register" ->
      forall d,
        json_loads E body = Ok (JObj d) ->
        truthy (payload_identity d) = false ->
        reply = {| reply_status := 200;
                   reply_body := rejected_reply "No sha256 or md5 provided" |}
        /\ reg' = reg).
Proof.
  unfold do_POST.
  destruct (String.eqb request_path "/register") eqn:Hreg.
  - apply String.eqb_eq in Hreg. subst request_path.
    destruct (json_loads E body) as [data|e] eqn:Hload.
    + destruct (register_instance now data reg) as [[r reg1]|] eqn:Hrun;
        simpl; [|discriminate].
      intros [= <- <-]. simpl.
      split; [split; [discriminate | intros [H _]; now contradiction H]|].
      split; [split; [discriminate | intros [_ H]; discriminate]|].
      split; [intros H; now contradiction H|].
      intros _ d [= ->] Hid.
      unfold register_instance, payload_identity in *. simpl in Hrun.
      rewrite Hid in Hrun. simpl in Hrun. injection Hrun as <- <-. now split.
    + destruct e; try discriminate. intros [= <- <-]. simpl.
      split; [split; [discriminate | intros [H _]; now contradiction H]|].
      split; [split; [intros _; split; [now left | reflexivity] | reflexivity]|].
      split; [reflexivity|]. intros _ d Hd. discriminate.
  - destruct (String.eqb request_path "/unregister") eqn:Hunreg.
    + apply String.eqb_eq in Hunreg. subst request_path.
      destruct (json_loads E body) as [data|e] eqn:Hload.
      * destruct (unregister_instance data reg) as [[r reg1]|] eqn:Hrun;
          simpl; [|discriminate].
        intros [= <- <-]. simpl.
        split; [split; [discriminate | intros [_ H]; now contradiction H]|].
        split; [split; [discriminate | intros [_ H]; discriminate]|].
        split; [intros H; now contradiction H|]. discriminate.
      * destruct e; try discriminate. intros [= <- <-]. simpl.
        split; [split; [discriminate | intros [_ H]; now contradiction H]|].
        split; [split; [intros _; split; [now right | reflexivity] | reflexivity]|].
        split; [reflexivity|]. discriminate.
    + apply String.eqb_neq in Hreg, Hunreg. intros [= <- <-]. simpl.
      split; [split; [now split | reflexivity]|].
      split; [split; [discriminate | intros [[H|H] _]; contradiction]|].
      split; [reflexivity|]. intros H. contradiction.
Qed.

Lemma do_POST_replies_witness :
  do_POST one_worker_env 1700000001 "/register" "<metadata>" two_workers
  = Ok ({| reply_status := 200; reply_body := registered_reply (JStr "beef") |},
        reg_set two_workers (JStr "beef") (record_of 1700000001
          [("path", JStr "/bin/ls"); ("module", JStr "ls");
           ("md5", JStr "22"); ("sha256", JStr "beef")]))
  /\ forall reply reg',
       do_POST one_worker_env 1700000001 "/registry" "<metadata>" two_workers
       = Ok (reply, reg') ->
       reg' = two_workers.
Proof.
  split; [reflexivity|]. intros reply reg' Hrun.
  destruct (do_POST_replies one_worker_env 1700000001 "/registry" "<metadata>"
              two_workers reg' reply Hrun) as [[_ Hstatus] [_ [Hkeep _]]].
  apply Hkeep. rewrite Hstatus; [discriminate|]. split; discriminate.
Defined.



Lemma reg_del_set_new (reg : registry) (k : json) (i : instance) :
  hashable k = true ->
  reg_has reg k = false ->
  reg_del (reg_set reg k i) k = reg.
Proof.
  intros Hh Hno. rewrite (reg_set_absent reg k i Hno), reg_del_app.
  rewrite (reg_del_absent reg k Hno). simpl.
  rewrite (py_eq_atom_refl k Hh). apply app_nil_r.
Qed.

(** What the worker posts on stopping names the identity it was filed
    under. *)
Lemma unregister_instance_by_hashes (sha md : string) (reg : registry) :
  sha <> EmptyString \/ md <> EmptyString ->
  reg_has reg (JStr (identity_of sha md)) = true ->
  unregister_instance (JObj [("sha256", JStr sha); ("md5", JStr md)]) reg
  = Ok (registered_reply (JStr (identity_of sha md)),
        reg_del reg (JStr (identity_of sha md))).
Proof.
  unfold unregister_instance, names_instance, identity_of, py_get, dict_get_or.
  simpl.
  intros Hsome. destruct (String.eqb sha EmptyString) eqn:Hs; simpl.
  - apply String.eqb_eq in Hs. subst sha.
    destruct Hsome as [H|H]; [contradiction|].
    apply String.eqb_neq in H. rewrite H. simpl. now intros ->.
  - now intros ->.
Qed.

(** X11: the life of a worker at the listener.  What the worker posts
    to /register files it under its identity with the address it gave;
    GET /instances then lists it last; and what the worker posts to
    /unregister when it stops removes that record and nothing else:
    the registry is again what it was before the worker came. *)
Theorem worker_registers_and_unregisters
    (E : env) (now : Z) (h : string) (p : Z) (metadata : dict)
    (sha md : string) (body1 body2 : string) (reg : registry) :
  string_field metadata "sha256" sha ->
  string_field metadata "md5" md ->
  sha <> EmptyString \/ md <> EmptyString ->
  reg_has reg (JStr (identity_of sha md)) = false ->
  json_loads E body1 = register_data h p (JObj metadata) ->
  json_loads E body2 = unregister_data (JObj metadata) ->
  exists i,
    do_POST E now "/register" body1 reg
    = Ok ({| reply_status := 200;
             reply_body := registered_reply (JStr (identity_of sha md)) |},
          reg ++ [(JStr (identity_of sha md), i)])
    /\ host i = JStr h /\ port i = JNum p
    /\ do_GET "/instances" (reg ++ [(JStr (identity_of sha md), i)])
       = {| reply_status := 200;
            reply_body :=
              JObj [("instances",
                     JArr (map (fun e => public_info (fst e) (snd e)) reg
                           ++ [public_info (JStr (identity_of sha md)) i]))] |}
    /\ do_POST E now "/unregister" body2 (reg ++ [(JStr (identity_of sha md), i)])
       = Ok ({| reply_status := 200;
                reply_body := registered_reply (JStr (identity_of sha md)) |},
             reg).
Proof.
  unfold string_field. intros Hsha Hmd Hsome Hnew Hbody1 Hbody2.
  set (k := JStr (identity_of sha md)) in *.
  set (data := [("host", JStr h); ("port", JNum p);
                ("path", dict_get_or metadata "path" (JStr EmptyString));
                ("module", dict_get_or metadata "module" (JStr EmptyString));
                ("md5", dict_get_or metadata "md5" (JStr EmptyString));
                ("sha256", dict_get_or metadata "sha256" (JStr EmptyString))]).
  assert (Hid : payload_identity data = k
                /\ truthy k = true).
  { unfold payload_identity, k, identity_of, data. simpl. rewrite Hsha, Hmd. simpl.
    destruct (String.eqb sha EmptyString) eqn:Hs; simpl; [|now rewrite Hs].
    apply String.eqb_eq in Hs. subst sha.
    destruct Hsome as [H|H]; [contradiction|].
    apply String.eqb_neq in H. now rewrite H. }
  destruct Hid as [Hid Htruthy].
  exists (record_of now data).
  assert (Hregister : register_instance now (JObj data) reg
                      = Ok (registered_reply k, reg ++ [(k, record_of now data)])).
  { rewrite register_instance_accepts; rewrite Hid; try reflexivity; [|exact Htruthy].
    now rewrite (reg_set_absent reg k _ Hnew). }
  split; [|split; [reflexivity|split; [reflexivity|split]]].
  - unfold do_POST. simpl. rewrite Hbody1. unfold register_data. simpl.
    fold data. now rewrite Hregister.
  - unfold do_GET. simpl. now rewrite map_app.
  - unfold do_POST. simpl. rewrite Hbody2. unfold unregister_data. simpl.
    rewrite Hsha, Hmd.
    assert (Hhas : reg_has (reg ++ [(k, record_of now data)]) k = true).
    { rewrite reg_has_app, reg_has_cons. unfold k. simpl.
      rewrite String.eqb_refl. now rewrite orb_true_r. }
    assert (Hdel : reg_del (reg ++ [(k, record_of now data)]) k = reg).
    { rewrite <- (reg_set_absent reg k _ Hnew). now apply reg_del_set_new. }
    rewrite (unregister_instance_by_hashes sha md _ Hsome Hhas).
    fold k. simpl. now rewrite Hdel.
Qed.

Lemma worker_registers_and_unregisters_witness :
  exists i,
    do_POST listener_env 1700000001 "/register" "<register>"
      [worker "c0ffee" "11" "cat" "/bin/cat" 13338]
    = Ok ({| reply_status := 200; reply_body := registered_reply (JStr "beef") |},
          [worker "c0ffee" "11" "cat" "/bin/cat" 13338; (JStr "beef", i)])
    /\ do_POST listener_env 1700000001 "/unregister" "<unregister>"
         [worker "c0ffee" "11" "cat" "/bin/cat" 13338; (JStr "beef", i)]
       = Ok ({| reply_status := 200; reply_body := registered_reply (JStr "beef") |},
             [worker "c0ffee" "11" "cat" "/bin/cat" 13338]).
Proof.
  destruct (worker_registers_and_unregisters listener_env 1700000001
              "127.0.0.1" 13339 ls_metadata "beef" "22"
              "<register>" "<unregister>"
              [worker "c0ffee" "11" "cat" "/bin/cat" 13338])
    as [i [Hreg [_ [_ [_ Hunreg]]]]]; try reflexivity.
  - left. discriminate.
  - exists i. split; [exact Hreg | exact Hunreg].
Defined.

(** [find_instance] raises nothing but a TypeError. *)
Lemma find_instance_raises_type_error (reg : registry) (binary : json) :
  match find_instance reg binary with
  | Raise e => e = TypeError
  | Ok _ => True
  end.
Proof.
  unfold find_instance. destruct (hashable binary); simpl; [|reflexivity].
  destruct (reg_get reg binary); [exact I|].
  destruct (find_by_module reg binary); [exact I|].
  pose proof (find_by_path_cases reg binary) as Hpath.
  destruct (find_by_path reg binary) as [[i|]|e]; auto.
Qed.

(** ** More of the routing gateway *)

Lemma dispatch_tools_list_frame
    (E : env) (request : request_value) (m : dict) (reg : registry) :
  length (forwarded (dispatch_tools_list E request m reg)) <= 1
  /\ looked_up (dispatch_tools_list E request m reg) = []
  /\ (reg <> [] -> instances_after (dispatch_tools_list E request m reg) = reg)
  /\ (forall e, result_of (dispatch_tools_list E request m reg) <> Raised e).
Proof.
  unfold dispatch_tools_list, get_instance_count.
  destruct (if Nat.eqb (length reg) 0 then _ else _) as [reg1|e0] eqn:Hscan.
  - assert (Hkeep : reg <> [] -> reg1 = reg).
    { destruct reg as [|x t]; [congruence|].
      cbn [length Nat.eqb] in Hscan. intros _. congruence. }
    clear Hscan.
    destruct reg1 as [|[k i] t]; cbn [forwarded looked_up instances_after result_of length].
    + split; [lia|]. split; [reflexivity|]. split; [exact Hkeep|].
      intros e. discriminate.
    + split; [lia|]. split; [reflexivity|]. split; [exact Hkeep|].
      intros e. destruct (r <- forward_to_instance E _ _ _ ;; _); discriminate.
  - destruct reg as [|x t]; cbn [length Nat.eqb] in Hscan.
    + unfold discover_ida_instances in Hscan. cbn [bind] in Hscan. discriminate.
    + discriminate.
Qed.

Lemma forward_routed_returns (E : env) (name : string) (m : dict) (h p : json) :
  exists reply, forward_routed E name m h p = Returned reply.
Proof.
  unfold forward_routed.
  destruct (r <- forward_to_instance E _ _ _ ;; _); [now eexists|].
  destruct (dict_get_or m "id" JNull); now eexists.
Qed.

Lemma dispatch_routed_frame
    (E : env) (request : request_value) (name : string) (m : dict) (reg : registry) :
  length (forwarded (dispatch_routed E request name m reg)) <= 1
  /\ length (looked_up (dispatch_routed E request name m reg)) <= 1
  /\ instances_after (dispatch_routed E request name m reg) = reg
  /\ (forall e,
        result_of (dispatch_routed E request name m reg) = Raised e ->
        truthy (fst (extract_binary name m)) = true
        /\ find_instance reg (fst (extract_binary name m)) = Raise e
        /\ forwarded (dispatch_routed E request name m reg) = []).
Proof.
  assert (Hret : forall h p e,
             forward_routed E name (snd (extract_binary name m)) h p <> Raised e).
  { intros h p e He.
    destruct (forward_routed_returns E name (snd (extract_binary name m)) h p)
      as [reply Hr]. congruence. }
  unfold dispatch_routed.
  destruct (truthy (fst (extract_binary name m))).
  - destruct (find_instance reg _) as [[i|]|e0];
      cbn [forwarded looked_up instances_after result_of length].
    + split; [lia|]. split; [lia|]. split; [reflexivity|].
      intros e He. now contradiction (Hret _ _ e He).
    + destruct (dict_get_or _ "id" JNull);
        cbn [forwarded looked_up instances_after result_of length];
        (split; [lia|]; split; [lia|]; split; [reflexivity|];
         intros e He; discriminate).
    + split; [lia|]. split; [lia|]. split; [reflexivity|].
      intros e [= <-]. auto.
  - destruct (Nat.eqb (get_instance_count reg) 1).
    + destruct (get_single_instance reg) as [i|];
        cbn [forwarded looked_up instances_after result_of length];
        (split; [lia|]; split; [lia|]; split; [reflexivity|];
         intros e He; now contradiction (Hret _ _ e He)).
    + destruct (Nat.ltb 1 (get_instance_count reg)).
      * destruct (dict_get_or _ "id" JNull);
          cbn [forwarded looked_up instances_after result_of length];
          (split; [lia|]; split; [lia|]; split; [reflexivity|];
           intros e He; discriminate).
      * cbn [forwarded looked_up instances_after result_of length].
        split; [lia|]. split; [lia|]. split; [reflexivity|].
        intros e He. now contradiction (Hret _ _ e He).
Qed.

(** The capability listing and the routed way end in a reply or an
    exception of the gateway's own: they never hand the request over. *)
Lemma dispatch_tools_list_not_delegated
    (E : env) (request : request_value) (m : dict) (reg : registry) :
  result_of (dispatch_tools_list E request m reg) <> Delegated.
Proof.
  unfold dispatch_tools_list.
  destruct (if Nat.eqb (get_instance_count reg) 0 then _ else _) as [reg1|e0].
  - destruct reg1 as [|[k i] t]; cbn [result_of]; [discriminate|].
    destruct (r <- forward_to_instance E _ _ _ ;; _); discriminate.
  - cbn [result_of]. discriminate.
Qed.

Lemma dispatch_routed_not_delegated
    (E : env) (request : request_value) (name : string) (m : dict) (reg : registry) :
  result_of (dispatch_routed E request name m reg) <> Delegated.
Proof.
  assert (Hret : forall h p,
             forward_routed E name (snd (extract_binary name m)) h p <> Delegated).
  { intros h p He.
    destruct (forward_routed_returns E name (snd (extract_binary name m)) h p)
      as [reply Hr]. congruence. }
  unfold dispatch_routed.
  destruct (truthy (fst (extract_binary name m))).
  - destruct (find_instance reg _) as [[i|]|e0]; cbn [result_of].
    + apply Hret.
    + destruct (dict_get_or _ "id" JNull); cbn [result_of]; discriminate.
    + discriminate.
  - destruct (Nat.eqb (get_instance_count reg) 1).
    + destruct (get_single_instance reg) as [i|]; cbn [result_of]; apply Hret.
    + destruct (Nat.ltb 1 (get_instance_count reg)).
      * destruct (dict_get_or _ "id" JNull); cbn [result_of]; discriminate.
      * cbn [result_of]. apply Hret.
Qed.

(** The four ways of a request: it ends at once (the handshake or a
    notification handed over, or an exception before any method is
    looked at), it is a call of list_instances handed over, it is the
    capability listing, or it is routed. *)
Lemma dispatch_proxy_cases (E : env) (request : request_value) (reg : registry) :
  (exists o,
     dispatch_proxy E request reg
     = {| result_of := o; instances_after := reg; request_after := request;
          forwarded := []; looked_up := [] |}
     /\ ((o = Delegated
          /\ exists m name,
               parse_request E request = Ok (JObj m)
               /\ dict_get m "method" = Some (JStr name)
               /\ (name = "initialize"
                   \/ String.prefix "notifications/" name = true))
         \/ (exists e, o = Raised e /\ parse_request E request = Raise e)
         \/ (exists v,
               parse_request E request = Ok v
               /\ (forall m, v <> JObj m) /\ o = Raised TypeError)
         \/ (exists m,
               parse_request E request = Ok (JObj m)
               /\ dict_get m "method" = None /\ o = Raised KeyError)
         \/ (exists m method,
               parse_request E request = Ok (JObj m)
               /\ dict_get m "method" = Some method
               /\ (forall s, method <> JStr s) /\ o = Raised AttributeError)))
  \/ (exists m,
        parse_request E request = Ok (JObj m)
        /\ dict_get m "method" = Some (JStr "tools/call")
        /\ is_list_instances_call m = true
        /\ dispatch_proxy E request reg = delegate_list_instances E request reg)
  \/ (exists m,
        parse_request E request = Ok (JObj m)
        /\ dict_get m "method" = Some (JStr "tools/list")
        /\ dispatch_proxy E request reg = dispatch_tools_list E request m reg)
  \/ (exists m name,
        routed E request m name
        /\ dispatch_proxy E request reg = dispatch_routed E request name m reg).
Proof.
  unfold dispatch_proxy.
  destruct (parse_request E request) as [v|e] eqn:Hparse.
  - destruct v as [| | | | |m];
      try (left; eexists; split; [reflexivity|];
           right; right; left; eexists; split; [reflexivity|];
           split; [discriminate | reflexivity]).
    simpl. destruct (dict_get m "method") as [method|] eqn:Hmethod.
    + destruct method as [| | | name | |];
        try (left; eexists; split; [reflexivity|];
             right; right; right; right; exists m; eexists;
             split; [reflexivity|]; split; [exact Hmethod|];
             split; [discriminate | reflexivity]).
      simpl.
      destruct (String.eqb name "initialize") eqn:Hinit.
      { apply String.eqb_eq in Hinit. left. eexists. split; [reflexivity|].
        left. split; [reflexivity|]. exists m, name. auto. }
      destruct (String.prefix "notifications/" name) eqn:Hnote.
      { left. eexists. split; [reflexivity|].
        left. split; [reflexivity|]. exists m, name. auto. }
      destruct (String.eqb name "tools/call" && is_list_instances_call m) eqn:Hcall.
      { destruct (andb_prop _ _ Hcall) as [Hname Hlocal].
        apply String.eqb_eq in Hname. subst name.
        right. left. exists m. auto. }
      destruct (String.eqb name "tools/list") eqn:Hlist.
      * apply String.eqb_eq in Hlist. subst name.
        right. right. left. exists m. auto.
      * right. right. right. exists m, name. split; [|reflexivity].
        apply String.eqb_neq in Hinit, Hlist.
        repeat (split; [assumption|]). split; [|assumption].
        intros ->. simpl in Hcall. exact Hcall.
    + left. eexists. split; [reflexivity|].
      right. right. right. left. exists m. auto.
  - left. eexists. split; [reflexivity|]. right. left. exists e. auto.
Qed.

Lemma dispatch_proxy_list_instances_call
    (E : env) (request : request_value) (m : dict) (reg : registry) :
  parse_request E request = Ok (JObj m) ->
  dict_get m "method" = Some (JStr "tools/call") ->
  is_list_instances_call m = true ->
  dispatch_proxy E request reg = delegate_list_instances E request reg.
Proof.
  intros Hparse Hmethod Hcall. unfold dispatch_proxy.
  rewrite Hparse. simpl. rewrite Hmethod. simpl. rewrite Hcall. reflexivity.
Qed.

(** X12: the gateway hands a request over to the dispatch of the
    framework in three cases and no other: the handshake, a method
    that starts with notifications/, and a call of the list_instances
    tool.  Whatever the registry holds and whatever selector the
    request carries, such a request is not forwarded, no worker is
    looked up for it, and it is handed over as it came. *)
Theorem dispatch_proxy_keeps_local
    (E : env) (request : request_value) (reg : registry) :
  (result_of (dispatch_proxy E request reg) = Delegated
   <-> exists m name,
         parse_request E request = Ok (JObj m)
         /\ dict_get m "method" = Some (JStr name)
         /\ (name = "initialize"
             \/ String.prefix "notifications/" name = true
             \/ (name = "tools/call" /\ is_list_instances_call m = true)))
  /\ (result_of (dispatch_proxy E request reg) = Delegated ->
      forwarded (dispatch_proxy E request reg) = []
      /\ looked_up (dispatch_proxy E request reg) = []
      /\ request_after (dispatch_proxy E request reg) = request).
Proof.
  assert (Hback :
            (exists m name,
               parse_request E request = Ok (JObj m)
               /\ dict_get m "method" = Some (JStr name)
               /\ (name = "initialize"
                   \/ String.prefix "notifications/" name = true
                   \/ (name = "tools/call" /\ is_list_instances_call m = true))) ->
            result_of (dispatch_proxy E request reg) = Delegated).
  { intros [m [name [Hparse [Hmethod Hlocal]]]]. unfold dispatch_proxy.
    rewrite Hparse. simpl. rewrite Hmethod. simpl.
    destruct (String.eqb name "initialize") eqn:Hinit; [reflexivity|].
    destruct Hlocal as [-> | [Hnote | [-> Hcall]]].
    - discriminate.
    - rewrite Hnote. reflexivity.
    - simpl. rewrite Hcall. reflexivity. }
  split; [split; [|exact Hback]|].
  - destruct (dispatch_proxy_cases E request reg)
      as [[o [-> Ho]] | [[m [Hparse [Hmethod [Hcall _]]]]
                        | [[m [_ [_ ->]]] | [m [name [_ ->]]]]]].
    + cbn [result_of]. intros ->.
      destruct Ho as [[_ [m [name [Hparse [Hmethod Hlocal]]]]]
                     | [[e [He _]] | [[v [_ [_ He]]]
                     | [[m [_ [_ He]]] | [m [method [_ [_ [_ He]]]]]]]]];
        try discriminate.
      exists m, name. split; [exact Hparse|]. split; [exact Hmethod|].
      destruct Hlocal; auto.
    + intros _. exists m, "tools/call"%string.
      split; [exact Hparse|]. split; [exact Hmethod|]. right. right. now split.
    + intros Hd. now contradiction (dispatch_tools_list_not_delegated E request m reg).
    + intros Hd.
      now contradiction (dispatch_routed_not_delegated E request name m reg).
  - destruct (dispatch_proxy_cases E request reg)
      as [[o [-> _]] | [[m [_ [_ [_ ->]]]]
                       | [[m [_ [_ ->]]] | [m [name [_ ->]]]]]].
    + intros _. repeat split.
    + intros _. repeat split.
    + intros Hd. now contradiction (dispatch_tools_list_not_delegated E request m reg).
    + intros Hd.
      now contradiction (dispatch_routed_not_delegated E request name m reg).
Qed.

Lemma dispatch_proxy_keeps_local_witness :
  forwarded
    (dispatch_proxy silent_env
       (ReqDict [("jsonrpc", JStr "2.0"); ("method", JStr "tools/call");
                 ("params",
                  JObj [("name", JStr "list_instances");
                        ("arguments", JObj [("binary", JStr "ls")])]);
                 ("id", JNum 4)])
       two_workers) = [].
Proof.
  destruct (dispatch_proxy_keeps_local silent_env
              (ReqDict [("jsonrpc", JStr "2.0"); ("method", JStr "tools/call");
                        ("params",
                         JObj [("name", JStr "list_instances");
                               ("arguments", JObj [("binary", JStr "ls")])]);
                        ("id", JNum 4)])
              two_workers) as [[_ Hlocal] Hkept].
  apply Hkept, Hlocal.
  exists [("jsonrpc", JStr "2.0"); ("method", JStr "tools/call");
          ("params",
           JObj [("name", JStr "list_instances");
                 ("arguments", JObj [("binary", JStr "ls")])]);
          ("id", JNum 4)], "tools/call"%string.
  split; [reflexivity|]. split; [reflexivity|].
  right. right. split; reflexivity.
Defined.

(** X13: one request, one forward at most: whatever the request and
    the registry, [dispatch_proxy] calls [forward_to_instance] once or
    not at all, and [find_instance] once or not at all. *)
Theorem dispatch_proxy_forwards_once
    (E : env) (request : request_value) (reg : registry) :
  length (forwarded (dispatch_proxy E request reg)) <= 1
  /\ length (looked_up (dispatch_proxy E request reg)) <= 1.
Proof.
  destruct (dispatch_proxy_cases E request reg)
    as [[o [-> _]] | [[m [_ [_ [_ ->]]]]
                     | [[m [_ [_ ->]]] | [m [name [_ ->]]]]]].
  - simpl. lia.
  - unfold delegate_list_instances. cbn [forwarded looked_up length]. lia.
  - destruct (dispatch_tools_list_frame E request m reg) as [Hf [-> _]].
    simpl. lia.
  - destruct (dispatch_routed_frame E request name m reg) as [Hf [Hl _]]. lia.
Qed.

(** What the two scans of the gateway leave: the registry the tool
    leaves, and the registry the scan of an empty registry leaves. *)
Lemma delegate_list_instances_scans
    (E : env) (request : request_value) (reg : registry) :
  exists l,
    list_instances E reg
    = Ok (l, instances_after (delegate_list_instances E request reg)).
Proof.
  unfold delegate_list_instances, list_instances, discover_ida_instances.
  cbn [bind instances_after snd]. eexists. reflexivity.
Qed.

Lemma dispatch_tools_list_scans (E : env) (request : request_value) (m : dict) :
  exists n,
    discover_ida_instances E (IDA_HOST E) 13338 10 []
    = Ok (n, instances_after (dispatch_tools_list E request m [])).
Proof.
  unfold dispatch_tools_list, get_instance_count, discover_ida_instances.
  cbn [length Nat.eqb bind].
  destruct (discover_from E (IDA_HOST E) 13338 (Z.to_nat 10) 0 []) as [n reg1].
  cbn [snd]. exists n.
  destruct reg1 as [|[k i] t]; reflexivity.
Qed.

(** X14: the gateway changes the registry by a scan and by nothing
    else, in two cases: a call of the list_instances tool, which the
    framework answers by running the tool, and a capability listing
    that finds the registry empty.  A scan only adds, so whatever the
    request, every identity registered before it is registered after
    it, in the same order; and for every other request the registry
    after [dispatch_proxy] is the registry before. *)
Theorem dispatch_proxy_keeps_registry
    (E : env) (request : request_value) (reg : registry) :
  (exists added,
     map fst (instances_after (dispatch_proxy E request reg))
     = map fst reg ++ added)
  /\ (forall m,
        parse_request E request = Ok (JObj m) ->
        dict_get m "method" = Some (JStr "tools/call") ->
        is_list_instances_call m = true ->
        exists l,
          list_instances E reg
          = Ok (l, instances_after (dispatch_proxy E request reg)))
  /\ (forall m,
        parse_request E request = Ok (JObj m) ->
        dict_get m "method" = Some (JStr "tools/list") ->
        reg = [] ->
        exists n,
          discover_ida_instances E (IDA_HOST E) 13338 10 reg
          = Ok (n, instances_after (dispatch_proxy E request reg)))
  /\ ((forall m,
         parse_request E request = Ok (JObj m) ->
         ~ (dict_get m "method" = Some (JStr "tools/call")
            /\ is_list_instances_call m = true)
         /\ ~ (dict_get m "method" = Some (JStr "tools/list") /\ reg = [])) ->
      instances_after (dispatch_proxy E request reg) = reg).
Proof.
  split; [|split; [|split]].
  - destruct (dispatch_proxy_cases E request reg)
      as [[o [-> _]] | [[m [_ [_ [_ ->]]]]
                       | [[m [_ [_ ->]]] | [m [name [_ ->]]]]]].
    + exists []. cbn [instances_after]. now rewrite app_nil_r.
    + unfold delegate_list_instances, list_instances, discover_ida_instances.
      cbn [bind instances_after snd].
      apply (discover_from_grows E (IDA_HOST E) (Z.to_nat 10) 13338 0 reg).
    + destruct reg as [|x t].
      * destruct (dispatch_tools_list_scans E request m) as [n Hn].
        unfold discover_ida_instances in Hn.
        assert (Hpair : discover_from E (IDA_HOST E) 13338 (Z.to_nat 10) 0 []
                        = (n, instances_after (dispatch_tools_list E request m [])))
          by congruence.
        destruct (discover_from_grows E (IDA_HOST E) (Z.to_nat 10) 13338 0 [])
          as [[added Hkeys] _].
        rewrite Hpair in Hkeys. exists added. exact Hkeys.
      * destruct (dispatch_tools_list_frame E request m (x :: t))
          as [_ [_ [Hkeep _]]].
        rewrite Hkeep by discriminate. exists []. now rewrite app_nil_r.
    + destruct (dispatch_routed_frame E request name m reg) as [_ [_ [-> _]]].
      exists []. now rewrite app_nil_r.
  - intros m Hparse Hmethod Hcall.
    rewrite (dispatch_proxy_list_instances_call E request m reg Hparse Hmethod Hcall).
    apply delegate_list_instances_scans.
  - intros m Hparse Hmethod ->.
    rewrite (dispatch_proxy_tools_list E request m [] Hparse Hmethod).
    apply dispatch_tools_list_scans.
  - intros Hother.
    destruct (dispatch_proxy_cases E request reg)
      as [[o [-> _]] | [[m [Hparse [Hmethod [Hcall _]]]]
                       | [[m [Hparse [Hmethod ->]]] | [m [name [_ ->]]]]]].
    + reflexivity.
    + destruct (Hother m Hparse) as [Hno _]. now contradiction Hno.
    + destruct reg as [|x t].
      * destruct (Hother m Hparse) as [_ Hno]. now contradiction Hno.
      * apply dispatch_tools_list_frame. discriminate.
    + apply dispatch_routed_frame.
Qed.

Lemma dispatch_proxy_keeps_registry_witness :
  map fst
    (instances_after
       (dispatch_proxy one_worker_env
          (ReqDict [("jsonrpc", JStr "2.0"); ("method", JStr "tools/call");
                    ("params", JObj [("name", JStr "list_instances")]);
                    ("id", JNum 4)])
          [worker "c0ffee" "11" "cat" "/bin/cat" 13338]))
  = [JStr "c0ffee"; JStr "beef"].
Proof.
  destruct (dispatch_proxy_keeps_registry one_worker_env
              (ReqDict [("jsonrpc", JStr "2.0"); ("method", JStr "tools/call");
                        ("params", JObj [("name", JStr "list_instances")]);
                        ("id", JNum 4)])
              [worker "c0ffee" "11" "cat" "/bin/cat" 13338])
    as [_ [Htool _]].
  destruct (Htool _ eq_refl eq_refl eq_refl) as [l Hl].
  assert (Hkeys :
            forall r,
              list_instances one_worker_env
                [worker "c0ffee" "11" "cat" "/bin/cat" 13338] = Ok r ->
              map fst (snd r) = [JStr "c0ffee"; JStr "beef"]).
  { intros r Hr. vm_compute in Hr. injection Hr as <-. reflexivity. }
  exact (Hkeys _ Hl).
Defined.

(** X15: when the gateway raises instead of returning.  It is the
    error of parsing the request text; a TypeError for a request that
    is no object; a KeyError for a request without a method; an
    AttributeError for a method that is no string; or, for a routed
    request with a selector, the TypeError of [find_instance].  In each
    case nothing has been forwarded. *)
Theorem dispatch_proxy_raises
    (E : env) (request : request_value) (reg : registry) (e : exn) :
  result_of (dispatch_proxy E request reg) = Raised e ->
  forwarded (dispatch_proxy E request reg) = []
  /\ (parse_request E request = Raise e
      \/ (exists v,
            parse_request E request = Ok v
            /\ (forall m, v <> JObj m) /\ e = TypeError)
      \/ (exists m,
            parse_request E request = Ok (JObj m)
            /\ dict_get m "method" = None /\ e = KeyError)
      \/ (exists m method,
            parse_request E request = Ok (JObj m)
            /\ dict_get m "method" = Some method
            /\ (forall s, method <> JStr s) /\ e = AttributeError)
      \/ (exists m name,
            routed E request m name
            /\ truthy (fst (extract_binary name m)) = true
            /\ find_instance reg (fst (extract_binary name m)) = Raise e
            /\ e = TypeError)).
Proof.
  destruct (dispatch_proxy_cases E request reg)
    as [[o [-> Ho]] | [[m [_ [_ [_ ->]]]]
                      | [[m [_ [_ ->]]] | [m [name [Hrouted ->]]]]]];
    [| unfold delegate_list_instances; cbn [result_of]; discriminate | |].
  - simpl. intros ->. split; [reflexivity|].
    destruct Ho as [[Ho _] | [[e0 [[= <-] Hp]] | [[v [Hp [Hv [= <-]]]]
                    | [[m [Hp [Hm [= <-]]]] | [m [method [Hp [Hm [Hs [= <-]]]]]]]]]].
    + discriminate.
    + now left.
    + right. left. exists v. auto.
    + right. right. left. exists m. auto.
    + right. right. right. left. exists m, method. auto.
  - intros He.
    destruct (dispatch_tools_list_frame E request m reg) as [_ [_ [_ Hno]]].
    now contradiction (Hno e).
  - intros He.
    destruct (dispatch_routed_frame E request name m reg) as [_ [_ [_ Hraise]]].
    destruct (Hraise e He) as [Ht [Hfind Hfwd]]. split; [exact Hfwd|].
    right. right. right. right. exists m, name.
    repeat (split; [assumption|]).
    pose proof (find_instance_raises_type_error reg (fst (extract_binary name m)))
      as Htype.
    rewrite Hfind in Htype. exact Htype.
Qed.

Lemma dispatch_proxy_raises_witness :
  forwarded
    (dispatch_proxy silent_env
       (ReqDict [("jsonrpc", JStr "2.0"); ("id", JNum 9)]) two_workers) = [].
Proof.
  apply (dispatch_proxy_raises silent_env
           (ReqDict [("jsonrpc", JStr "2.0"); ("id", JNum 9)]) two_workers KeyError).
  reflexivity.
Defined.

(** X16: a selector that is a list or an object is not answered with
    an error reply: the gateway raises a TypeError from
    [find_instance], outside its handler.  Nothing is forwarded, and
    the selector has by then been taken out of the request. *)
Theorem dispatch_proxy_unhashable_selector
    (E : env) (request : request_value) (m : dict) (name : string) (reg : registry) :
  routed E request m name ->
  truthy (fst (extract_binary name m)) = true ->
  hashable (fst (extract_binary name m)) = false ->
  result_of (dispatch_proxy E request reg) = Raised TypeError
  /\ forwarded (dispatch_proxy E request reg) = []
  /\ looked_up (dispatch_proxy E request reg) = [fst (extract_binary name m)]
  /\ request_after (dispatch_proxy E request reg)
     = caller_view request (snd (extract_binary name m)).
Proof.
  intros Hrouted Ht Hh.
  rewrite (dispatch_proxy_routed E request m name reg Hrouted).
  unfold dispatch_routed, find_instance. rewrite Ht, Hh. simpl.
  repeat split.
Qed.

Lemma dispatch_proxy_unhashable_selector_witness :
  result_of
    (dispatch_proxy silent_env
       (ReqDict (decompile_call
                   [("addr", JStr "0x401000"); ("binary", JArr [JStr "ls"])]
                   [("id", JNum 7)]))
       two_workers)
  = Raised TypeError.
Proof.
  assert (Hrouted :
            routed silent_env
              (ReqDict (decompile_call
                          [("addr", JStr "0x401000"); ("binary", JArr [JStr "ls"])]
                          [("id", JNum 7)]))
              (decompile_call
                 [("addr", JStr "0x401000"); ("binary", JArr [JStr "ls"])]
                 [("id", JNum 7)])
              "tools/call").
  { repeat (split; [first [reflexivity | discriminate]|]). discriminate. }
  apply (dispatch_proxy_unhashable_selector silent_env _ _ _ two_workers Hrouted);
    reflexivity.
Defined.

(** On the routed way the reply of the worker is returned as it is. *)
Lemma forward_routed_reply
    (E : env) (name : string) (m : dict) (h p reply : json) :
  name <> "tools/list" ->
  forward_to_instance E (JObj m) h p = Ok reply ->
  forward_routed E name m h p = Returned reply.
Proof.
  intros Hname Hok. unfold forward_routed. rewrite Hok. simpl.
  apply String.eqb_neq in Hname. now rewrite Hname.
Qed.

Lemma forward_routed_failure
    (E : env) (name : string) (m : dict) (h p : json) (e : exn) :
  name <> "tools/list" ->
  forward_to_instance E (JObj m) h p = Raise e ->
  forward_routed E name m h p
  = Returned
      (match dict_get_or m "id" JNull with
       | JNull => JNull
       | request_id =>
           error_reply (connect_failed_message E e) (Some (str_of_exn E e)) request_id
       end).
Proof.
  intros Hname Hfail. unfold forward_routed. rewrite Hfail. simpl.
  now destruct (dict_get_or m "id" JNull).
Qed.

(** X17: without a selector the gateway routes by the number of
    workers: with exactly one registered the request goes to that
    worker, with none it goes to the default address IDA_HOST:IDA_PORT;
    either way the reply of the worker is returned as it is, and the
    registry is left as it was. *)
Theorem dispatch_proxy_routes_unselected
    (E : env) (request : request_value) (m : dict) (name : string) (reg : registry) :
  routed E request m name ->
  truthy (fst (extract_binary name m)) = false ->
  instances_after (dispatch_proxy E request reg) = reg
  /\ (forall k i,
        reg = [(k, i)] ->
        forwarded (dispatch_proxy E request reg)
        = [{| fwd_data := JObj (snd (extract_binary name m));
              fwd_host := host i; fwd_port := port i |}]
        /\ forall reply,
             forward_to_instance E (JObj (snd (extract_binary name m)))
               (host i) (port i) = Ok reply ->
             result_of (dispatch_proxy E request reg) = Returned reply)
  /\ (reg = [] ->
      forwarded (dispatch_proxy E request reg)
      = [{| fwd_data := JObj (snd (extract_binary name m));
            fwd_host := JStr (IDA_HOST E); fwd_port := JNum (IDA_PORT E) |}]
      /\ forall reply,
           forward_to_instance E (JObj (snd (extract_binary name m)))
             (JStr (IDA_HOST E)) (JNum (IDA_PORT E)) = Ok reply ->
           result_of (dispatch_proxy E request reg) = Returned reply).
Proof.
  intros Hrouted Hnone.
  rewrite (dispatch_proxy_routed E request m name reg Hrouted).
  destruct (dispatch_routed_unselected E request name m reg Hnone)
    as [_ [Hreg [Hone [_ Hzero]]]].
  assert (Hname : name <> "tools/list") by apply Hrouted.
  split; [exact Hreg|]. split.
  - intros k i Hki. destruct (Hone k i Hki) as [Hfwd Hres].
    split; [exact Hfwd|]. intros reply Hok. rewrite Hres.
    now apply forward_routed_reply.
  - intros Hempty. destruct (Hzero Hempty) as [Hfwd Hres].
    split; [exact Hfwd|]. intros reply Hok. rewrite Hres.
    now apply forward_routed_reply.
Qed.

Lemma dispatch_proxy_routes_unselected_witness :
  forwarded
    (dispatch_proxy silent_env
       (ReqDict (decompile_call [("addr", JStr "0x401000")] [("id", JNum 7)]))
       [])
  = [{| fwd_data := JObj (decompile_call [("addr", JStr "0x401000")] [("id", JNum 7)]);
        fwd_host := JStr "127.0.0.1"; fwd_port := JNum 13337 |}].
Proof.
  assert (Hrouted :
            routed silent_env
              (ReqDict (decompile_call [("addr", JStr "0x401000")] [("id", JNum 7)]))
              (decompile_call [("addr", JStr "0x401000")] [("id", JNum 7)])
              "tools/call").
  { repeat (split; [first [reflexivity | discriminate]|]). discriminate. }
  destruct (dispatch_proxy_routes_unselected silent_env _ _ _ [] Hrouted eq_refl)
    as [_ [_ Hzero]].
  destruct (Hzero eq_refl) as [Hfwd _]. exact Hfwd.
Defined.

(** X18: with a selector that [find_instance] resolves, the request,
    selector taken out, goes to the worker that was found and to no
    other; the reply of the worker is returned as it is. *)
Theorem dispatch_proxy_routes_selected
    (E : env) (request : request_value) (m : dict) (name : string) (reg : registry)
    (i : instance) :
  routed E request m name ->
  truthy (fst (extract_binary name m)) = true ->
  find_instance reg (fst (extract_binary name m)) = Ok (Some i) ->
  forwarded (dispatch_proxy E request reg)
  = [{| fwd_data := JObj (snd (extract_binary name m));
        fwd_host := host i; fwd_port := port i |}]
  /\ looked_up (dispatch_proxy E request reg) = [fst (extract_binary name m)]
  /\ instances_after (dispatch_proxy E request reg) = reg
  /\ forall reply,
       forward_to_instance E (JObj (snd (extract_binary name m)))
         (host i) (port i) = Ok reply ->
       result_of (dispatch_proxy E request reg) = Returned reply.
Proof.
  intros Hrouted Ht Hfind.
  rewrite (dispatch_proxy_routed E request m name reg Hrouted).
  assert (Hname : name <> "tools/list") by apply Hrouted.
  unfold dispatch_routed. rewrite Ht, Hfind. simpl.
  repeat (split; [reflexivity|]). intros reply Hok.
  now apply forward_routed_reply.
Qed.

Lemma dispatch_proxy_routes_selected_witness :
  forwarded
    (dispatch_proxy silent_env
       (ReqDict (decompile_call
                   [("addr", JStr "0x401000"); ("binary", JStr "ls")]
                   [("id", JNum 7)]))
       two_workers)
  = [{| fwd_data := JObj (decompile_call [("addr", JStr "0x401000")] [("id", JNum 7)]);
        fwd_host := JStr "127.0.0.1"; fwd_port := JNum 13339 |}].
Proof.
  assert (Hrouted :
            routed silent_env
              (ReqDict (decompile_call
                          [("addr", JStr "0x401000"); ("binary", JStr "ls")]
                          [("id", JNum 7)]))
              (decompile_call
                 [("addr", JStr "0x401000"); ("binary", JStr "ls")]
                 [("id", JNum 7)])
              "tools/call").
  { repeat (split; [first [reflexivity | discriminate]|]). discriminate. }
  destruct (dispatch_proxy_routes_selected silent_env _ _ _ two_workers
              (worker_record "beef" "22" "ls" "/bin/ls" 13339)
              Hrouted eq_refl eq_refl) as [Hfwd _].
  exact Hfwd.
Defined.

(** X19: a selector that resolves to no worker is answered, when the
    request carries an identifier, with the application error (code
    -32000) that names the selector and points at list_instances;
    nothing is forwarded and the registry is left as it was. *)
Theorem dispatch_proxy_selector_not_found
    (E : env) (request : request_value) (m : dict) (name : string) (reg : registry) :
  routed E request m name ->
  truthy (fst (extract_binary name m)) = true ->
  find_instance reg (fst (extract_binary name m)) = Ok None ->
  dict_get_or m "id" JNull <> JNull ->
  result_of (dispatch_proxy E request reg)
  = Returned
      (JObj [("jsonrpc", JStr "2.0");
             ("error",
              JObj [("code", JNum (-32000));
                    ("message",
                     JStr ("No IDA instance found for binary: "
                           ++ format_value E (fst (extract_binary name m))
                           ++ ". Use list_instances to see available binaries."))]);
             ("id", dict_get_or m "id" JNull)])
  /\ forwarded (dispatch_proxy E request reg) = []
  /\ instances_after (dispatch_proxy E request reg) = reg
  /\ forall s, fst (extract_binary name m) = JStr s ->
               format_value E (fst (extract_binary name m)) = s.
Proof.
  intros Hrouted Ht Hfind Hid.
  rewrite (dispatch_proxy_routed E request m name reg Hrouted).
  unfold dispatch_routed. rewrite Ht, Hfind, extract_binary_id.
  split; [|split; [|split]].
  - destruct (dict_get_or m "id" JNull); try reflexivity. contradiction.
  - now destruct (dict_get_or m "id" JNull).
  - now destruct (dict_get_or m "id" JNull).
  - now intros s ->.
Qed.

Lemma dispatch_proxy_selector_not_found_witness :
  result_of
    (dispatch_proxy silent_env
       (ReqDict (decompile_call
                   [("addr", JStr "0x401000"); ("binary", JStr "grep")]
                   [("id", JNum 7)]))
       two_workers)
  = Returned
      (JObj [("jsonrpc", JStr "2.0");
             ("error",
              JObj [("code", JNum (-32000));
                    ("message",
                     JStr "No IDA instance found for binary: grep. Use list_instances to see available binaries.")]);
             ("id", JNum 7)]).
Proof.
  assert (Hrouted :
            routed silent_env
              (ReqDict (decompile_call
                          [("addr", JStr "0x401000"); ("binary", JStr "grep")]
                          [("id", JNum 7)]))
              (decompile_call
                 [("addr", JStr "0x401000"); ("binary", JStr "grep")]
                 [("id", JNum 7)])
              "tools/call").
  { repeat (split; [first [reflexivity | discriminate]|]). discriminate. }
  destruct (dispatch_proxy_selector_not_found silent_env _ _ _ two_workers
              Hrouted eq_refl eq_refl) as [Hres _].
  - discriminate.
  - exact Hres.
Defined.

(** What is forwarded on the routed way is the request without its
    selector, and what comes back is what the handler around the
    forward makes of it. *)
Lemma dispatch_routed_forward
    (E : env) (request : request_value) (name : string) (m : dict) (reg : registry)
    (call : forward_call) :
  forwarded (dispatch_routed E request name m reg) = [call] ->
  fwd_data call = JObj (snd (extract_binary name m))
  /\ result_of (dispatch_routed E request name m reg)
     = forward_routed E name (snd (extract_binary name m))
         (fwd_host call) (fwd_port call).
Proof.
  unfold dispatch_routed.
  destruct (truthy (fst (extract_binary name m))).
  - destruct (find_instance reg _) as [[i|]|];
      cbn [forwarded result_of].
    + intros [= <-]. split; reflexivity.
    + destruct (dict_get_or _ "id" JNull); cbn [forwarded]; discriminate.
    + discriminate.
  - destruct (Nat.eqb (get_instance_count reg) 1).
    + destruct (get_single_instance reg); cbn [forwarded result_of];
        intros [= <-]; split; reflexivity.
    + destruct (Nat.ltb 1 (get_instance_count reg)); cbn [forwarded result_of].
      * destruct (dict_get_or _ "id" JNull); cbn [forwarded]; discriminate.
      * intros [= <-]. split; reflexivity.
Qed.

(** X20: a forward that fails on the routed way never raises and never
    touches the registry: a request with an id is answered with the
    error reply of code -32000 that tells how to start the worker, the
    shortcut being Ctrl+Option+M on macOS and Ctrl+Alt+M elsewhere,
    followed by the traceback, with the text of the failure as data; a
    notification gets no reply value. *)
Theorem dispatch_proxy_transport_failure
    (E : env) (request : request_value) (m : dict) (name : string) (reg : registry)
    (call : forward_call) (e : exn) :
  routed E request m name ->
  forwarded (dispatch_proxy E request reg) = [call] ->
  forward_to_instance E (fwd_data call) (fwd_host call) (fwd_port call) = Raise e ->
  result_of (dispatch_proxy E request reg)
  = Returned
      (match dict_get_or m "id" JNull with
       | JNull => JNull
       | request_id =>
           JObj [("jsonrpc", JStr "2.0");
                 ("error",
                  JObj [("code", JNum (-32000));
                        ("message",
                         JStr ("Failed to connect to IDA Pro! Did you run Edit -> Plugins -> MCP ("
                               ++ (if String.eqb (sys_platform E) "darwin"
                                   then "Ctrl+Option+M" else "Ctrl+Alt+M")
                               ++ ") to start the server?" ++ newline
                               ++ format_exc E e));
                        ("data", JStr (str_of_exn E e))]);
                 ("id", request_id)]
       end)
  /\ instances_after (dispatch_proxy E request reg) = reg.
Proof.
  intros Hrouted Hfwd Hfail.
  pose proof Hrouted as [_ [_ [_ [_ [_ Hname]]]]].
  rewrite (dispatch_proxy_routed E request m name reg Hrouted) in Hfwd |- *.
  split; [|apply dispatch_routed_frame].
  destruct (dispatch_routed_forward E request name m reg call Hfwd) as [Hdata ->].
  rewrite Hdata in Hfail.
  rewrite (forward_routed_failure E name _ _ _ e Hname Hfail), extract_binary_id.
  destruct (dict_get_or m "id" JNull); reflexivity.
Qed.

Lemma dispatch_proxy_transport_failure_witness :
  result_of
    (dispatch_proxy silent_env
       (ReqDict (decompile_call [("addr", JStr "0x401000")] [("id", JNum 7)]))
       [])
  = Returned
      (JObj [("jsonrpc", JStr "2.0");
             ("error",
              JObj [("code", JNum (-32000));
                    ("message",
                     JStr ("Failed to connect to IDA Pro! Did you run Edit -> Plugins -> MCP (Ctrl+Alt+M) to start the server?"
                           ++ newline ++ "Traceback (most recent call last)"));
                    ("data", JStr "Connection refused")]);
             ("id", JNum 7)]).
Proof.
  assert (Hrouted :
            routed silent_env
              (ReqDict (decompile_call [("addr", JStr "0x401000")] [("id", JNum 7)]))
              (decompile_call [("addr", JStr "0x401000")] [("id", JNum 7)])
              "tools/call").
  { repeat (split; [first [reflexivity | discriminate]|]). discriminate. }
  exact (proj1 (dispatch_proxy_transport_failure silent_env _ _ _ []
                  {| fwd_data :=
                       JObj (decompile_call [("addr", JStr "0x401000")]
                               [("id", JNum 7)]);
                     fwd_host := JStr "127.0.0.1"; fwd_port := JNum 13337 |}
                  (OSError "Connection refused") Hrouted eq_refl eq_refl)).
Defined.

(** X21: with a worker registered, the capability listing is asked of
    the first registered worker, with the request as it came (a
    selector in it is neither looked up nor removed).  A listing of
    descriptors comes back with one tool more, the enumeration
    operation, unless the worker advertises it already; a forward that
    fails is answered with the "Failed to get tools" error reply. *)
Theorem dispatch_proxy_lists_first_worker
    (E : env) (request : request_value) (m : dict)
    (k : json) (i : instance) (rest : registry) :
  parse_request E request = Ok (JObj m) ->
  dict_get m "method" = Some (JStr "tools/list") ->
  forwarded (dispatch_proxy E request ((k, i) :: rest))
  = [{| fwd_data := JObj m; fwd_host := host i; fwd_port := port i |}]
  /\ looked_up (dispatch_proxy E request ((k, i) :: rest)) = []
  /\ request_after (dispatch_proxy E request ((k, i) :: rest)) = request
  /\ (forall response l,
        forward_to_instance E (JObj m) (host i) (port i) = Ok response ->
        tools_of response = Some l ->
        Forall descriptor l ->
        exists reply l1,
          result_of (dispatch_proxy E request ((k, i) :: rest)) = Returned reply
          /\ tools_of reply = Some l1
          /\ length l1
             = length l + (if Nat.eqb (enumeration_entries l) 0 then 1 else 0)
          /\ enumeration_entries l1 = Nat.max 1 (enumeration_entries l))
  /\ (forall e,
        forward_to_instance E (JObj m) (host i) (port i) = Raise e ->
        result_of (dispatch_proxy E request ((k, i) :: rest))
        = Returned
            (JObj [("jsonrpc", JStr "2.0");
                   ("error",
                    JObj [("code", JNum (-32000));
                          ("message",
                           JStr ("Failed to get tools: " ++ str_of_exn E e))]);
                   ("id", dict_get_or m "id" JNull)])).
Proof.
  intros Hparse Hmethod.
  rewrite (dispatch_proxy_tools_list E request m _ Hparse Hmethod).
  unfold dispatch_tools_list, get_instance_count.
  cbn [length Nat.eqb forwarded looked_up request_after result_of].
  split; [reflexivity|]. split; [reflexivity|]. split; [reflexivity|]. split.
  - intros response l -> Htools Hdesc. cbn [bind].
    destruct (add_binary_param_to_schema_tools response l Htools)
      as [rm [sm [-> [_ [_ ->]]]]].
    destruct (augment_tools_descriptors l Hdesc) as [l1 Hl1].
    rewrite Hl1. cbn [bind].
    exists (JObj (dict_set rm "result" (JObj (dict_set sm "tools" (JArr l1))))), l1.
    split; [reflexivity|]. split; [apply tools_of_set|].
    destruct (augment_tools_first l l1 Hl1) as [l' [names [Hl' [_ ->]]]].
    rewrite length_app, (mapM_length _ _ _ Hl'), enumeration_entries_app,
      (enumeration_entries_after l l' Hl').
    destruct (enumeration_entries l) as [|n]; split; cbn; lia.
  - intros e ->. reflexivity.
Qed.

Lemma dispatch_proxy_lists_first_worker_witness :
  forwarded
    (dispatch_proxy silent_env
       (ReqDict [("jsonrpc", JStr "2.0"); ("method", JStr "tools/list");
                 ("params", JObj [("binary", JStr "ls")]); ("id", JNum 2)])
       two_workers)
  = [{| fwd_data :=
          JObj [("jsonrpc", JStr "2.0"); ("method", JStr "tools/list");
                ("params", JObj [("binary", JStr "ls")]); ("id", JNum 2)];
        fwd_host := JStr "127.0.0.1"; fwd_port := JNum 13338 |}]
  /\ result_of
       (dispatch_proxy silent_env
          (ReqDict [("jsonrpc", JStr "2.0"); ("method", JStr "tools/list");
                    ("params", JObj [("binary", JStr "ls")]); ("id", JNum 2)])
          two_workers)
     = Returned
         (JObj [("jsonrpc", JStr "2.0");
                ("error",
                 JObj [("code", JNum (-32000));
                       ("message", JStr "Failed to get tools: Connection refused")]);
                ("id", JNum 2)]).
Proof.
  destruct (dispatch_proxy_lists_first_worker silent_env
              (ReqDict [("jsonrpc", JStr "2.0"); ("method", JStr "tools/list");
                        ("params", JObj [("binary", JStr "ls")]); ("id", JNum 2)])
              [("jsonrpc", JStr "2.0"); ("method", JStr "tools/list");
               ("params", JObj [("binary", JStr "ls")]); ("id", JNum 2)]
              (JStr "c0ffee") (worker_record "c0ffee" "11" "cat" "/bin/cat" 13338)
              [worker "beef" "22" "ls" "/bin/ls" 13339] eq_refl eq_refl)
    as [Hfwd [_ [_ [_ Hfail]]]].
  split; [exact Hfwd|].
  exact (Hfail (OSError "Connection refused") eq_refl).
Defined.

(** ** The worker's plugin loader *)

Lemma modules_del_filter {A : Type} (ms : modules A) (name : string) :
  modules_del ms name = filter (fun e => negb (String.eqb (fst e) name)) ms.
Proof.
  induction ms as [|[n v] t IH]; [reflexivity|].
  cbn [modules_del filter fst]. destruct (String.eqb n name); cbn [negb]; now rewrite IH.
Qed.

Lemma string_app_assoc (a b c : string) :
  ((a ++ b) ++ c = a ++ (b ++ c))%string.
Proof.
  induction a as [|x a IH]; [reflexivity|]. cbn [String.append]. now rewrite IH.
Qed.

Lemma filter_twice {A : Type} (f g : A -> bool) (l : list A) :
  filter f (filter g l) = filter (fun x => g x && f x) l.
Proof.
  induction l as [|x t IH]; [reflexivity|].
  cbn [filter]. destruct (g x); cbn [filter andb]; [destruct (f x)|];
    now rewrite IH.
Qed.

Lemma fold_modules_del {A : Type} (names : list string) :
  forall ms : modules A,
    fold_left modules_del names ms
    = filter (fun e => negb (existsb (String.eqb (fst e)) names)) ms.
Proof.
  induction names as [|n names IH]; intros ms; cbn [fold_left existsb].
  - symmetry. apply forallb_filter_id. now apply forallb_forall.
  - rewrite IH, modules_del_filter, filter_twice.
    apply filter_ext. intros [n0 v]. cbn [fst].
    destruct (String.eqb n0 n); destruct (existsb (String.eqb n0) names); reflexivity.
Qed.

(** X22: [unload_package] removes the package and its submodules and
    nothing else: what is left of the modules is, in the order they
    had, every module that is not of the package; and a module is of
    the package when its name is the package's or goes on from it
    with a dot, so a module whose name only starts as the package's
    does is kept. *)
Theorem unload_package_removes_package
    (A : Type) (package_name : string) (ms : modules A) :
  unload_package package_name ms
  = filter (fun e => negb (in_package package_name (fst e))) ms
  /\ forall mod_name,
       in_package package_name mod_name = true
       <-> mod_name = package_name
           \/ exists rest, mod_name = (package_name ++ "." ++ rest)%string.
Proof.
  split.
  - unfold unload_package. rewrite fold_modules_del.
    apply filter_ext_in. intros [n v] Hin. cbn [fst]. f_equal.
    destruct (in_package package_name n) eqn:Hn.
    + apply existsb_exists. exists n. split; [|apply String.eqb_refl].
      apply filter_In. split; [|exact Hn].
      apply in_map_iff. now exists (n, v).
    + apply Bool.not_true_is_false. intros Hex.
      apply existsb_exists in Hex. destruct Hex as [n' [Hin' Heq]].
      apply String.eqb_eq in Heq. subst n'.
      apply filter_In in Hin'. destruct Hin' as [_ Hyes]. congruence.
  - intros mod_name. unfold in_package. rewrite Bool.orb_true_iff, String.eqb_eq.
    rewrite prefix_app. split; intros [H | [rest H]]; auto; right; exists rest.
    + now rewrite <- string_app_assoc.
    + now rewrite string_app_assoc.
Qed.

(** ** Installing the client configuration *)

(** The loop of [copy_python_env] over any list of variables. *)
Lemma copy_python_env_loop (environ : string -> option string) (vars : list string) :
  forall (result : bool) (env : dict),
    fst (fold_left
           (fun (state : bool * dict) (var : string) =>
              match environ var with
              | Some value =>
                  if negb (String.eqb value EmptyString)
                  then (true, dict_set (snd state) var (JStr value))
                  else state
              | None => state
              end)
           vars (result, env))
    = result
      || existsb (fun var => match forwarded_var environ var with
                             | Some _ => true
                             | None => false
                             end) vars
    /\ forall k,
         dict_get
           (snd (fold_left
                   (fun (state : bool * dict) (var : string) =>
                      match environ var with
                      | Some value =>
                          if negb (String.eqb value EmptyString)
                          then (true, dict_set (snd state) var (JStr value))
                          else state
                      | None => state
                      end)
                   vars (result, env))) k
         = match (if existsb (String.eqb k) vars then forwarded_var environ k
                  else None) with
           | Some value => Some (JStr value)
           | None => dict_get env k
           end.
Proof.
  induction vars as [|var vars IH]; intros result env.
  - cbn [fold_left existsb fst snd]. split; [now rewrite Bool.orb_false_r | reflexivity].
  - cbn [fold_left existsb]. unfold forwarded_var at 1.
    destruct (environ var) as [value|] eqn:Hvar.
    + destruct (String.eqb value EmptyString) eqn:Hempty; cbn [negb snd].
      * destruct (IH result env) as [Hres Hget]. split; [exact Hres|].
        intros k. rewrite Hget.
        destruct (String.eqb k var) eqn:Hk; [|reflexivity].
        apply String.eqb_eq in Hk. subst k. cbn [orb].
        unfold forwarded_var. rewrite Hvar, Hempty.
        now destruct (existsb (String.eqb var) vars).
      * destruct (IH true (dict_set env var (JStr value))) as [Hres Hget].
        split; [rewrite Hres; now rewrite Bool.orb_true_r|].
        intros k. rewrite Hget.
        destruct (String.eqb k var) eqn:Hk.
        -- apply String.eqb_eq in Hk. subst k. cbn [orb].
           unfold forwarded_var. rewrite Hvar, Hempty.
           destruct (existsb (String.eqb var) vars); [reflexivity|].
           apply dict_get_set_same.
        -- apply String.eqb_neq in Hk. cbn [orb].
           destruct (if existsb (String.eqb k) vars then forwarded_var environ k
                     else None); [reflexivity|].
           apply dict_get_set_other. congruence.
    + destruct (IH result env) as [Hres Hget]. split; [exact Hres|].
      intros k. rewrite Hget.
      destruct (String.eqb k var) eqn:Hk; [|reflexivity].
      apply String.eqb_eq in Hk. subst k. cbn [orb].
      unfold forwarded_var. rewrite Hvar.
      now destruct (existsb (String.eqb var) vars).
Qed.

(** X23: [copy_python_env] copies the seven variables of Python that
    the environment sets to a value that is not empty, and those only:
    it returns True when there is one; afterwards [env] holds each of
    them with its value; and every other key of [env], a variable of
    the seven that is unset or empty among them, is as it was. *)
Theorem copy_python_env_copies (environ : string -> option string) (env : dict) :
  (fst (copy_python_env environ env) = true
   <-> exists var value,
         In var python_vars /\ forwarded_var environ var = Some value)
  /\ (forall var value,
        In var python_vars ->
        forwarded_var environ var = Some value ->
        dict_get (snd (copy_python_env environ env)) var = Some (JStr value))
  /\ (forall k,
        ~ In k python_vars \/ forwarded_var environ k = None ->
        dict_get (snd (copy_python_env environ env)) k = dict_get env k)
  /\ forall var value,
       forwarded_var environ var = Some value
       <-> environ var = Some value /\ value <> EmptyString.
Proof.
  unfold copy_python_env.
  destruct (copy_python_env_loop environ python_vars false env) as [Hres Hget].
  assert (Hmem : forall k, existsb (String.eqb k) python_vars = true
                           <-> In k python_vars).
  { intros k. rewrite existsb_exists. split.
    - intros [x [Hin Heq]]. apply String.eqb_eq in Heq. now subst x.
    - intros Hin. exists k. split; [exact Hin | apply String.eqb_refl]. }
  split; [|split; [|split]].
  - rewrite Hres. cbn [orb]. rewrite existsb_exists. split.
    + intros [var [Hin Hset]].
      destruct (forwarded_var environ var) as [value|] eqn:Hvar; [|discriminate].
      now exists var, value.
    + intros [var [value [Hin Hvar]]]. exists var. now rewrite Hvar.
  - intros var value Hin Hvar. rewrite Hget.
    apply Hmem in Hin. now rewrite Hin, Hvar.
  - intros k Hk. rewrite Hget.
    destruct (existsb (String.eqb k) python_vars) eqn:Hin; [|reflexivity].
    destruct Hk as [Hout | Hnone]; [|now rewrite Hnone].
    apply Hmem in Hin. contradiction.
  - intros var value. unfold forwarded_var.
    destruct (environ var) as [v|]; [|split; [discriminate | now intros [? _]]].
    destruct (String.eqb v EmptyString) eqn:Hv.
    + apply String.eqb_eq in Hv. subst v.
      split; [discriminate | intros [[= <-] Hne]; now contradiction Hne].
    + apply String.eqb_neq in Hv. split.
      * intros [= <-]. now split.
      * now intros [-> _].
Qed.

Lemma dict_set_set (m : dict) (k : string) (v v' : json) :
  dict_set (dict_set m k v) k v' = dict_set m k v'.
Proof.
  induction m as [|[k0 v0] t IH]; cbn [dict_set].
  - now rewrite String.eqb_refl.
  - destruct (String.eqb k0 k) eqn:Hk; cbn [dict_set]; rewrite Hk;
      [reflexivity | now rewrite IH].
Qed.

Lemma dict_del_set_new (m : dict) (k : string) (v : json) :
  dict_get m k = None -> dict_del (dict_set m k v) k = m.
Proof.
  induction m as [|[k0 v0] t IH]; cbn [dict_get dict_set dict_del].
  - now rewrite String.eqb_refl.
  - destruct (String.eqb k0 k) eqn:Hk; [discriminate|]. intros Hnone.
    cbn [dict_del]. rewrite Hk. now rewrite IH.
Qed.

Lemma dict_get_or_set_same (m : dict) (k : string) (v d : json) :
  dict_get_or (dict_set m k v) k d = v.
Proof. unfold dict_get_or. now rewrite dict_get_set_same. Qed.

Lemma lookup_path_key (m : dict) (k : string) :
  lookup_path (JObj m) [k] = dict_get m k.
Proof. cbn [lookup_path]. now destruct (dict_get m k). Qed.

(** *** Paths of keys *)

Lemma tables_along_empty (p : list string) : tables_along (JObj []) p.
Proof. destruct p; exists []; split; reflexivity || exact I. Qed.

Lemma tables_along_step (m : dict) (k : string) (t : list string) :
  tables_along (JObj m) (k :: t) ->
  tables_along (dict_get_or m k (JObj [])) t.
Proof.
  intros [m0 [[= <-] Hrest]]. unfold dict_get_or.
  destruct (dict_get m k); [exact Hrest | apply tables_along_empty].
Qed.

Lemma tables_along_dict (c : json) (p : list string) :
  tables_along c p -> exists m, c = JObj m.
Proof. destruct p; intros [m [-> _]]; now exists m. Qed.

Lemma table_at_empty (p : list string) : table_at (JObj []) p = JObj [].
Proof. induction p as [|k t IH]; [reflexivity | exact IH]. Qed.

Lemma tables_along_table_at (p : list string) :
  forall c, tables_along c p -> exists tm, table_at c p = JObj tm.
Proof.
  induction p as [|k t IH]; intros c Hc.
  - destruct Hc as [m [-> _]]. now exists m.
  - destruct (tables_along_dict _ _ Hc) as [m ->].
    apply (IH _ (tables_along_step m k t Hc)).
Qed.

Lemma lookup_put_path (p : list string) :
  forall c v q,
    tables_along c p ->
    lookup_path (put_path c p v) (p ++ q) = lookup_path v q.
Proof.
  induction p as [|k t IH]; intros c v q Hc; [reflexivity|].
  destruct (tables_along_dict _ _ Hc) as [m ->].
  cbn [put_path app lookup_path]. rewrite dict_get_set_same.
  apply IH, (tables_along_step m k t Hc).
Qed.

Lemma lookup_put_path_diverges (p : list string) :
  forall c v q,
    tables_along c p ->
    diverges p q ->
    lookup_path (put_path c p v) q = lookup_path c q.
Proof.
  induction p as [|a t IH]; intros c v q Hc Hq; [destruct q; destruct Hq|].
  destruct (tables_along_dict _ _ Hc) as [m ->].
  destruct q as [|b q]; [destruct Hq|].
  cbn [put_path lookup_path]. destruct Hq as [Hne | [<- Hq]].
  - now rewrite dict_get_set_other.
  - rewrite dict_get_set_same.
    rewrite (IH _ v q (tables_along_step m a t Hc) Hq).
    unfold dict_get_or. destruct (dict_get m a); [reflexivity|].
    destruct t; destruct q; try destruct Hq; reflexivity.
Qed.

Lemma lookup_table_at (p : list string) :
  forall c s,
    tables_along c p ->
    lookup_path c (p ++ [s]) = lookup_path (table_at c p) [s].
Proof.
  induction p as [|k t IH]; intros c s Hc; [reflexivity|].
  destruct (tables_along_dict _ _ Hc) as [m ->].
  change (lookup_path (JObj m) ((k :: t) ++ [s]))
    with (match dict_get m k with
          | Some v => lookup_path v (t ++ [s])
          | None => None
          end).
  change (table_at (JObj m) (k :: t)) with (table_at (dict_get_or m k (JObj [])) t).
  rewrite <- (IH _ s (tables_along_step m k t Hc)).
  unfold dict_get_or. destruct (dict_get m k); [reflexivity|].
  destruct t; reflexivity.
Qed.

Lemma tables_along_put_path (p : list string) :
  forall c tm, tables_along c p -> tables_along (put_path c p (JObj tm)) p.
Proof.
  induction p as [|k t IH]; intros c tm Hc; [exists tm; now split|].
  destruct (tables_along_dict _ _ Hc) as [m ->].
  cbn [put_path]. eexists. split; [reflexivity|].
  rewrite dict_get_set_same. apply IH, (tables_along_step m k t Hc).
Qed.

Lemma table_at_put_path (p : list string) :
  forall c v, tables_along c p -> table_at (put_path c p v) p = v.
Proof.
  induction p as [|k t IH]; intros c v Hc; [reflexivity|].
  destruct (tables_along_dict _ _ Hc) as [m ->].
  cbn [put_path table_at]. unfold dict_get_or at 1. rewrite dict_get_set_same.
  apply IH, (tables_along_step m k t Hc).
Qed.

Lemma put_path_twice (p : list string) :
  forall c v v',
    tables_along c p -> put_path (put_path c p v) p v' = put_path c p v'.
Proof.
  induction p as [|k t IH]; intros c v v' Hc; [reflexivity|].
  destruct (tables_along_dict _ _ Hc) as [m ->].
  simpl. rewrite dict_get_or_set_same.
  rewrite (IH _ v v' (tables_along_step m k t Hc)). now rewrite dict_set_set.
Qed.

Lemma lookup_path_tables (p : list string) :
  forall c tm,
    lookup_path c p = Some (JObj tm) ->
    tables_along c p /\ table_at c p = JObj tm /\ put_path c p (JObj tm) = c.
Proof.
  induction p as [|k t IH]; intros c tm Hc.
  - injection Hc as ->. split; [now exists tm | now split].
  - cbn [lookup_path] in Hc. destruct c as [| | | | |m]; try discriminate.
    destruct (dict_get m k) as [v|] eqn:Hk; [|discriminate].
    destruct (IH v tm Hc) as [Ht [Hat Hput]]. split; [|split].
    + exists m. split; [reflexivity|]. now rewrite Hk.
    + cbn [table_at]. unfold dict_get_or. now rewrite Hk.
    + cbn [put_path]. unfold dict_get_or. rewrite Hk, Hput.
      now rewrite (dict_set_same m k v Hk).
Qed.

(** *** The table of servers *)

Lemma ensure_table_dict (m : dict) (k : string) :
  ensure_table (JObj m) k
  = Ok (JObj (dict_set m k (dict_get_or m k (JObj [])))).
Proof.
  unfold ensure_table, py_in, py_setitem, dict_has, dict_get_or. cbn [bind].
  destruct (dict_get m k) as [v|] eqn:Hk; [|reflexivity].
  now rewrite (dict_set_same m k v Hk).
Qed.

(** On what is no dict, making the table and reading it raises. *)
Lemma ensure_table_no_dict (c : json) (k : string) :
  (forall m, c <> JObj m) ->
  ensure_table c k = Raise TypeError
  \/ (ensure_table c k = Ok c /\ py_getitem c k = Raise TypeError).
Proof.
  intros Hc. unfold ensure_table, py_in, py_setitem.
  destruct c as [| | | s | l | m]; try (now left).
  - cbn [bind]. destruct (str_contains k s); [right | left]; now split.
  - cbn [bind]. destruct (existsb (py_eq (JStr k)) l); [right | left]; now split.
  - now contradiction (Hc m).
Qed.

(** The two shapes of a client's configuration: the table of servers
    at the top, or one level down. *)
Lemma locate_servers_shape (name : string) (is_toml : bool) :
  (exists k,
     servers_path name is_toml = [k]
     /\ (forall config,
           locate_servers name is_toml config
           = (c <- ensure_table config k ;;
              t <- py_getitem c k ;;
              Ok (c, t)))
     /\ forall config table,
          store_servers name is_toml config table = py_setitem config k table)
  \/ (exists top_key nested_key,
        servers_path name is_toml = [top_key; nested_key]
        /\ (forall config,
              locate_servers name is_toml config
              = (c <- ensure_table config top_key ;;
                 top <- py_getitem c top_key ;;
                 top' <- ensure_table top nested_key ;;
                 c' <- py_setitem c top_key top' ;;
                 t <- py_getitem top' nested_key ;;
                 Ok (c', t)))
        /\ forall config table,
             store_servers name is_toml config table
             = (top <- py_getitem config top_key ;;
                top' <- py_setitem top nested_key table ;;
                py_setitem config top_key top')).
Proof.
  unfold servers_path, locate_servers, store_servers.
  destruct is_toml; [left; eexists; repeat split|].
  destruct (special_json_structures name) as [[[top_key|] nested_key]|].
  - right. exists top_key, nested_key. repeat split.
  - left. eexists. repeat split.
  - left. eexists. repeat split.
Qed.

(** What [locate_servers] returns: the configuration with its tables
    made and the table of servers, or a TypeError where something on
    the way is no dict. *)
Lemma locate_servers_cases (name : string) (is_toml : bool) (config : json) :
  match locate_servers name is_toml config with
  | Ok x =>
      x = (put_path config (servers_path name is_toml)
             (table_at config (servers_path name is_toml)),
           table_at config (servers_path name is_toml))
      /\ ((exists tm, table_at config (servers_path name is_toml) = JObj tm) ->
          tables_along config (servers_path name is_toml))
  | Raise e =>
      e = TypeError /\ ~ tables_along config (servers_path name is_toml)
  end.
Proof.
  destruct (locate_servers_shape name is_toml)
    as [[k [-> [-> _]]] | [k1 [k2 [-> [-> _]]]]].
  - destruct config as [| | | | |cm];
      try (match goal with
           | |- context [ensure_table ?c k] =>
               destruct (ensure_table_no_dict c k) as [-> | [-> Hget]];
               [discriminate | | ];
               cbn [bind]; try rewrite Hget; cbn [bind];
               (split; [reflexivity | intros [m [Hm _]]; discriminate])
           end).
    rewrite ensure_table_dict. cbn [bind py_getitem].
    rewrite dict_get_set_same. cbn [put_path table_at].
    split; [reflexivity|]. intros [tm Htm].
    exists cm. split; [reflexivity|].
    unfold dict_get_or in Htm. destruct (dict_get cm k); [|exact I].
    exists tm. now split.
  - destruct config as [| | | | |cm];
      try (match goal with
           | |- context [ensure_table ?c k1] =>
               destruct (ensure_table_no_dict c k1) as [-> | [-> Hget]];
               [discriminate | | ];
               cbn [bind]; try rewrite Hget; cbn [bind];
               (split; [reflexivity | intros [m [Hm _]]; discriminate])
           end).
    rewrite ensure_table_dict. cbn [bind py_getitem].
    rewrite dict_get_set_same. cbn [bind].
    assert (Htop : forall tpm,
               dict_get_or cm k1 (JObj []) = JObj tpm ->
               tables_along (JObj tpm) [k2] ->
               tables_along (JObj cm) [k1; k2]).
    { intros tpm Htpm Hrest. exists cm. split; [reflexivity|].
      unfold dict_get_or in Htpm. destruct (dict_get cm k1); [|exact I].
      now subst. }
    destruct (dict_get_or cm k1 (JObj [])) as [| | | | |tpm] eqn:Etop;
      try (match goal with
           | |- context [ensure_table ?c k2] =>
               destruct (ensure_table_no_dict c k2) as [-> | [-> Hget]];
               [discriminate | | ];
               cbn [bind py_setitem]; try rewrite Hget; cbn [bind];
               (split; [reflexivity|];
                intros Hc; apply tables_along_step in Hc;
                rewrite Etop in Hc; destruct Hc as [m [Hm _]]; discriminate)
           end).
    rewrite ensure_table_dict. cbn [bind py_setitem py_getitem].
    rewrite dict_get_set_same, dict_set_set. cbn [bind].
    cbn [put_path table_at]. rewrite Etop. cbn [put_path table_at].
    split; [reflexivity|]. intros [tm Htm].
    apply (Htop tpm eq_refl). exists tpm. split; [reflexivity|].
    unfold dict_get_or in Htm. destruct (dict_get tpm k2); [|exact I].
    exists tm. now split.
Qed.

Lemma store_servers_put (name : string) (is_toml : bool) (config x table : json) :
  tables_along config (servers_path name is_toml) ->
  store_servers name is_toml (put_path config (servers_path name is_toml) x) table
  = Ok (put_path config (servers_path name is_toml) table).
Proof.
  destruct (locate_servers_shape name is_toml)
    as [[k [-> [_ ->]]] | [k1 [k2 [-> [_ ->]]]]]; intros Hc.
  - destruct (tables_along_dict _ _ Hc) as [cm ->].
    cbn [put_path py_setitem]. now rewrite dict_set_set.
  - destruct (tables_along_dict _ _ Hc) as [cm ->].
    apply tables_along_step in Hc.
    destruct (tables_along_dict _ _ Hc) as [tpm Htop].
    cbn [put_path py_getitem]. rewrite Htop. cbn [put_path].
    rewrite dict_get_set_same. cbn [bind py_setitem].
    now rewrite !dict_set_set.
Qed.

(** What the migration leaves under the two names and the others. *)
Lemma migrate_old (mcp_name : string) (tm : dict) :
  mcp_name <> old_name -> dict_get (migrate mcp_name tm) old_name = None.
Proof.
  intros Hne. unfold migrate.
  destruct (dict_get tm old_name) eqn:Hold; [apply dict_get_del_same | exact Hold].
Qed.

Lemma migrate_new (mcp_name : string) (tm : dict) :
  mcp_name <> old_name ->
  dict_get (migrate mcp_name tm) mcp_name
  = match dict_get tm old_name with
    | Some v => Some v
    | None => dict_get tm mcp_name
    end.
Proof.
  intros Hne. unfold migrate.
  destruct (dict_get tm old_name) eqn:Hold; [|reflexivity].
  rewrite dict_get_del_other by congruence. apply dict_get_set_same.
Qed.

Lemma migrate_other (mcp_name : string) (tm : dict) (s : string) :
  s <> mcp_name -> s <> old_name ->
  dict_get (migrate mcp_name tm) s = dict_get tm s.
Proof.
  intros Hnew Hold. unfold migrate.
  destruct (dict_get tm old_name); [|reflexivity].
  rewrite dict_get_del_other by congruence.
  apply dict_get_set_other. congruence.
Qed.

(** What [update_servers] does with the table. *)
Lemma update_servers_cases
    (mcp_name : string) (uninstall : bool) (entry table : json) :
  match update_servers mcp_name uninstall entry table with
  | Ok (Some table') =>
      exists tm,
        table = JObj tm
        /\ table'
           = JObj (if uninstall then dict_del (migrate mcp_name tm) mcp_name
                   else dict_set (migrate mcp_name tm) mcp_name entry)
        /\ (uninstall = true -> dict_has (migrate mcp_name tm) mcp_name = true)
  | Ok None =>
      uninstall = true
      /\ forall tm, table = JObj tm -> dict_has (migrate mcp_name tm) mcp_name = false
  | Raise e => e = TypeError /\ forall tm, table <> JObj tm
  end.
Proof.
  unfold update_servers.
  destruct table as [| | | s | l | tm];
    try (cbn [py_in bind]; split; [reflexivity | discriminate]).
  - cbn [py_in bind]. destruct (str_contains old_name s);
      [cbn [py_getitem bind]; split; [reflexivity | discriminate]|].
    destruct uninstall; cbn [py_in py_setitem bind];
      [|split; [reflexivity | discriminate]].
    destruct (str_contains mcp_name s); cbn [negb py_delitem bind];
      [split; [reflexivity | discriminate] | split; [reflexivity | discriminate]].
  - cbn [py_in bind]. destruct (existsb (py_eq (JStr old_name)) l);
      [cbn [py_getitem bind]; split; [reflexivity | discriminate]|].
    destruct uninstall; cbn [py_in py_setitem bind];
      [|split; [reflexivity | discriminate]].
    destruct (existsb (py_eq (JStr mcp_name)) l); cbn [negb py_delitem bind];
      [split; [reflexivity | discriminate] | split; [reflexivity | discriminate]].
  - assert (Hmig :
              (if dict_has tm old_name
               then old <- py_getitem (JObj tm) old_name ;;
                    moved <- py_setitem (JObj tm) mcp_name old ;;
                    py_delitem moved old_name
               else Ok (JObj tm))
              = Ok (JObj (migrate mcp_name tm))).
    { unfold migrate, dict_has, py_getitem.
      destruct (dict_get tm old_name) as [v|] eqn:Hold; [|reflexivity].
      cbn [bind py_setitem py_delitem]. unfold dict_has.
      destruct (String.eqb mcp_name old_name) eqn:Hn.
      - apply String.eqb_eq in Hn. rewrite Hn, dict_get_set_same. reflexivity.
      - apply String.eqb_neq in Hn.
        rewrite dict_get_set_other by exact Hn. now rewrite Hold. }
    cbn [py_in bind]. rewrite Hmig. cbn [bind].
    destruct uninstall; cbn [py_in py_setitem bind].
    + destruct (dict_has (migrate mcp_name tm) mcp_name) eqn:Hin;
        cbn [negb py_delitem bind].
      * rewrite Hin. cbn [bind]. exists tm.
        split; [reflexivity|]. split; [reflexivity | intros _; exact Hin].
      * split; [reflexivity|]. now intros tm0 [= <-].
    + exists tm. split; [reflexivity|]. split; [reflexivity | discriminate].
Qed.

(** [install_config] on any configuration. *)
Lemma install_config_cases
    (mcp_name name : string) (is_toml uninstall : bool) (entry config : json) :
  match install_config mcp_name name is_toml uninstall entry config with
  | Ok (Some c') =>
      exists tm,
        tables_along config (servers_path name is_toml)
        /\ table_at config (servers_path name is_toml) = JObj tm
        /\ c' = put_path config (servers_path name is_toml)
                  (JObj (if uninstall
                         then dict_del (migrate mcp_name tm) mcp_name
                         else dict_set (migrate mcp_name tm) mcp_name entry))
        /\ (uninstall = true -> dict_has (migrate mcp_name tm) mcp_name = true)
  | Ok None =>
      uninstall = true
      /\ forall tm,
           table_at config (servers_path name is_toml) = JObj tm ->
           dict_has (migrate mcp_name tm) mcp_name = false
  | Raise e =>
      e = TypeError /\ ~ tables_along config (servers_path name is_toml)
  end.
Proof.
  unfold install_config.
  pose proof (locate_servers_cases name is_toml config) as Hloc.
  destruct (locate_servers name is_toml config) as [located|e]; [|exact Hloc].
  destruct Hloc as [-> Htables]. cbn [bind fst snd].
  pose proof (update_servers_cases mcp_name uninstall entry
                (table_at config (servers_path name is_toml))) as Hupd.
  destruct (update_servers mcp_name uninstall entry _) as [[table'|]|e];
    cbn [bind].
  - destruct Hupd as [tm [Htm [-> Hin]]].
    assert (Hc : tables_along config (servers_path name is_toml))
      by (apply Htables; now exists tm).
    rewrite (store_servers_put name is_toml config _ _ Hc). cbn [bind].
    exists tm. auto.
  - exact Hupd.
  - destruct Hupd as [-> Hno]. split; [reflexivity|]. intros Hc.
    destruct (tables_along_table_at _ _ Hc) as [tm Htm].
    now contradiction (Hno tm).
Qed.

(** [install_config] on a configuration whose tables are dicts. *)
Lemma install_config_runs
    (mcp_name name : string) (is_toml uninstall : bool) (entry config : json)
    (tm : dict) :
  tables_along config (servers_path name is_toml) ->
  table_at config (servers_path name is_toml) = JObj tm ->
  install_config mcp_name name is_toml uninstall entry config
  = Ok (if uninstall
        then if dict_has (migrate mcp_name tm) mcp_name
             then Some (put_path config (servers_path name is_toml)
                          (JObj (dict_del (migrate mcp_name tm) mcp_name)))
             else None
        else Some (put_path config (servers_path name is_toml)
                     (JObj (dict_set (migrate mcp_name tm) mcp_name entry)))).
Proof.
  intros Hc Htm.
  pose proof (install_config_cases mcp_name name is_toml uninstall entry config)
    as Hcases.
  destruct (install_config mcp_name name is_toml uninstall entry config)
    as [[c'|]|e].
  - destruct Hcases as [tm' [_ [Htm' [-> Hin]]]].
    assert (tm' = tm) by congruence. subst tm'.
    destruct uninstall; [|reflexivity]. now rewrite (Hin eq_refl).
  - destruct Hcases as [-> Hout]. now rewrite (Hout tm Htm).
  - destruct Hcases as [_ Hno]. contradiction.
Qed.

Lemma server_entry_table
    (name : string) (is_toml : bool) (config : json) (tm : dict) (s : string) :
  tables_along config (servers_path name is_toml) ->
  table_at config (servers_path name is_toml) = JObj tm ->
  server_entry name is_toml config s = dict_get tm s.
Proof.
  intros Hc Htm. unfold server_entry.
  rewrite (lookup_table_at _ _ s Hc), Htm. apply lookup_path_key.
Qed.

Lemma server_entry_put
    (name : string) (is_toml : bool) (config : json) (tm : dict) (s : string) :
  tables_along config (servers_path name is_toml) ->
  server_entry name is_toml
    (put_path config (servers_path name is_toml) (JObj tm)) s
  = dict_get tm s.
Proof.
  intros Hc. unfold server_entry.
  rewrite (lookup_put_path _ _ _ [s] Hc). apply lookup_path_key.
Qed.

(** X24: installing on a configuration whose tables are dicts, or are
    missing, succeeds: the configuration written holds the entry under
    the server's name and nothing under the old name, whose entry, if
    there was one, is gone; every other server is as it was, and so is
    everything of the configuration off the way to the table of
    servers. *)
Theorem install_config_installs
    (mcp_name name : string) (is_toml : bool) (entry config : json) :
  tables_along config (servers_path name is_toml) ->
  exists c',
    install_config mcp_name name is_toml false entry config = Ok (Some c')
    /\ server_entry name is_toml c' mcp_name = Some entry
    /\ (mcp_name <> old_name -> server_entry name is_toml c' old_name = None)
    /\ (forall s,
          s <> mcp_name -> s <> old_name ->
          server_entry name is_toml c' s = server_entry name is_toml config s)
    /\ (forall q,
          diverges (servers_path name is_toml) q ->
          lookup_path c' q = lookup_path config q).
Proof.
  intros Hc. destruct (tables_along_table_at _ _ Hc) as [tm Htm].
  rewrite (install_config_runs mcp_name name is_toml false entry config tm Hc Htm).
  eexists. split; [reflexivity|]. split; [|split; [|split]].
  - rewrite (server_entry_put _ _ _ _ _ Hc). apply dict_get_set_same.
  - intros Hne. rewrite (server_entry_put _ _ _ _ _ Hc).
    rewrite dict_get_set_other by exact Hne. now apply migrate_old.
  - intros s Hnew Hold. rewrite (server_entry_put _ _ _ _ _ Hc).
    rewrite (server_entry_table _ _ _ tm s Hc Htm).
    rewrite dict_get_set_other by congruence. now apply migrate_other.
  - intros q Hq. now apply lookup_put_path_diverges.
Qed.

Lemma install_config_installs_witness :
  exists c',
    install_config "ida-pro-mcp" "VS Code" false false stdio_entry vscode_config
    = Ok (Some c')
    /\ server_entry "VS Code" false c' "ida-pro-mcp" = Some stdio_entry
    /\ server_entry "VS Code" false c' "other"
       = Some (JObj [("command", JStr "other-mcp")])
    /\ lookup_path c' ["editor.fontSize"] = Some (JNum 14).
Proof.
  assert (Htables : tables_along vscode_config (servers_path "VS Code" false)).
  { apply (lookup_path_tables _ _ [("other", JObj [("command", JStr "other-mcp")])]).
    reflexivity. }
  destruct (install_config_installs "ida-pro-mcp" "VS Code" false stdio_entry
              vscode_config Htables)
    as [c' [Hrun [Hnew [_ [Hrest Hframe]]]]].
  exists c'. split; [exact Hrun|]. split; [exact Hnew|]. split.
  - rewrite Hrest by discriminate. reflexivity.
  - rewrite Hframe; [reflexivity|]. left. discriminate.
Defined.

(** X25: uninstalling from a configuration whose tables are dicts
    writes nothing when the server is installed under neither name;
    when it is installed under its name or under the old one, the
    configuration written holds it under neither, every other server
    is as it was, and so is everything of the configuration off the
    way to the table of servers. *)
Theorem install_config_uninstalls
    (mcp_name name : string) (is_toml : bool) (entry config : json) :
  mcp_name <> old_name ->
  tables_along config (servers_path name is_toml) ->
  exists r,
    install_config mcp_name name is_toml true entry config = Ok r
    /\ match r with
       | None =>
           server_entry name is_toml config mcp_name = None
           /\ server_entry name is_toml config old_name = None
       | Some c' =>
           (server_entry name is_toml config mcp_name <> None
            \/ server_entry name is_toml config old_name <> None)
           /\ server_entry name is_toml c' mcp_name = None
           /\ server_entry name is_toml c' old_name = None
           /\ (forall s,
                 s <> mcp_name -> s <> old_name ->
                 server_entry name is_toml c' s
                 = server_entry name is_toml config s)
           /\ (forall q,
                 diverges (servers_path name is_toml) q ->
                 lookup_path c' q = lookup_path config q)
       end.
Proof.
  intros Hne Hc. destruct (tables_along_table_at _ _ Hc) as [tm Htm].
  rewrite (install_config_runs mcp_name name is_toml true entry config tm Hc Htm).
  eexists. split; [reflexivity|].
  rewrite !(server_entry_table _ _ _ tm _ Hc Htm).
  destruct (dict_has (migrate mcp_name tm) mcp_name) eqn:Hin;
    unfold dict_has in Hin; rewrite (migrate_new _ _ Hne) in Hin.
  - split; [|split; [|split; [|split]]].
    + destruct (dict_get tm old_name); [right; discriminate|].
      destruct (dict_get tm mcp_name); [left; discriminate | discriminate].
    + rewrite (server_entry_put _ _ _ _ _ Hc). apply dict_get_del_same.
    + rewrite (server_entry_put _ _ _ _ _ Hc).
      rewrite dict_get_del_other by exact Hne. now apply migrate_old.
    + intros s Hnew Hold. rewrite (server_entry_put _ _ _ _ _ Hc).
      rewrite (server_entry_table _ _ _ tm s Hc Htm).
      rewrite dict_get_del_other by congruence. now apply migrate_other.
    + intros q Hq. now apply lookup_put_path_diverges.
  - destruct (dict_get tm old_name); [discriminate|].
    destruct (dict_get tm mcp_name); [discriminate | now split].
Qed.

Lemma install_config_uninstalls_witness :
  exists c',
    install_config "ida-pro-mcp" "VS Code" false true stdio_entry vscode_old_config
    = Ok (Some c')
    /\ server_entry "VS Code" false c' "github.com/mrexodia/ida-pro-mcp" = None
    /\ server_entry "VS Code" false c' "other"
       = Some (JObj [("command", JStr "other-mcp")]).
Proof.
  assert (Htables : tables_along vscode_old_config (servers_path "VS Code" false)).
  { apply (lookup_path_tables _ _
             [("github.com/mrexodia/ida-pro-mcp", stdio_entry);
              ("other", JObj [("command", JStr "other-mcp")])]).
    reflexivity. }
  destruct (install_config_uninstalls "ida-pro-mcp" "VS Code" false stdio_entry
              vscode_old_config) as [r [Hrun Hr]];
    [discriminate | exact Htables |].
  destruct r as [c'|].
  - destruct Hr as [_ [_ [Hold [Hrest _]]]].
    exists c'. split; [exact Hrun|]. split; [exact Hold|].
    rewrite Hrest by discriminate. reflexivity.
  - destruct Hr as [_ Hold]. discriminate Hold.
Defined.

(** X26: when the installer raises.  It is a TypeError and nothing
    else, raised where the configuration, the table of servers or a
    table on the way to it is there and is no dict: installing on such
    a configuration always raises, and whatever [install_config]
    writes, it writes for a configuration whose tables are dicts. *)
Theorem install_config_raises
    (mcp_name name : string) (is_toml : bool) (entry config : json) :
  (~ tables_along config (servers_path name is_toml) ->
   install_config mcp_name name is_toml false entry config = Raise TypeError)
  /\ (forall uninstall e,
        install_config mcp_name name is_toml uninstall entry config = Raise e ->
        e = TypeError /\ ~ tables_along config (servers_path name is_toml))
  /\ (forall uninstall c',
        install_config mcp_name name is_toml uninstall entry config = Ok (Some c') ->
        tables_along config (servers_path name is_toml)).
Proof.
  split; [|split].
  - intros Hno.
    pose proof (install_config_cases mcp_name name is_toml false entry config)
      as Hcases.
    destruct (install_config mcp_name name is_toml false entry config)
      as [[c'|]|e].
    + destruct Hcases as [tm [Hc _]]. contradiction.
    + destruct Hcases as [Hu _]. discriminate.
    + destruct Hcases as [-> _]. reflexivity.
  - intros uninstall e Hrun.
    pose proof (install_config_cases mcp_name name is_toml uninstall entry config)
      as Hcases.
    rewrite Hrun in Hcases. exact Hcases.
  - intros uninstall c' Hrun.
    pose proof (install_config_cases mcp_name name is_toml uninstall entry config)
      as Hcases.
    rewrite Hrun in Hcases. now destruct Hcases as [tm [Hc _]].
Qed.

Lemma install_config_raises_witness :
  install_config "ida-pro-mcp" "Cursor" false false stdio_entry
    (JObj [("mcpServers", JArr [])])
  = Raise TypeError.
Proof.
  apply (proj1 (install_config_raises "ida-pro-mcp" "Cursor" false stdio_entry
                  (JObj [("mcpServers", JArr [])]))).
  intros [m [[= <-] [tm [Htm _]]]]. discriminate Htm.
Defined.

(** X27: installing is idempotent: installing again on the
    configuration an install has written writes the same
    configuration. *)
Theorem install_config_twice
    (mcp_name name : string) (is_toml : bool) (entry config c' : json) :
  mcp_name <> old_name ->
  install_config mcp_name name is_toml false entry config = Ok (Some c') ->
  install_config mcp_name name is_toml false entry c' = Ok (Some c').
Proof.
  intros Hne Hrun.
  pose proof (install_config_cases mcp_name name is_toml false entry config)
    as Hcases.
  rewrite Hrun in Hcases. destruct Hcases as [tm [Hc [Htm [-> _]]]].
  rewrite (install_config_runs mcp_name name is_toml false entry _
             (dict_set (migrate mcp_name tm) mcp_name entry)).
  - assert (Hmig : migrate mcp_name (dict_set (migrate mcp_name tm) mcp_name entry)
                   = dict_set (migrate mcp_name tm) mcp_name entry).
    { unfold migrate at 1.
      rewrite dict_get_set_other by exact Hne.
      now rewrite (migrate_old _ tm Hne). }
    rewrite Hmig, dict_set_twice. now rewrite (put_path_twice _ _ _ _ Hc).
  - now apply tables_along_put_path.
  - now apply table_at_put_path.
Qed.

Lemma install_config_twice_witness :
  install_config "ida-pro-mcp" "VS Code" false false stdio_entry vscode_installed
  = Ok (Some vscode_installed).
Proof.
  apply (install_config_twice "ida-pro-mcp" "VS Code" false stdio_entry
           vscode_config vscode_installed).
  - discriminate.
  - reflexivity.
Defined.

(** X28: uninstalling undoes installing: on a configuration that has
    a table of servers without the server, under its name or the old
    one, installing and then uninstalling writes the configuration
    back as it was. *)
Theorem install_config_round_trip
    (mcp_name name : string) (is_toml : bool) (entry config : json) (tm : dict) :
  mcp_name <> old_name ->
  lookup_path config (servers_path name is_toml) = Some (JObj tm) ->
  dict_get tm mcp_name = None ->
  dict_get tm old_name = None ->
  exists c1,
    install_config mcp_name name is_toml false entry config = Ok (Some c1)
    /\ install_config mcp_name name is_toml true entry c1 = Ok (Some config).
Proof.
  intros Hne Htable Hnew Hold.
  destruct (lookup_path_tables _ _ _ Htable) as [Hc [Htm Hput]].
  assert (Hmig : migrate mcp_name tm = tm) by (unfold migrate; now rewrite Hold).
  rewrite (install_config_runs mcp_name name is_toml false entry config tm Hc Htm).
  rewrite Hmig. eexists. split; [reflexivity|].
  rewrite (install_config_runs mcp_name name is_toml true entry _
             (dict_set tm mcp_name entry)).
  - assert (Hmig' : migrate mcp_name (dict_set tm mcp_name entry)
                    = dict_set tm mcp_name entry).
    { unfold migrate. rewrite dict_get_set_other by exact Hne. now rewrite Hold. }
    rewrite Hmig'. unfold dict_has. rewrite dict_get_set_same.
    rewrite (dict_del_set_new tm mcp_name entry Hnew).
    now rewrite (put_path_twice _ _ _ _ Hc), Hput.
  - now apply tables_along_put_path.
  - now apply table_at_put_path.
Qed.

Lemma install_config_round_trip_witness :
  install_config "ida-pro-mcp" "VS Code" false true stdio_entry vscode_installed
  = Ok (Some vscode_config).
Proof.
  destruct (install_config_round_trip "ida-pro-mcp" "VS Code" false stdio_entry
              vscode_config [("other", JObj [("command", JStr "other-mcp")])])
    as [c1 [Hinstall Huninstall]];
    [discriminate | reflexivity | reflexivity | reflexivity |].
  assert (Hc1 : install_config "ida-pro-mcp" "VS Code" false false stdio_entry
                  vscode_config = Ok (Some vscode_installed)) by reflexivity.
  assert (c1 = vscode_installed) by congruence. subst c1. exact Huninstall.
Defined.
